(** * The GRR communicator: encryption and authentication of message batches

    A shallow embedding of [lib/communicator.py].  The Python classes
    [PubKeyCache], [Cipher], [ReceivedCipher] and [Communicator] become
    records and functions in a state-and-exception monad; the external
    libraries (M2Crypto, zlib, protobuf, the clock) are the fields of the
    class [Primitives]. *)

From Stdlib Require Import ZArith List Bool Lia String.
From Stdlib.Strings Require Import Byte.
Import ListNotations.

Set Implicit Arguments.

(** ** Byte strings (Python 2 [str]) *)

Definition bytes := list byte.

Definition bytes_eq_dec : forall a b : bytes, {a = b} + {a <> b} :=
  list_eq_dec byte_eq_dec.

Definition bytes_eqb (a b : bytes) : bool :=
  if bytes_eq_dec a b then true else false.

(** Truth value of a [str]: the empty string is false. *)
Definition truthy (b : bytes) : bool :=
  match b with [] => false | _ :: _ => true end.

(** ** Exceptions *)

Inductive exn : Type :=
| KeyError (msg : string)
| IOError (msg : string)
| RuntimeError (msg : string)
| ValueError
| AttributeError (attr : string)
| RSAError
| X509Error
| EVPError
| DecodeError                     (* google.protobuf.message.DecodeError *)
| DecodingError (msg : string)
| DecryptionError (msg : string)
| RekeyError (msg : string)
| UnknownClientCert (msg : string).

Inductive Result (A : Type) : Type :=
| Ok (a : A)
| Err (e : exn).
Arguments Ok {A} a.
Arguments Err {A} e.

(** ** utils.FastStore and utils.TimeBasedCache *)

Module FastStore.

  (** Modelled from the spec: [utils.FastStore] is not part of the sources;
      the specification describes it as a bounded LRU store.  Entries are
      kept oldest first, a hit makes the entry the youngest, and an insert
      beyond [max_size] drops the oldest entries. *)
Record t (V : Type) : Type := Make { max_size : N; entries : list (bytes * V) }.

Section Ops.
Variable V : Type.

Fixpoint find (k : bytes) (l : list (bytes * V)) : option V :=
      match l with
      | [] => None
      | (k', v) :: l' => if bytes_eqb k k' then Some v else find k l'
      end.

Fixpoint remove (k : bytes) (l : list (bytes * V)) : list (bytes * V) :=
      match l with
      | [] => []
      | (k', v) :: l' =>
          if bytes_eqb k k' then remove k l' else (k', v) :: remove k l'
      end.

Fixpoint replace (k : bytes) (v : V) (l : list (bytes * V)) : list (bytes * V) :=
      match l with
      | [] => []
      | (k', v') :: l' =>
          if bytes_eqb k k' then (k', v) :: replace k v l'
          else (k', v') :: replace k v l'
      end.

Definition Expire (n : N) (l : list (bytes * V)) : list (bytes * V) :=
      skipn (N.to_nat (N.of_nat (List.length l) - n)) l.

Definition empty (n : N) : t V := Make n [].

    (** [Get] raises [KeyError] on a miss ([None] here). *)
Definition Get (k : bytes) (s : t V) : option (V * t V) :=
      match find k (entries s) with
      | None => None
      | Some v => Some (v, Make (max_size s) (remove k (entries s) ++ [(k, v)]))
      end.

Definition Put (k : bytes) (v : V) (s : t V) : t V :=
      Make (max_size s) (Expire (max_size s) (remove k (entries s) ++ [(k, v)])).

    (** In-place mutation of the object stored under [k], if there is one. *)
Definition Mutate (k : bytes) (v : V) (s : t V) : t V :=
      Make (max_size s) (replace k v (entries s)).

Definition values (s : t V) : list V := map snd (entries s).
End Ops.

End FastStore.

Module TimeBasedCache.

  (** Modelled from the spec: [utils.TimeBasedCache] is not part of the
      sources; the specification describes a store with time-based expiry.
      Every entry carries the time of its insertion and is no longer
      served once it is older than [max_age]. *)
Record t (V : Type) : Type :=
    Make { max_age : Z; store : FastStore.t (V * Z) }.

Section Ops.
Variable V : Type.

Definition empty (size : N) (age : Z) : t V :=
      Make age (FastStore.empty (V * Z) size).

Definition Get (now : Z) (k : bytes) (c : t V) : option (V * t V) :=
      match FastStore.Get k (store c) with
      | None => None
      | Some ((v, put_time), s') =>
          if (put_time + max_age c <? now)%Z then None
          else Some (v, Make (max_age c) s')
      end.

Definition Put (now : Z) (k : bytes) (v : V) (c : t V) : t V :=
      Make (max_age c) (FastStore.Put k (v, now) (store c)).

Definition values (c : t V) : list V := map fst (FastStore.values (store c)).
End Ops.

End TimeBasedCache.

(** ** Protocol buffers of jobs.proto *)

Record CipherProperties : Type := {
  name : bytes;
  key : bytes;
  iv : bytes;
  hmac_key : bytes
}.

Record CipherMetadata : Type := {
  source : bytes;
  signature : bytes
}.

(** SignedMessageList.CompressionType *)
Definition UNCOMPRESSED : Z := 0.
Definition ZCOMPRESSION : Z := 1.

Record SignedMessageList : Type := {
  sml_timestamp : Z;
  sml_compression : Z;
  sml_message_list : bytes;
  sml_source : bytes;
  sml_signature : bytes
}.

(** GrrMessage.AuthorizationState *)
Inductive AuthorizationState : Type := UNAUTHENTICATED | AUTHENTICATED.

(** A [GrrMessage]: the two fields the communicator writes, and the rest of
    the message as an opaque payload. *)
Record GrrMessage : Type := {
  payload : bytes;
  auth_state : AuthorizationState;
  msg_source : bytes
}.

Record MessageList : Type := { job : list GrrMessage }.

Record ClientCommunication : Type := {
  api_version : Z;
  encrypted_cipher : bytes;
  encrypted_cipher_metadata : bytes;
  cc_iv : bytes;
  encrypted : bytes;
  hmac : bytes
}.

(** A freshly constructed protocol buffer has every field at its default. *)
Definition new_SignedMessageList (timestamp : Z) : SignedMessageList :=
  {| sml_timestamp := timestamp; sml_compression := UNCOMPRESSED;
     sml_message_list := []; sml_source := []; sml_signature := [] |}.

Definition new_ClientCommunication : ClientCommunication :=
  {| api_version := 0; encrypted_cipher := []; encrypted_cipher_metadata := [];
     cc_iv := []; encrypted := []; hmac := [] |}.

(** The range of a [uint64] field; assigning anything else raises. *)
Definition uint64_ok (z : Z) : bool := ((0 <=? z) && (z <? 2 ^ 64))%Z.

(** ** The external libraries *)

(** M2Crypto ([Rand], [RSA], [EVP], [X509]), [hashlib], [zlib], the protobuf
    runtime and the two cache sizes of [utils].  A primitive that can raise
    returns [None]; the exception it stands for is chosen at the call. *)
Class Primitives : Type := {
  Rng : Type;
  RSAPriv : Type;
  RSAPub : Type;
  X509Cert : Type;
  (* Rand *)
  rand_pseudo_bytes : nat -> Rng -> bytes * Rng;
  rand_add : bytes -> Rng -> Rng;
  (* RSA *)
  load_key_string : bytes -> option RSAPriv;
  load_pub_key_bio : bytes -> option RSAPub;
  rsa_sign : RSAPriv -> bytes -> string -> option bytes;
  rsa_verify : RSAPub -> bytes -> bytes -> string -> option bool;
  public_encrypt : RSAPub -> bytes -> Rng -> option bytes * Rng;
  private_decrypt : RSAPriv -> bytes -> option bytes;
  (* X509 *)
  load_cert_string : bytes -> option X509Cert;
  cert_subject_cn : X509Cert -> option bytes;
  cert_pubkey_pem : X509Cert -> bytes;
  (* EVP *)
  evp_encrypt : string -> bytes -> bytes -> bytes -> bytes;
  evp_decrypt : string -> bytes -> bytes -> bytes -> option bytes;
  evp_hmac : bytes -> string -> bytes -> bytes;
  (* hashlib, zlib *)
  sha256 : bytes -> bytes;
  zlib_compress : bytes -> bytes;
  zlib_decompress : bytes -> option bytes;
  (* protobuf *)
  CipherProperties_Serialize : CipherProperties -> bytes;
  CipherProperties_Parse : bytes -> option CipherProperties;
  CipherMetadata_Serialize : CipherMetadata -> bytes;
  CipherMetadata_Parse : bytes -> option CipherMetadata;
  SignedMessageList_Serialize : SignedMessageList -> bytes;
  SignedMessageList_Parse : bytes -> option SignedMessageList;
  MessageList_Serialize : MessageList -> bytes;
  MessageList_Parse : bytes -> option MessageList;
  (* utils.TimeBasedCache() defaults *)
  TimeBasedCache_max_size : N;
  TimeBasedCache_max_age : Z
}.

Section Communicator.

Context {P : Primitives}.

(** ** class Cipher / class ReceivedCipher *)

Definition hash_function : bytes -> bytes := sha256.
Definition hash_function_name : string := "sha256".
Definition cipher_name : string := "aes_128_cbc".
Definition key_size : nat := 128.
Definition iv_size : nat := 128.

(** The bytes of the protobuf field [name]. *)
Definition cipher_name_bytes : bytes := list_byte_of_string cipher_name.

Record Cipher : Type := {
  c_private_key : bytes;
  c_cipher : CipherProperties;
  c_cipher_metadata : CipherMetadata;
  c_encrypted_cipher : bytes;
  c_encrypted_cipher_metadata : bytes;
  c_signature_verified : bool
}.

(** [rc_cipher_metadata = None] is the Python [None] of the version 2 path. *)
Record ReceivedCipher : Type := {
  rc_private_key : bytes;
  rc_encrypted_cipher : bytes;
  rc_serialized_cipher : bytes;
  rc_cipher : CipherProperties;
  rc_encrypted_cipher_metadata : option bytes;
  rc_cipher_metadata : option CipherMetadata;
  rc_signature_verified : bool
}.

Definition set_rc_signature_verified (b : bool) (c : ReceivedCipher) : ReceivedCipher :=
  {| rc_private_key := rc_private_key c;
     rc_encrypted_cipher := rc_encrypted_cipher c;
     rc_serialized_cipher := rc_serialized_cipher c;
     rc_cipher := rc_cipher c;
     rc_encrypted_cipher_metadata := rc_encrypted_cipher_metadata c;
     rc_cipher_metadata := rc_cipher_metadata c;
     rc_signature_verified := b |}.

Definition set_rc_cipher_metadata (m : CipherMetadata) (c : ReceivedCipher) : ReceivedCipher :=
  {| rc_private_key := rc_private_key c;
     rc_encrypted_cipher := rc_encrypted_cipher c;
     rc_serialized_cipher := rc_serialized_cipher c;
     rc_cipher := rc_cipher c;
     rc_encrypted_cipher_metadata := rc_encrypted_cipher_metadata c;
     rc_cipher_metadata := Some m;
     rc_signature_verified := rc_signature_verified c |}.

(** ** Process and communicator state *)

Record Stats : Type := {
  grr_rsa_operations : nat;
  grr_authenticated_messages : nat
}.

(** [timestamp = None]: the attribute [self.timestamp] does not exist.
    [private_decrypt_calls] is not a variable of the program: it counts the
    calls of [private_key.private_decrypt]. *)
Record State : Type := {
  (* the process *)
  rng : Rng;
  time_us : Z;                       (* long(time.time() * 1000000) *)
  stats : Stats;
  FLAGS_compression : string;
  private_decrypt_calls : nat;
  (* the Communicator object *)
  server_name : option bytes;
  cipher_cache : TimeBasedCache.t Cipher;
  private_key : bytes;
  encrypted_cipher_cache : FastStore.t ReceivedCipher;
  pub_key_cache : FastStore.t bytes;
  common_name : bytes;
  timestamp : option Z
}.

Definition set_rng (r : Rng) (s : State) : State :=
  {| rng := r; time_us := time_us s; stats := stats s;
     FLAGS_compression := FLAGS_compression s;
     private_decrypt_calls := private_decrypt_calls s;
     server_name := server_name s; cipher_cache := cipher_cache s;
     private_key := private_key s;
     encrypted_cipher_cache := encrypted_cipher_cache s;
     pub_key_cache := pub_key_cache s; common_name := common_name s;
     timestamp := timestamp s |}.

Definition set_stats (x : Stats) (s : State) : State :=
  {| rng := rng s; time_us := time_us s; stats := x;
     FLAGS_compression := FLAGS_compression s;
     private_decrypt_calls := private_decrypt_calls s;
     server_name := server_name s; cipher_cache := cipher_cache s;
     private_key := private_key s;
     encrypted_cipher_cache := encrypted_cipher_cache s;
     pub_key_cache := pub_key_cache s; common_name := common_name s;
     timestamp := timestamp s |}.

Definition set_private_decrypt_calls (n : nat) (s : State) : State :=
  {| rng := rng s; time_us := time_us s; stats := stats s;
     FLAGS_compression := FLAGS_compression s;
     private_decrypt_calls := n;
     server_name := server_name s; cipher_cache := cipher_cache s;
     private_key := private_key s;
     encrypted_cipher_cache := encrypted_cipher_cache s;
     pub_key_cache := pub_key_cache s; common_name := common_name s;
     timestamp := timestamp s |}.

Definition set_cipher_cache (c : TimeBasedCache.t Cipher) (s : State) : State :=
  {| rng := rng s; time_us := time_us s; stats := stats s;
     FLAGS_compression := FLAGS_compression s;
     private_decrypt_calls := private_decrypt_calls s;
     server_name := server_name s; cipher_cache := c;
     private_key := private_key s;
     encrypted_cipher_cache := encrypted_cipher_cache s;
     pub_key_cache := pub_key_cache s; common_name := common_name s;
     timestamp := timestamp s |}.

Definition set_encrypted_cipher_cache (c : FastStore.t ReceivedCipher) (s : State) : State :=
  {| rng := rng s; time_us := time_us s; stats := stats s;
     FLAGS_compression := FLAGS_compression s;
     private_decrypt_calls := private_decrypt_calls s;
     server_name := server_name s; cipher_cache := cipher_cache s;
     private_key := private_key s;
     encrypted_cipher_cache := c;
     pub_key_cache := pub_key_cache s; common_name := common_name s;
     timestamp := timestamp s |}.

Definition set_pub_key_cache (c : FastStore.t bytes) (s : State) : State :=
  {| rng := rng s; time_us := time_us s; stats := stats s;
     FLAGS_compression := FLAGS_compression s;
     private_decrypt_calls := private_decrypt_calls s;
     server_name := server_name s; cipher_cache := cipher_cache s;
     private_key := private_key s;
     encrypted_cipher_cache := encrypted_cipher_cache s;
     pub_key_cache := c; common_name := common_name s;
     timestamp := timestamp s |}.

Definition set_timestamp (t : option Z) (s : State) : State :=
  {| rng := rng s; time_us := time_us s; stats := stats s;
     FLAGS_compression := FLAGS_compression s;
     private_decrypt_calls := private_decrypt_calls s;
     server_name := server_name s; cipher_cache := cipher_cache s;
     private_key := private_key s;
     encrypted_cipher_cache := encrypted_cipher_cache s;
     pub_key_cache := pub_key_cache s; common_name := common_name s;
     timestamp := t |}.

(** ** The monad: state that survives an exception *)

Definition M (A : Type) : Type := State -> Result A * State.

Definition ret {A} (a : A) : M A := fun s => (Ok a, s).

Definition raise {A} (e : exn) : M A := fun s => (Err e, s).

Definition bind {A B} (m : M A) (k : A -> M B) : M B :=
  fun s => match m s with
           | (Ok a, s') => k a s'
           | (Err e, s') => (Err e, s')
           end.

Definition gets {A} (f : State -> A) : M A := fun s => (Ok (f s), s).

Definition modify (f : State -> State) : M unit := fun s => (Ok tt, f s).

(** A primitive that raises [e] when it fails. *)
Definition or_raise {A} (o : option A) (e : exn) : M A :=
  match o with Some a => ret a | None => raise e end.

(** [try: m  except <the exceptions h maps to Some>: handler]. *)
Definition try_except {A} (m : M A) (h : exn -> option (M A)) : M A :=
  fun s => match m s with
           | (Ok a, s') => (Ok a, s')
           | (Err e, s') =>
               match h e with
               | Some k => k s'
               | None => (Err e, s')
               end
           end.

End Communicator.

Declare Scope comm_scope.
Delimit Scope comm_scope with comm.
Notation "x <- m ;; k" := (bind m (fun x => k))
  (at level 61, m at next level, right associativity) : comm_scope.
Notation "m ;;; k" := (bind m (fun _ => k))
  (at level 61, right associativity) : comm_scope.

Section Operations.

Context {P : Primitives}.
Local Open Scope comm_scope.

(** ** stats.STATS, Rand *)

Definition Increment_rsa_operations : M unit :=
  modify (fun s =>
    set_stats {| grr_rsa_operations := S (grr_rsa_operations (stats s));
                 grr_authenticated_messages := grr_authenticated_messages (stats s) |} s).

Definition Increment_authenticated_messages : M unit :=
  modify (fun s =>
    set_stats {| grr_rsa_operations := grr_rsa_operations (stats s);
                 grr_authenticated_messages := S (grr_authenticated_messages (stats s)) |} s).

Definition Rand_rand_pseudo_bytes (n : nat) : M bytes :=
  fun s => let '(b, r) := rand_pseudo_bytes n (rng s) in (Ok b, set_rng r s).

Definition Rand_rand_add (data : bytes) : M unit :=
  modify (fun s => set_rng (rand_add data (rng s)) s).

(** ** class PubKeyCache *)

Definition PubKeyCache_Put (destination pub_key : bytes) : M unit :=
  modify (fun s => set_pub_key_cache (FastStore.Put destination pub_key (pub_key_cache s)) s).

(** [self.pub_key_cache.Get(common_name)]; a [None] name is never a key. *)
Definition pub_key_cache_Get (cn : option bytes) : M bytes :=
  fun s =>
    match cn with
    | None => (Err (KeyError "None"), s)
    | Some k =>
        match FastStore.Get k (pub_key_cache s) with
        | None => (Err (KeyError "key"), s)
        | Some (pem, c') => (Ok pem, set_pub_key_cache c' s)
        end
    end.

Definition GetRSAPublicKey (cn : option bytes) : M RSAPub :=
  try_except
    (pub_key <- pub_key_cache_Get cn ;;
     or_raise (load_pub_key_bio pub_key) RSAError)
    (fun e => match e with
              | KeyError _ | X509Error => Some (raise (KeyError "No certificate found"))
              | _ => None
              end).

(** ** class Cipher *)

Definition Encrypt (cipher : CipherProperties) (data : bytes) (iv0 : option bytes)
  : M (bytes * bytes) :=
  i <- match iv0 with
       | None => Rand_rand_pseudo_bytes (iv_size / 8)
       | Some i => ret i
       end ;;
  ret (i, evp_encrypt cipher_name (key cipher) i data).

Definition Decrypt (cipher : CipherProperties) (data i : bytes) : M bytes :=
  or_raise (evp_decrypt cipher_name (key cipher) i data) EVPError.

Definition HMAC (cipher : CipherProperties) (data : bytes) : bytes :=
  evp_hmac (hmac_key cipher) "sha1" data.

(** [rsa_key.public_encrypt(data, padding)]: OAEP draws from the generator. *)
Definition RSA_public_encrypt (rsa_key : RSAPub) (data : bytes) : M bytes :=
  fun s => let '(o, r) := public_encrypt rsa_key data (rng s) in
           or_raise o RSAError (set_rng r s).

Definition Cipher__init__ (src : bytes) (destination : option bytes) (priv : bytes)
  : M Cipher :=
  k <- Rand_rand_pseudo_bytes (key_size / 8) ;;
  i <- Rand_rand_pseudo_bytes (iv_size / 8) ;;
  hk <- Rand_rand_pseudo_bytes (key_size / 8) ;;
  let cipher := {| name := cipher_name_bytes; key := k; iv := i; hmac_key := hk |} in
  let serialized_cipher := CipherProperties_Serialize cipher in
  (* Sign this cipher. *)
  let digest := hash_function serialized_cipher in
  pk <- or_raise (load_key_string priv) RSAError ;;
  sig <- or_raise (rsa_sign pk digest hash_function_name) RSAError ;;
  let cipher_metadata := {| source := src; signature := sig |} in
  (* Now encrypt the cipher with our key *)
  rsa_key <- GetRSAPublicKey destination ;;
  Increment_rsa_operations ;;;
  ec <- RSA_public_encrypt rsa_key serialized_cipher ;;
  (* Encrypt the metadata block symmetrically. *)
  em <- Encrypt cipher (CipherMetadata_Serialize cipher_metadata) (Some (iv cipher)) ;;
  ret {| c_private_key := priv; c_cipher := cipher;
         c_cipher_metadata := cipher_metadata;
         c_encrypted_cipher := ec;
         c_encrypted_cipher_metadata := snd em;
         c_signature_verified := true |}.

(** ** class ReceivedCipher *)

(** The method mutates [self.signature_verified]; the mutated object is
    returned. *)
Definition VerifyCipherSignature (c : ReceivedCipher) : M ReceivedCipher :=
  match rc_cipher_metadata c with
  | None => raise (AttributeError "signature")
  | Some md =>
      if truthy (signature md) then
        let digest := hash_function (rc_serialized_cipher c) in
        try_except
          (remote_public_key <- GetRSAPublicKey (Some (source md)) ;;
           Increment_rsa_operations ;;;
           ok <- or_raise (rsa_verify remote_public_key digest (signature md)
                             hash_function_name) RSAError ;;
           if ok then ret (set_rc_signature_verified true c) else ret c)
          (fun e => match e with
                    | UnknownClientCert _ | X509Error => Some (ret c)
                    | _ => None
                    end)
      else ret c
  end.

Definition count_private_decrypt : M unit :=
  modify (fun s => set_private_decrypt_calls (S (private_decrypt_calls s)) s).

Definition ReceivedCipher__init__ (response_comms : ClientCommunication) (priv : bytes)
  : M ReceivedCipher :=
  (* Decrypt the message *)
  pk <- or_raise (load_key_string priv) RSAError ;;
  try_except
    (count_private_decrypt ;;;
     serialized <- or_raise (private_decrypt pk (encrypted_cipher response_comms)) RSAError ;;
     cipher <- or_raise (CipherProperties_Parse serialized) DecodeError ;;
     (* Check the key lengths. *)
     if negb (List.length (key cipher) =? key_size / 8)%nat
        || negb (List.length (iv cipher) =? iv_size / 8)%nat
     then raise (DecryptionError "Invalid cipher.")
     else
       if (3 <=? api_version response_comms)%Z then
         if negb (List.length (hmac_key cipher) =? key_size / 8)%nat
         then raise (DecryptionError "Invalid cipher.")
         else
           (* Decrypt the metadata symmetrically *)
           plain <- Decrypt cipher (encrypted_cipher_metadata response_comms) (iv cipher) ;;
           md <- or_raise (CipherMetadata_Parse plain) DecodeError ;;
           VerifyCipherSignature
             {| rc_private_key := priv;
                rc_encrypted_cipher := encrypted_cipher response_comms;
                rc_serialized_cipher := serialized;
                rc_cipher := cipher;
                rc_encrypted_cipher_metadata := Some (encrypted_cipher_metadata response_comms);
                rc_cipher_metadata := Some md;
                rc_signature_verified := false |}
       else
         (* Old version: To be set once the message is verified. *)
         ret {| rc_private_key := priv;
                rc_encrypted_cipher := encrypted_cipher response_comms;
                rc_serialized_cipher := serialized;
                rc_cipher := cipher;
                rc_encrypted_cipher_metadata := None;
                rc_cipher_metadata := None;
                rc_signature_verified := false |})
    (fun e => match e with
              | RSAError => Some (raise (DecryptionError "RSAError"))
              | _ => None
              end).

(** ** class Communicator *)

Definition _LoadOurCertificate (certificate : bytes) : M unit :=
  cert <- or_raise (load_cert_string certificate) X509Error ;;
  (* Make sure its valid *)
  _ <- or_raise (load_key_string certificate) RSAError ;;
  (* Our common name *)
  cn <- or_raise (cert_subject_cn cert) (IOError "Cert has no CN") ;;
  modify (fun s =>
    {| rng := rng s; time_us := time_us s; stats := stats s;
       FLAGS_compression := FLAGS_compression s;
       private_decrypt_calls := private_decrypt_calls s;
       server_name := server_name s; cipher_cache := cipher_cache s;
       private_key := certificate;
       encrypted_cipher_cache := encrypted_cipher_cache s;
       pub_key_cache := pub_key_cache s; common_name := cn;
       timestamp := timestamp s |}) ;;;
  (* Make sure we know about our own public key *)
  PubKeyCache_Put cn (cert_pubkey_pem cert).

(** [Communicator(certificate)] in a process whose generator, clock,
    counters and flag are as given.  No attribute [timestamp] is created,
    and [common_name] does not exist before the certificate is loaded. *)
Definition Communicator__init__ (certificate : bytes)
    (r : Rng) (now : Z) (st : Stats) (flag : string) (calls : nat)
  : Result State :=
  let s0 :=
    {| rng := r; time_us := now; stats := st; FLAGS_compression := flag;
       private_decrypt_calls := calls;
       server_name := None;
       cipher_cache := TimeBasedCache.empty Cipher TimeBasedCache_max_size TimeBasedCache_max_age;
       private_key := certificate;
       encrypted_cipher_cache := FastStore.empty ReceivedCipher 50000%N;
       pub_key_cache := FastStore.empty bytes 50000%N;
       common_name := [];
       timestamp := None |} in
  match _LoadOurCertificate certificate s0 with
  | (Ok _, s) => Ok s
  | (Err e, _) => Err e
  end.

Definition set_message_list (compression : Z) (data : bytes) (l : SignedMessageList)
  : SignedMessageList :=
  {| sml_timestamp := sml_timestamp l; sml_compression := compression;
     sml_message_list := data; sml_source := sml_source l;
     sml_signature := sml_signature l |}.

(** [FLAGS.compression] is passed as [flag]. *)
Definition EncodeMessageList (flag : string) (message_list : MessageList)
    (signed_message_list : SignedMessageList) : SignedMessageList :=
  (* By default uncompress *)
  let uncompressed_data := MessageList_Serialize message_list in
  let l1 := set_message_list (sml_compression signed_message_list)
              uncompressed_data signed_message_list in
  if String.eqb flag "ZCOMPRESS" then
    let compressed_data := zlib_compress uncompressed_data in
    (* Only compress if it buys us something. *)
    if (List.length compressed_data <? List.length uncompressed_data)%nat
    then set_message_list ZCOMPRESSION compressed_data l1
    else l1
  else l1.

Definition cipher_cache_Get (destination : option bytes) : M Cipher :=
  fun s =>
    match destination with
    | None => (Err (KeyError "None"), s)
    | Some d =>
        match TimeBasedCache.Get (time_us s) d (cipher_cache s) with
        | None => (Err (KeyError "key"), s)
        | Some (c, cache') => (Ok c, set_cipher_cache cache' s)
        end
    end.

Definition cipher_cache_Put (destination : option bytes) (c : Cipher) : M unit :=
  match destination with
  | None => ret tt
  | Some d =>
      modify (fun s => set_cipher_cache (TimeBasedCache.Put (time_us s) d c (cipher_cache s)) s)
  end.

(** [EncodeMessages], "Do we have a cached cipher to talk to this
    destination?": the cached cipher, or a new one that is then cached. *)
Definition destination_cipher (destination : option bytes) : M Cipher :=
  try_except (cipher_cache_Get destination)
    (fun e => match e with
              | KeyError _ =>
                  (* Make a new one *)
                  Some (cn <- gets common_name ;;
                        priv <- gets private_key ;;
                        c <- Cipher__init__ cn destination priv ;;
                        cipher_cache_Put destination c ;;;
                        ret c)
              | _ => None
              end).

(** [EncodeMessages] from the construction of the [SignedMessageList] to
    the [return]. *)
Definition encode_with_cipher (message_list : MessageList) (result : ClientCommunication)
    (ts : Z) (version : Z) (cipher : Cipher) : M (ClientCommunication * Z) :=
  (if uint64_ok ts then ret tt else raise ValueError) ;;;
  flag <- gets FLAGS_compression ;;
  let l1 := EncodeMessageList flag message_list (new_SignedMessageList ts) in
  l2 <- (if (version =? 2)%Z then
           cn <- gets common_name ;;
           (* Old scheme - message list is signed. *)
           let digest := hash_function (sml_message_list l1) in
           priv <- gets private_key ;;
           pk <- or_raise (load_key_string priv) RSAError ;;
           sig <- or_raise (rsa_sign pk digest hash_function_name) RSAError ;;
           ret {| sml_timestamp := sml_timestamp l1;
                  sml_compression := sml_compression l1;
                  sml_message_list := sml_message_list l1;
                  sml_source := cn; sml_signature := sig |}
         else ret l1) ;;
  let ecm := if (version =? 2)%Z then encrypted_cipher_metadata result
             else c_encrypted_cipher_metadata cipher in
  let serialized_message_list := SignedMessageList_Serialize l2 in
  (* Encrypt the message symmetrically. *)
  if (3 <=? version)%Z then
    (* New scheme cipher is signed plus hmac over message list. *)
    ie <- Encrypt (c_cipher cipher) serialized_message_list None ;;
    ret ({| api_version := version;
            encrypted_cipher := c_encrypted_cipher cipher;
            encrypted_cipher_metadata := ecm;
            cc_iv := fst ie;
            encrypted := snd ie;
            hmac := HMAC (c_cipher cipher) (snd ie) |}, ts)
  else
    ie <- Encrypt (c_cipher cipher) serialized_message_list (Some (iv (c_cipher cipher))) ;;
    ret ({| api_version := version;
            encrypted_cipher := c_encrypted_cipher cipher;
            encrypted_cipher_metadata := ecm;
            cc_iv := cc_iv result;
            encrypted := snd ie;
            hmac := hmac result |}, ts).

(** "Make a nonce for this transaction". *)
Definition make_nonce (timestamp0 : option Z) : M Z :=
  match timestamp0 with
  | None => now <- gets time_us ;;
            modify (set_timestamp (Some now)) ;;;
            ret now
  | Some t => ret t
  end.

(** [result] is the [ClientCommunication] the caller passes in to be filled;
    the filled buffer is returned together with the nonce.  [timestamp0] and
    [destination] are [None] when the caller leaves them out.  A field of
    [result] the chosen version does not write keeps the value it had. *)
Definition EncodeMessages (message_list : MessageList) (result : ClientCommunication)
    (destination : option bytes) (timestamp0 : option Z) (version : Z)
  : M (ClientCommunication * Z) :=
  if negb ((version =? 2)%Z || (version =? 3)%Z)
  then raise (RuntimeError "Unsupported api version.")
  else
    destination <- match destination with
                   | None => gets server_name
                   | Some d => ret (Some d)
                   end ;;
    ts <- make_nonce timestamp0 ;;
    cipher <- destination_cipher destination ;;
    encode_with_cipher message_list result ts version cipher.

Definition DecompressMessageList (signed_message_list : SignedMessageList) : M MessageList :=
  let compression := sml_compression signed_message_list in
  data <- (if (compression =? UNCOMPRESSED)%Z then ret (sml_message_list signed_message_list)
           else if (compression =? ZCOMPRESSION)%Z then
             or_raise (zlib_decompress (sml_message_list signed_message_list))
                      (DecodingError "Failed to decompress")
           else raise (DecodingError "Compression scheme not supported")) ;;
  or_raise (MessageList_Parse data) (DecodingError "Proto parsing failed.").

(** The cipher object may be the one held by [encrypted_cipher_cache]:
    a mutation of the object is a mutation of the cache entry. *)
Definition mutate_cipher (c : ReceivedCipher) : M unit :=
  modify (fun s =>
    set_encrypted_cipher_cache
      (FastStore.Mutate (rc_encrypted_cipher c) c (encrypted_cipher_cache s)) s).

(** [VerifyMessageSignature] up to the replay check: the signature of a
    version 2 message list, or the HMAC and the cipher signature of a
    version 3 frame.  Returns [result] and the cipher object as the checks
    leave it. *)
Definition check_signature (response_comms : ClientCommunication)
    (signed_message_list : SignedMessageList) (cipher : ReceivedCipher) (version : Z)
  : M (AuthorizationState * ReceivedCipher) :=
  if (version <? 3)%Z then
    (* Old version: signature is on the message_list *)
    let digest := hash_function (sml_message_list signed_message_list) in
    remote_public_key <- GetRSAPublicKey (Some (sml_source signed_message_list)) ;;
    Increment_rsa_operations ;;;
    ok <- or_raise (rsa_verify remote_public_key digest
                      (sml_signature signed_message_list) hash_function_name)
                   RSAError ;;
    if ok then Increment_authenticated_messages ;;; ret (AUTHENTICATED, cipher)
    else ret (UNAUTHENTICATED, cipher)
  else
    if negb (bytes_eqb (HMAC (rc_cipher cipher) (encrypted response_comms))
                       (hmac response_comms))
    then raise (DecryptionError "HMAC verification failed.")
    else
      (* Give the cipher another chance to check its signature. *)
      cipher <- (if negb (rc_signature_verified cipher)
                 then c <- VerifyCipherSignature cipher ;;
                      mutate_cipher c ;;; ret c
                 else ret cipher) ;;
      if rc_signature_verified cipher
      then Increment_authenticated_messages ;;; ret (AUTHENTICATED, cipher)
      else ret (UNAUTHENTICATED, cipher).

(** [self.timestamp]; the attribute may not exist. *)
Definition read_timestamp : M Z :=
  fun s => or_raise (timestamp s) (AttributeError "timestamp") s.

(** Returns the authorization state and the cipher object as the method
    leaves it. *)
Definition VerifyMessageSignature (response_comms : ClientCommunication)
    (signed_message_list : SignedMessageList) (cipher : ReceivedCipher) (version : Z)
  : M (AuthorizationState * ReceivedCipher) :=
  rc <- check_signature response_comms signed_message_list cipher version ;;
  let '(result, cipher) := rc in
  (* Check for replay attacks. *)
  ts <- read_timestamp ;;
  let result := if (sml_timestamp signed_message_list =? ts)%Z then result
                else UNAUTHENTICATED in
  match rc_cipher_metadata cipher with
  | None =>
      (* Fake the metadata *)
      let c := set_rc_cipher_metadata
                 {| source := sml_source signed_message_list; signature := [] |} cipher in
      mutate_cipher c ;;; ret (result, c)
  | Some _ => ret (result, cipher)
  end.

Definition mark (a : AuthorizationState) (src : bytes) (msg : GrrMessage) : GrrMessage :=
  {| payload := payload msg; auth_state := a; msg_source := src |}.

Definition encrypted_cipher_cache_Get (k : bytes) : M ReceivedCipher :=
  fun s =>
    match FastStore.Get k (encrypted_cipher_cache s) with
    | None => (Err (KeyError "key"), s)
    | Some (c, cache') => (Ok c, set_encrypted_cipher_cache cache' s)
    end.

(** [DecodeMessages], "Have we seen this cipher before?": the cached
    cipher, or a new one that is cached if its signature is verified. *)
Definition received_cipher (response_comms : ClientCommunication) : M ReceivedCipher :=
  try_except (encrypted_cipher_cache_Get (encrypted_cipher response_comms))
    (fun e => match e with
              | KeyError _ =>
                  Some (priv <- gets private_key ;;
                        c <- ReceivedCipher__init__ response_comms priv ;;
                        (if rc_signature_verified c then
                           (* Remember it for next time. *)
                           modify (fun s =>
                             set_encrypted_cipher_cache
                               (FastStore.Put (encrypted_cipher response_comms) c
                                  (encrypted_cipher_cache s)) s)
                         else ret tt) ;;;
                        ret c)
              | _ => None
              end).

(** The first half of [DecodeMessages]: everything before the call of
    [VerifyMessageSignature]. *)
Definition DecodePayload (response_comms : ClientCommunication)
  : M (ReceivedCipher * SignedMessageList * MessageList) :=
  if negb ((api_version response_comms =? 2)%Z || (api_version response_comms =? 3)%Z)
  then raise (DecryptionError "Unsupported api version.")
  else
    if truthy (encrypted_cipher response_comms) then
      cipher <- received_cipher response_comms ;;
      (* Add entropy to the PRNG. *)
      Rand_rand_add (encrypted response_comms) ;;;
      (* Decrypt the messages *)
      let i := if truthy (cc_iv response_comms) then cc_iv response_comms
               else iv (rc_cipher cipher) in
      plain <- Decrypt (rc_cipher cipher) (encrypted response_comms) i ;;
      signed_message_list <- or_raise (SignedMessageList_Parse plain) DecodeError ;;
      message_list <- DecompressMessageList signed_message_list ;;
      ret (cipher, signed_message_list, message_list)
    else
      raise (DecryptionError "Server response is not encrypted.").

Definition DecodeMessages (response_comms : ClientCommunication)
  : M (list GrrMessage * bytes * Z) :=
  p <- DecodePayload response_comms ;;
  let '(cipher, signed_message_list, message_list) := p in
  (* Are these messages authenticated? *)
  ac <- VerifyMessageSignature response_comms signed_message_list cipher
          (api_version response_comms) ;;
  let '(a, cipher) := ac in
  (* Mark messages as authenticated and where they came from. *)
  match rc_cipher_metadata cipher with
  | None => raise (AttributeError "source")
  | Some md =>
      ret (map (mark a (source md)) (job message_list), source md,
           sml_timestamp signed_message_list)
  end.

(** ** Sequences of calls on one communicator *)

Definition set_time_us (now : Z) (s : State) : State :=
  {| rng := rng s; time_us := now; stats := stats s;
     FLAGS_compression := FLAGS_compression s;
     private_decrypt_calls := private_decrypt_calls s;
     server_name := server_name s; cipher_cache := cipher_cache s;
     private_key := private_key s;
     encrypted_cipher_cache := encrypted_cipher_cache s;
     pub_key_cache := pub_key_cache s; common_name := common_name s;
     timestamp := timestamp s |}.

(** What a host does with a communicator: it encodes, decodes, teaches the
    directory a public key, and time passes. *)
Inductive call : Type :=
| CallEncodeMessages (message_list : MessageList) (result : ClientCommunication)
    (destination : option bytes) (timestamp0 : option Z) (version : Z)
| CallDecodeMessages (response_comms : ClientCommunication)
| CallPut (destination pub_key : bytes)
| Tick (now : Z).

Definition step (s : State) (c : call) : State :=
  match c with
  | CallEncodeMessages ml result d t v => snd (EncodeMessages ml result d t v s)
  | CallDecodeMessages rc => snd (DecodeMessages rc s)
  | CallPut d k => snd (PubKeyCache_Put d k s)
  | Tick now => set_time_us now s
  end.

Definition run (calls : list call) (s : State) : State := fold_left step calls s.

(** The call passes the nonce explicitly (or is no encoding at all). *)
Definition nonce_given (c : call) : bool :=
  match c with
  | CallEncodeMessages _ _ _ None _ => false
  | _ => true
  end.

(** ** Specifications of monadic code *)

(** [m] leaves the observation [f] of the state as it found it, whether it
    returns or raises. *)
Definition preserves {X A : Type} (f : State -> X) (m : M A) : Prop :=
  forall s, f (snd (m s)) = f s.

(** From a state in [Pre], [m] ends in a state in [Inv], whether it returns
    or raises, and a returned value satisfies [R] there. *)
Definition triple {A : Type} (Pre : State -> Prop) (m : M A)
    (Inv : State -> Prop) (R : A -> State -> Prop) : Prop :=
  forall s, Pre s ->
    Inv (snd (m s))
    /\ match fst (m s) with
       | Ok a => R a (snd (m s))
       | Err _ => True
       end.

(** Whatever [m] raises is in [E]. *)
Definition raises_within {A : Type} (E : exn -> Prop) (m : M A) : Prop :=
  forall s e, fst (m s) = Err e -> E e.

(** The exceptions of the public-key lookup and of the signature checks:
    none of them is a [DecryptionError]. *)
Definition lookup_error (e : exn) : Prop :=
  e = KeyError "No certificate found" \/ e = RSAError.

Definition verify_error (e : exn) : Prop :=
  lookup_error e \/ e = AttributeError "signature".

(** An object whose signature is not verified is not the one stored under
    its [encrypted_cipher]: nothing is stored there. *)
Definition absent_if_unverified (c : ReceivedCipher) (s : State) : Prop :=
  rc_signature_verified c = false ->
  FastStore.find (rc_encrypted_cipher c)
    (FastStore.entries (encrypted_cipher_cache s)) = None.

(** From [s], [m] returns [a] and leaves the observation [F] as it was. *)
Definition returns {A X : Type} (F : State -> X) (m : M A) (s : State) (a : A) : Prop :=
  exists s1, m s = (Ok a, s1) /\ F s1 = F s.

(** What decoding reads of the communicator besides the cache of received
    ciphers: the nonce, the private key and the directory entry of [cn]. *)
Definition decode_view (cn : bytes) (s : State) : option Z * bytes * option bytes :=
  (timestamp s, private_key s, FastStore.find cn (FastStore.entries (pub_key_cache s))).

(** The cipher object the decoder has in hand for a frame of [cn] under
    the cipher [c]: it holds the cipher's properties, and it is verified and
    attributed to [cn], or it is the unattributed object of a version 2
    frame. *)
Definition received_ok (cn : bytes) (v : Z) (c : Cipher) (r : ReceivedCipher) : Prop :=
  rc_cipher r = c_cipher c
  /\ ((rc_signature_verified r = true
       /\ exists md, rc_cipher_metadata r = Some md /\ source md = cn)
      \/ (v = 2%Z /\ rc_cipher_metadata r = None)).

(** [m] keeps the invariant [Inv], whether it returns or raises. *)
Definition keeps {A : Type} (Inv : State -> Prop) (m : M A) : Prop :=
  forall s, Inv s -> Inv (snd (m s)).

(** A cipher is stored under [k], and [n] private decryptions were made. *)
Definition cached_at (k : bytes) (n : nat) (s : State) : Prop :=
  FastStore.find k (FastStore.entries (encrypted_cipher_cache s)) <> None
  /\ private_decrypt_calls s = n.

(** Decoding a list of frames one after the other. *)
Definition decode_all (frames : list ClientCommunication) (s : State) : State :=
  run (map CallDecodeMessages frames) s.

(** ** What the round trip asks of the external libraries *)

(** Parsing inverts serializing, inflating inverts deflating, symmetric
    decryption inverts encryption, and the generator returns as many bytes
    as it is asked for. *)
Record Laws : Prop := {
  CipherProperties_roundtrip :
    forall c, CipherProperties_Parse (CipherProperties_Serialize c) = Some c;
  CipherMetadata_roundtrip :
    forall m, CipherMetadata_Parse (CipherMetadata_Serialize m) = Some m;
  SignedMessageList_roundtrip :
    forall l, SignedMessageList_Parse (SignedMessageList_Serialize l) = Some l;
  MessageList_roundtrip :
    forall l, MessageList_Parse (MessageList_Serialize l) = Some l;
  zlib_roundtrip : forall d, zlib_decompress (zlib_compress d) = Some d;
  evp_roundtrip :
    forall alg k i d, evp_decrypt alg k i (evp_encrypt alg k i d) = Some d;
  rand_length : forall n r, List.length (fst (rand_pseudo_bytes n r)) = n
}.

(** [priv] and [pub] are the PEM forms of the two halves of one RSA key:
    what the public half encrypts the private half decrypts, what the
    private half signs the public half verifies; ciphertexts and signatures
    are not empty. *)
Definition key_pair (priv pub : bytes) : Prop :=
  exists sk pk,
    load_key_string priv = Some sk
    /\ load_pub_key_bio pub = Some pk
    /\ (forall m r c r', public_encrypt pk m r = (Some c, r') ->
                         private_decrypt sk c = Some m /\ truthy c = true)
    /\ (forall d sg, rsa_sign sk d hash_function_name = Some sg ->
                     rsa_verify pk d sg hash_function_name = Some true
                     /\ truthy sg = true).

(** A cipher object of the sender [cn] (public key [pub]) for the receiver
    whose private key is [priv]: what [Cipher.__init__] builds. *)
Definition session_ok (cn pub priv : bytes) (c : Cipher) : Prop :=
  exists sk pk,
    load_key_string priv = Some sk
    /\ load_pub_key_bio pub = Some pk
    /\ private_decrypt sk (c_encrypted_cipher c)
       = Some (CipherProperties_Serialize (c_cipher c))
    /\ truthy (c_encrypted_cipher c) = true
    /\ List.length (key (c_cipher c)) = 16
    /\ List.length (iv (c_cipher c)) = 16
    /\ List.length (hmac_key (c_cipher c)) = 16
    /\ source (c_cipher_metadata c) = cn
    /\ truthy (signature (c_cipher_metadata c)) = true
    /\ rsa_verify pk (hash_function (CipherProperties_Serialize (c_cipher c)))
         (signature (c_cipher_metadata c)) hash_function_name = Some true
    /\ c_encrypted_cipher_metadata c
       = evp_encrypt cipher_name (key (c_cipher c)) (iv (c_cipher c))
           (CipherMetadata_Serialize (c_cipher_metadata c)).

(** The encoder [E] (public key [pubE]) addresses the decoder [D] when it
    encodes for [destination]: its directory has the decoder's public key
    [pubD] under the destination, and a cipher its cache still serves for
    the destination is a session with the decoder. *)
Definition addresses (E D : State) (destination : option bytes) (pubE pubD : bytes)
  : Prop :=
  exists d,
    match destination with Some d' => Some d' | None => server_name E end = Some d
    /\ FastStore.find d (FastStore.entries (pub_key_cache E)) = Some pubD
    /\ (forall c cache',
          TimeBasedCache.Get (time_us E) d (cipher_cache E) = Some (c, cache') ->
          session_ok (common_name E) pubE (private_key D) c).

(** [fr] is a frame of version [v] for the batch [B] with nonce [ts], sent
    by [cn] (public key [pub]) under the cipher [c]: what [EncodeMessages]
    writes into a fresh [ClientCommunication]. *)
Definition frame_ok (cn pub : bytes) (B : MessageList) (ts v : Z) (c : Cipher)
    (fr : ClientCommunication) : Prop :=
  api_version fr = v
  /\ encrypted_cipher fr = c_encrypted_cipher c
  /\ (v = 3%Z ->
      encrypted_cipher_metadata fr = c_encrypted_cipher_metadata c
      /\ hmac fr = HMAC (c_cipher c) (encrypted fr))
  /\ exists l,
       encrypted fr
       = evp_encrypt cipher_name (key (c_cipher c))
           (if truthy (cc_iv fr) then cc_iv fr else iv (c_cipher c))
           (SignedMessageList_Serialize l)
       /\ sml_timestamp l = ts
       /\ (forall s, DecompressMessageList l s = (Ok B, s))
       /\ (v = 2%Z ->
           sml_source l = cn
           /\ exists pk, load_pub_key_bio pub = Some pk
                         /\ rsa_verify pk (hash_function (sml_message_list l))
                              (sml_signature l) hash_function_name = Some true).

(** A cipher the decoder [D] already holds under the envelope [ec] is the
    verified cipher of that envelope, attributed to [cn]. *)
Definition envelope_known (D : State) (cn ec : bytes) : Prop :=
  forall c,
    FastStore.find ec (FastStore.entries (encrypted_cipher_cache D)) = Some c ->
    rc_signature_verified c = true
    /\ (exists md, rc_cipher_metadata c = Some md /\ source md = cn)
    /\ (exists sk ser,
          load_key_string (private_key D) = Some sk
          /\ private_decrypt sk ec = Some ser
          /\ CipherProperties_Parse ser = Some (rc_cipher c)).

(** Every cipher held by [encrypted_cipher_cache] has a verified signature. *)
Definition cache_verified (s : State) : Prop :=
  Forall (fun c => rc_signature_verified c = true)
         (FastStore.values (encrypted_cipher_cache s)).

(** What a decode can change on the receiving side besides the generator,
    the counters and the order of the directory. *)
Definition receiver_view (s : State) : FastStore.t ReceivedCipher * nat * bytes :=
  (encrypted_cipher_cache s, private_decrypt_calls s, private_key s).

End Operations.

(** * A small instance of the external libraries

    Used to run the communicator on concrete frames.  The wire codec is
    length-prefixed with unary lengths; the ciphers are invertible maps with
    no secrecy. *)

Module Toy.

Definition parser (A : Type) : Type := bytes -> option (A * bytes).

Definition enc_nat (n : nat) : bytes := repeat x01 n ++ [x00].

Fixpoint dec_nat (s : bytes) : option (nat * bytes) :=
    match s with
    | x00 :: r => Some (O, r)
    | x01 :: r => match dec_nat r with
                  | Some (n, r') => Some (S n, r')
                  | None => None
                  end
    | _ => None
    end.

Definition enc_bytes (b : bytes) : bytes := enc_nat (List.length b) ++ b.

Definition dec_bytes : parser bytes := fun s =>
    match dec_nat s with
    | Some (n, r) =>
        if (n <=? List.length r)%nat then Some (firstn n r, skipn n r) else None
    | None => None
    end.

Definition enc_Z (z : Z) : bytes :=
    (if (z <? 0)%Z then x01 else x00) :: enc_nat (Z.abs_nat z).

Definition dec_Z : parser Z := fun s =>
    match s with
    | x00 :: r => match dec_nat r with
                  | Some (n, r') => Some (Z.of_nat n, r')
                  | None => None
                  end
    | x01 :: r => match dec_nat r with
                  | Some (n, r') => Some ((- Z.of_nat n)%Z, r')
                  | None => None
                  end
    | _ => None
    end.

Definition enc_auth (a : AuthorizationState) : bytes :=
    match a with UNAUTHENTICATED => [x00] | AUTHENTICATED => [x01] end.

Definition dec_auth : parser AuthorizationState := fun s =>
    match s with
    | x00 :: r => Some (UNAUTHENTICATED, r)
    | x01 :: r => Some (AUTHENTICATED, r)
    | _ => None
    end.

Definition enc_msg (m : GrrMessage) : bytes :=
    enc_bytes (payload m) ++ enc_auth (auth_state m) ++ enc_bytes (msg_source m).

Definition dec_msg : parser GrrMessage := fun s =>
    match dec_bytes s with
    | Some (p, r1) =>
        match dec_auth r1 with
        | Some (a, r2) =>
            match dec_bytes r2 with
            | Some (src, r3) =>
                Some ({| payload := p; auth_state := a; msg_source := src |}, r3)
            | None => None
            end
        | None => None
        end
    | None => None
    end.

Fixpoint enc_msgs (l : list GrrMessage) : bytes :=
    match l with
    | [] => []
    | m :: l' => enc_msg m ++ enc_msgs l'
    end.

Fixpoint dec_msgs (n : nat) (s : bytes) : option (list GrrMessage * bytes) :=
    match n with
    | O => Some ([], s)
    | S n' =>
        match dec_msg s with
        | Some (m, r) =>
            match dec_msgs n' r with
            | Some (l, r') => Some (m :: l, r')
            | None => None
            end
        | None => None
        end
    end.

  (** A parse must consume the whole input. *)
Definition complete {A} (o : option (A * bytes)) : option A :=
    match o with
    | Some (a, []) => Some a
    | _ => None
    end.

Definition ser_props (c : CipherProperties) : bytes :=
    enc_bytes (name c) ++ enc_bytes (key c) ++ enc_bytes (iv c) ++ enc_bytes (hmac_key c).

Definition par_props (s : bytes) : option CipherProperties :=
    complete
      match dec_bytes s with
      | Some (n, r1) =>
        match dec_bytes r1 with
        | Some (k, r2) =>
          match dec_bytes r2 with
          | Some (i, r3) =>
            match dec_bytes r3 with
            | Some (h, r4) =>
                Some ({| name := n; key := k; iv := i; hmac_key := h |}, r4)
            | None => None
            end
          | None => None
          end
        | None => None
        end
      | None => None
      end.

Definition ser_meta (m : CipherMetadata) : bytes :=
    enc_bytes (source m) ++ enc_bytes (signature m).

Definition par_meta (s : bytes) : option CipherMetadata :=
    complete
      match dec_bytes s with
      | Some (a, r1) =>
        match dec_bytes r1 with
        | Some (b, r2) => Some ({| source := a; signature := b |}, r2)
        | None => None
        end
      | None => None
      end.

Definition ser_sml (l : SignedMessageList) : bytes :=
    enc_Z (sml_timestamp l) ++ enc_Z (sml_compression l)
    ++ enc_bytes (sml_message_list l) ++ enc_bytes (sml_source l)
    ++ enc_bytes (sml_signature l).

Definition par_sml (s : bytes) : option SignedMessageList :=
    complete
      match dec_Z s with
      | Some (t, r1) =>
        match dec_Z r1 with
        | Some (c, r2) =>
          match dec_bytes r2 with
          | Some (m, r3) =>
            match dec_bytes r3 with
            | Some (src, r4) =>
              match dec_bytes r4 with
              | Some (sg, r5) =>
                  Some ({| sml_timestamp := t; sml_compression := c;
                           sml_message_list := m; sml_source := src;
                           sml_signature := sg |}, r5)
              | None => None
              end
            | None => None
            end
          | None => None
          end
        | None => None
        end
      | None => None
      end.

Definition ser_ml (l : MessageList) : bytes :=
    enc_nat (List.length (job l)) ++ enc_msgs (job l).

Definition par_ml (s : bytes) : option MessageList :=
    complete
      match dec_nat s with
      | Some (n, r) =>
          match dec_msgs n r with
          | Some (l, r') => Some ({| job := l |}, r')
          | None => None
          end
      | None => None
      end.

  (** Three equal leading bytes are folded into one. *)
Definition compress (d : bytes) : bytes :=
    match d with
    | a :: b :: c :: r =>
        if (Byte.eqb a b && Byte.eqb b c)%bool then x01 :: a :: r else x00 :: d
    | _ => x00 :: d
    end.

Definition decompress (d : bytes) : option bytes :=
    match d with
    | x00 :: r => Some r
    | x01 :: a :: r => Some (a :: a :: a :: r)
    | _ => None
    end.

Definition nonempty_key (b : bytes) : option bytes :=
    if truthy b then Some b else None.

  (** A key pair is a pair of equal byte strings; a certificate is its own
      common name, private key and public key. *)
Definition primitives : Primitives := {|
    Rng := nat;
    RSAPriv := bytes;
    RSAPub := bytes;
    X509Cert := bytes;
    rand_pseudo_bytes := fun n r => (repeat x2a n, S r);
    rand_add := fun d r => (r + List.length d)%nat;
    load_key_string := nonempty_key;
    load_pub_key_bio := nonempty_key;
    rsa_sign := fun sk d _ => Some (enc_bytes sk ++ d);
    rsa_verify := fun pk d s _ => Some (bytes_eqb s (enc_bytes pk ++ d));
    public_encrypt := fun pk m r => (Some (enc_bytes pk ++ m), r);
    private_decrypt := fun sk c =>
      match dec_bytes c with
      | Some (k, m) => if bytes_eqb k sk then Some m else None
      | None => None
      end;
    load_cert_string := nonempty_key;
    cert_subject_cn := fun c => Some c;
    cert_pubkey_pem := fun c => c;
    evp_encrypt := fun _ _ _ d => rev d;
    evp_decrypt := fun _ _ _ d => Some (rev d);
    evp_hmac := fun k _ d => k ++ d;
    sha256 := fun d => x01 :: d;
    zlib_compress := compress;
    zlib_decompress := decompress;
    CipherProperties_Serialize := ser_props;
    CipherProperties_Parse := par_props;
    CipherMetadata_Serialize := ser_meta;
    CipherMetadata_Parse := par_meta;
    SignedMessageList_Serialize := ser_sml;
    SignedMessageList_Parse := par_sml;
    MessageList_Serialize := ser_ml;
    MessageList_Parse := par_ml;
    TimeBasedCache_max_size := 10%N;
    TimeBasedCache_max_age := 600000000
  |}.

End Toy.

(** * Two communicators on the small instance *)

Module Scenario.

#[local] Existing Instance Toy.primitives.

Definition stats0 : Stats :=
  {| grr_rsa_operations := 0; grr_authenticated_messages := 0 |}.

Definition client_cert : bytes := ["C"%byte].
Definition server_cert : bytes := ["S"%byte].

(** The state a failed construction would leave: nothing. *)
Definition no_communicator : State :=
  {| rng := 0%nat; time_us := 0; stats := stats0; FLAGS_compression := "";
     private_decrypt_calls := 0;
     server_name := None;
     cipher_cache := TimeBasedCache.empty Cipher 0%N 0;
     private_key := [];
     encrypted_cipher_cache := FastStore.empty ReceivedCipher 0%N;
     pub_key_cache := FastStore.empty bytes 0%N;
     common_name := [];
     timestamp := None |}.

(** [Communicator(certificate)] at time 7, nothing else done. *)
Definition fresh (certificate : bytes) : State :=
  match Communicator__init__ certificate (0%nat : Rng) 7 stats0 "ZCOMPRESS" 0 with
  | Ok s => s
  | Err _ => no_communicator
  end.

(** The client knows the server's key; the server may know the client's. *)
Definition client : State := step (fresh client_cert) (CallPut server_cert server_cert).
Definition server : State := step (fresh server_cert) (CallPut client_cert client_cert).

Definition message (p : bytes) : GrrMessage :=
  {| payload := p; auth_state := UNAUTHENTICATED; msg_source := [] |}.

Definition batch : MessageList :=
  {| job := [message ["A"%byte; "A"%byte; "A"%byte; "A"%byte]; message ["B"%byte]] |}.

(** The frame the client emits for [batch] at the given version, with the
    nonce left out (it is the clock, 7). *)
Definition frame (version : Z) : ClientCommunication :=
  match fst (EncodeMessages batch new_ClientCommunication (Some server_cert)
               None version client) with
  | Ok (f, _) => f
  | Err _ => new_ClientCommunication
  end.

(** The server after it has sent nonce [t] itself. *)
Definition server_expecting (t : Z) : State := set_timestamp (Some t) server.

(** A server that knows no key but its own, expecting nonce [t]. *)
Definition lone_server_expecting (t : Z) : State :=
  set_timestamp (Some t) (fresh server_cert).

Definition with_encrypted (e : bytes) (f : ClientCommunication) : ClientCommunication :=
  {| api_version := api_version f; encrypted_cipher := encrypted_cipher f;
     encrypted_cipher_metadata := encrypted_cipher_metadata f;
     cc_iv := cc_iv f; encrypted := e; hmac := hmac f |}.

Definition with_hmac (h : bytes) (f : ClientCommunication) : ClientCommunication :=
  {| api_version := api_version f; encrypted_cipher := encrypted_cipher f;
     encrypted_cipher_metadata := encrypted_cipher_metadata f;
     cc_iv := cc_iv f; encrypted := encrypted f; hmac := h |}.

(** A received cipher object whose metadata carries no signature. *)
Definition unsigned_cipher : ReceivedCipher :=
  {| rc_private_key := server_cert;
     rc_encrypted_cipher := ["e"%byte];
     rc_serialized_cipher := [];
     rc_cipher := {| name := []; key := []; iv := []; hmac_key := [] |};
     rc_encrypted_cipher_metadata := Some [];
     rc_cipher_metadata := Some {| source := client_cert; signature := [] |};
     rc_signature_verified := false |}.

(** A version 3 frame for the server whose envelope unwraps to cipher
    properties with an empty key. *)
Definition short_key_frame : ClientCommunication :=
  {| api_version := 3;
     encrypted_cipher :=
       Toy.enc_bytes server_cert
       ++ Toy.ser_props {| name := []; key := []; iv := []; hmac_key := [] |};
     encrypted_cipher_metadata := [];
     cc_iv := []; encrypted := []; hmac := [] |}.

(** The client after it has sent [frame 3]. *)
Definition client_after_send : State :=
  snd (EncodeMessages batch new_ClientCommunication (Some server_cert) None 3 client).

(** The frame the client emits next, at version 2. *)
Definition second_frame : ClientCommunication :=
  match fst (EncodeMessages batch new_ClientCommunication (Some server_cert)
               None 2 client_after_send) with
  | Ok (f, _) => f
  | Err _ => new_ClientCommunication
  end.

End Scenario.

(** * Properties *)

(** ** Byte strings *)

Lemma bytes_eqb_refl (a : bytes) : bytes_eqb a a = true.
Proof. unfold bytes_eqb. destruct (bytes_eq_dec a a); congruence. Qed.

Lemma bytes_eqb_eq (a b : bytes) : bytes_eqb a b = true <-> a = b.
Proof. unfold bytes_eqb. destruct (bytes_eq_dec a b); split; congruence. Qed.

Lemma bytes_eqb_neq (a b : bytes) : bytes_eqb a b = false <-> a <> b.
Proof. unfold bytes_eqb. destruct (bytes_eq_dec a b); split; congruence. Qed.

Lemma truthy_length (b : bytes) (n : nat) : List.length b = S n -> truthy b = true.
Proof. destruct b; simpl; congruence. Qed.


(** ** FastStore *)

Section FastStoreFacts.

Variable V : Type.
Variable Q : V -> Prop.

Implicit Types (l : list (bytes * V)) (k : bytes) (v : V).

Lemma find_In k l v : FastStore.find k l = Some v -> In v (map snd l).
Proof.
  induction l as [| [k' v'] l IH]; simpl; [ discriminate | ].
  destruct (bytes_eqb k k'); intro H.
  - inversion H; subst. left; reflexivity.
  - right; auto.
Qed.

Lemma find_remove_same k l : FastStore.find k (FastStore.remove k l) = None.
Proof.
  induction l as [| [k' v'] l IH]; simpl; [ reflexivity | ].
  destruct (bytes_eqb k k') eqn:E; simpl; [ exact IH | ].
  rewrite E. exact IH.
Qed.

Lemma find_app k l l' :
  FastStore.find k (l ++ l')
  = match FastStore.find k l with Some v => Some v | None => FastStore.find k l' end.
Proof.
  induction l as [| [k' v'] l IH]; simpl; [ reflexivity | ].
  destruct (bytes_eqb k k'); [ reflexivity | exact IH ].
Qed.

Lemma find_moved k l v : FastStore.find k (FastStore.remove k l ++ [(k, v)]) = Some v.
Proof.
  rewrite find_app, find_remove_same. simpl. rewrite bytes_eqb_refl. reflexivity.
Qed.

Lemma replace_absent k v l : FastStore.find k l = None -> FastStore.replace k v l = l.
Proof.
  induction l as [| [k' v'] l IH]; simpl; [ reflexivity | ].
  destruct (bytes_eqb k k'); [ discriminate | ].
  intro H. rewrite IH by assumption. reflexivity.
Qed.

Lemma find_replace_is_Some k k' v l :
  FastStore.find k' l <> None -> FastStore.find k' (FastStore.replace k v l) <> None.
Proof.
  induction l as [| [k0 v0] l IH]; simpl; [ auto | ].
  destruct (bytes_eqb k k0); simpl; destruct (bytes_eqb k' k0); auto; discriminate.
Qed.

Lemma Forall_remove k l :
  Forall Q (map snd l) -> Forall Q (map snd (FastStore.remove k l)).
Proof.
  induction l as [| [k' v'] l IH]; simpl; [ auto | ].
  intro H. inversion H; subst.
  destruct (bytes_eqb k k'); simpl; auto.
Qed.

Lemma Forall_replace k v l :
  Q v -> Forall Q (map snd l) -> Forall Q (map snd (FastStore.replace k v l)).
Proof.
  intro Hv. induction l as [| [k' v'] l IH]; simpl; [ auto | ].
  intro H. inversion H; subst.
  destruct (bytes_eqb k k'); simpl; auto.
Qed.

Lemma Forall_skipn_values n l :
  Forall Q (map snd l) -> Forall Q (map snd (skipn n l)).
Proof.
  revert l. induction n as [| n IH]; intros l H; simpl; [ exact H | ].
  destruct l as [| x l]; simpl in *; [ exact H | ].
  inversion H; subst. apply IH; assumption.
Qed.

Lemma Forall_moved k v l :
  Q v -> Forall Q (map snd l) ->
  Forall Q (map snd (FastStore.remove k l ++ [(k, v)])).
Proof.
  intros Hv H. rewrite map_app. apply Forall_app. split.
  - apply Forall_remove; assumption.
  - simpl. constructor; [ assumption | constructor ].
Qed.

(** A hit hands out a stored object and keeps what is stored. *)
Lemma Get_values k (s : FastStore.t V) v s' :
  FastStore.Get k s = Some (v, s') ->
  Forall Q (FastStore.values s) -> Q v /\ Forall Q (FastStore.values s').
Proof.
  unfold FastStore.Get, FastStore.values.
  destruct (FastStore.find k (FastStore.entries s)) as [v0 |] eqn:E; [ | discriminate ].
  intros H HQ. inversion H; subst; clear H. simpl.
  assert (Q v).
  { apply find_In in E. rewrite Forall_forall in HQ. auto. }
  split; [ assumption | apply Forall_moved; assumption ].
Qed.

Lemma Get_miss k (s : FastStore.t V) :
  FastStore.Get k s = None -> FastStore.find k (FastStore.entries s) = None.
Proof.
  unfold FastStore.Get. destruct (FastStore.find k (FastStore.entries s));
    [ discriminate | reflexivity ].
Qed.

Lemma Get_find k (s : FastStore.t V) v s' :
  FastStore.Get k s = Some (v, s') -> FastStore.find k (FastStore.entries s) = Some v.
Proof.
  unfold FastStore.Get.
  destruct (FastStore.find k (FastStore.entries s)) as [v0 |]; [ | discriminate ].
  intro H. inversion H; reflexivity.
Qed.

Lemma Get_still_there k (s : FastStore.t V) v s' :
  FastStore.Get k s = Some (v, s') ->
  FastStore.find k (FastStore.entries s') = Some v.
Proof.
  unfold FastStore.Get.
  destruct (FastStore.find k (FastStore.entries s)) as [v0 |]; [ | discriminate ].
  intro H. inversion H; subst. simpl. apply find_moved.
Qed.

Lemma Put_values k v (s : FastStore.t V) :
  Q v -> Forall Q (FastStore.values s) -> Forall Q (FastStore.values (FastStore.Put k v s)).
Proof.
  intros Hv H. unfold FastStore.Put, FastStore.values, FastStore.Expire. simpl.
  apply Forall_skipn_values. apply Forall_moved; assumption.
Qed.

Lemma Mutate_values k v (s : FastStore.t V) :
  Q v -> Forall Q (FastStore.values s) ->
  Forall Q (FastStore.values (FastStore.Mutate k v s)).
Proof.
  intros Hv H. unfold FastStore.Mutate, FastStore.values. simpl.
  apply Forall_replace; assumption.
Qed.

Lemma find_skipn_None k n l :
  FastStore.find k l = None -> FastStore.find k (skipn n l) = None.
Proof.
  revert l. induction n as [| n IH]; intros l H; simpl; [ exact H | ].
  destruct l as [| [k' v'] l]; [ reflexivity | ].
  simpl in H. destruct (bytes_eqb k k'); [ discriminate | ]. apply IH; exact H.
Qed.

(** A store of capacity at least one holds what was put in last. *)
Lemma Put_find k v (s : FastStore.t V) :
  (1 <= FastStore.max_size s)%N ->
  FastStore.find k (FastStore.entries (FastStore.Put k v s)) = Some v.
Proof.
  intro Hn. unfold FastStore.Put, FastStore.Expire. simpl.
  set (r := FastStore.remove k (FastStore.entries s)).
  rewrite length_app. simpl.
  rewrite skipn_app.
  replace (N.to_nat (N.of_nat (List.length r + 1) - FastStore.max_size s) - List.length r)
    with 0 by lia.
  simpl. rewrite find_app.
  rewrite find_skipn_None by apply find_remove_same.
  simpl. rewrite bytes_eqb_refl. reflexivity.
Qed.

Lemma Mutate_absent k v (s : FastStore.t V) :
  FastStore.find k (FastStore.entries s) = None -> FastStore.Mutate k v s = s.
Proof.
  intro H. unfold FastStore.Mutate. rewrite replace_absent by assumption.
  destruct s; reflexivity.
Qed.

End FastStoreFacts.

(** ** Reasoning about the monad *)

Section Frame.

Context {P : Primitives}.
Local Open Scope comm_scope.

Variables (X : Type) (f : State -> X).

Lemma preserves_ret A (a : A) : preserves f (ret a).
Proof. intro s; reflexivity. Qed.

Lemma preserves_raise A (e : exn) : preserves f (@raise _ A e).
Proof. intro s; reflexivity. Qed.

Lemma preserves_gets A (g : State -> A) : preserves f (gets g).
Proof. intro s; reflexivity. Qed.

Lemma preserves_or_raise A (o : option A) (e : exn) : preserves f (or_raise o e).
Proof. destruct o; intro s; reflexivity. Qed.

Lemma preserves_modify (g : State -> State) :
  (forall s, f (g s) = f s) -> preserves f (modify g).
Proof. intros H s; apply H. Qed.

Lemma preserves_bind A B (m : M A) (k : A -> M B) :
  preserves f m -> (forall a, preserves f (k a)) -> preserves f (bind m k).
Proof.
  intros Hm Hk s. unfold bind. specialize (Hm s).
  destruct (m s) as [[a | e] s1]; simpl in *.
  - rewrite Hk. exact Hm.
  - exact Hm.
Qed.

Lemma preserves_try_except A (m : M A) (h : exn -> option (M A)) :
  preserves f m -> (forall e k, h e = Some k -> preserves f k) ->
  preserves f (try_except m h).
Proof.
  intros Hm Hh s. unfold try_except. specialize (Hm s).
  destruct (m s) as [[a | e] s1]; simpl in *.
  - exact Hm.
  - destruct (h e) as [k |] eqn:E; simpl.
    + rewrite (Hh e k E). exact Hm.
    + exact Hm.
Qed.

(** Running [bind m k] when [m] preserves [f]: the continuation starts in a
    state with the same observation. *)
Lemma bind_preserves_inv A B (m : M A) (k : A -> M B) (s : State)
    (Q : Result B * State -> Prop) :
  preserves f m ->
  (forall a s1, f s1 = f s -> Q (k a s1)) ->
  (forall e s1, f s1 = f s -> Q (Err e, s1)) ->
  Q (bind m k s).
Proof.
  intros Hm Hk He. unfold bind. specialize (Hm s).
  destruct (m s) as [[a | e] s1]; simpl in *; auto.
Qed.

End Frame.

Ltac preserves_step :=
  match goal with
  | |- preserves _ (bind _ _) => apply preserves_bind; [ | intro ]
  | |- preserves _ (ret _) => apply preserves_ret
  | |- preserves _ (raise _) => apply preserves_raise
  | |- preserves _ (gets _) => apply preserves_gets
  | |- preserves _ (or_raise _ _) => apply preserves_or_raise
  | |- preserves _ (modify _) =>
      apply preserves_modify; intro; cbv beta; solve [ reflexivity | auto ]
  | |- preserves _ (try_except _ _) =>
      apply preserves_try_except;
      [ | let e := fresh "e" in let k := fresh "k" in let H := fresh "H" in
          intros e k H; destruct e; simpl in H; inversion H; subst; clear H ]
  | |- preserves _ (if ?b then _ else _) => destruct b
  | |- preserves _ (match ?x with _ => _ end) => destruct x
  end.

Ltac preserves_tac := repeat preserves_step.

Ltac step_inv F :=
  match goal with
  | |- bind ?m ?k ?s = ?rhs -> ?G =>
      apply (@bind_preserves_inv _ _ F _ _ m k s (fun p => p = rhs -> G));
      [ | intros ? ? ? | intros ? ? ? ?; discriminate ]
  end.

Ltac bind_destruct :=
  match goal with
  | |- bind ?m ?k ?s = _ -> _ =>
      unfold bind at 1;
      let E := fresh "E" in
      destruct (m s) as [[? | ?] ?] eqn:E; [ | intro; discriminate ]
  end.

Section FrameLemmas.

Context {P : Primitives}.
Local Open Scope comm_scope.

(** An observation [f] that does not look at the generator or the counters,
    and does not see a hit move a public key to the young end of its store,
    is preserved by everything below [EncodeMessages] and
    [DecodeMessages]. *)

Variables (X : Type) (f : State -> X).
Hypothesis f_rng : forall r s, f (set_rng r s) = f s.
Hypothesis f_stats : forall x s, f (set_stats x s) = f s.
Hypothesis f_pub_key_cache :
  forall k v c s, FastStore.Get k (pub_key_cache s) = Some (v, c) ->
                  f (set_pub_key_cache c s) = f s.

Lemma frame_Rand_rand_pseudo_bytes n : preserves f (Rand_rand_pseudo_bytes n).
Proof.
  intro s. unfold Rand_rand_pseudo_bytes.
  destruct (rand_pseudo_bytes n (rng s)); simpl; auto.
Qed.

Lemma frame_Rand_rand_add d : preserves f (Rand_rand_add d).
Proof. unfold Rand_rand_add. preserves_tac. Qed.

Lemma frame_Increment_rsa_operations : preserves f Increment_rsa_operations.
Proof. unfold Increment_rsa_operations. preserves_tac. Qed.

Lemma frame_Increment_authenticated_messages :
  preserves f Increment_authenticated_messages.
Proof. unfold Increment_authenticated_messages. preserves_tac. Qed.

Lemma frame_pub_key_cache_Get cn : preserves f (pub_key_cache_Get cn).
Proof.
  intro s. unfold pub_key_cache_Get. destruct cn as [k |]; [ | reflexivity ].
  destruct (FastStore.Get k (pub_key_cache s)) as [[pem c'] |] eqn:G; simpl; eauto.
Qed.

Lemma frame_GetRSAPublicKey cn : preserves f (GetRSAPublicKey cn).
Proof.
  unfold GetRSAPublicKey. preserves_tac. apply frame_pub_key_cache_Get.
Qed.

Lemma frame_Encrypt c d i : preserves f (Encrypt c d i).
Proof.
  unfold Encrypt. preserves_tac. apply frame_Rand_rand_pseudo_bytes.
Qed.

Lemma frame_Decrypt c d i : preserves f (Decrypt c d i).
Proof. unfold Decrypt. preserves_tac. Qed.

Lemma frame_RSA_public_encrypt k d : preserves f (RSA_public_encrypt k d).
Proof.
  intro s. unfold RSA_public_encrypt.
  destruct (public_encrypt k d (rng s)) as [[o |] r]; simpl; auto.
Qed.

Lemma frame_Cipher__init__ a b c : preserves f (Cipher__init__ a b c).
Proof.
  unfold Cipher__init__.
  preserves_tac;
    first [ apply frame_Rand_rand_pseudo_bytes
          | apply frame_GetRSAPublicKey
          | apply frame_Increment_rsa_operations
          | apply frame_RSA_public_encrypt
          | apply frame_Encrypt ].
Qed.

Lemma frame_VerifyCipherSignature c : preserves f (VerifyCipherSignature c).
Proof.
  unfold VerifyCipherSignature.
  preserves_tac;
    first [ apply frame_GetRSAPublicKey | apply frame_Increment_rsa_operations ].
Qed.

Lemma frame_DecompressMessageList l : preserves f (DecompressMessageList l).
Proof. unfold DecompressMessageList. preserves_tac. Qed.

End FrameLemmas.

(** ** Which exceptions an operation can raise *)

Section Raises.

Context {P : Primitives}.
Local Open Scope comm_scope.

Variable E : exn -> Prop.

Lemma raises_ret A (a : A) : raises_within E (ret a).
Proof. intros s e H; discriminate. Qed.

Lemma raises_gets A (g : State -> A) : raises_within E (gets g).
Proof. intros s e H; discriminate. Qed.

Lemma raises_modify g : raises_within E (modify g).
Proof. intros s e H; discriminate. Qed.

Lemma raises_raise A (e : exn) : E e -> raises_within E (@raise _ A e).
Proof. intros He s e' H. inversion H; subst; assumption. Qed.

Lemma raises_or_raise A (o : option A) (e : exn) : E e -> raises_within E (or_raise o e).
Proof.
  intros He s e' H. destruct o; simpl in H; [ discriminate | ].
  inversion H; subst; assumption.
Qed.

Lemma raises_bind A B (m : M A) (k : A -> M B) :
  raises_within E m -> (forall a, raises_within E (k a)) -> raises_within E (bind m k).
Proof.
  intros Hm Hk s e. unfold bind. specialize (Hm s).
  destruct (m s) as [[a | e0] s1]; simpl in *.
  - apply Hk.
  - intro H. apply Hm. inversion H; reflexivity.
Qed.

Lemma raises_try_except A (m : M A) (h : exn -> option (M A)) (E0 : exn -> Prop) :
  raises_within E0 m ->
  (forall e, E0 e -> match h e with
                     | Some k => raises_within E k
                     | None => E e
                     end) ->
  raises_within E (try_except m h).
Proof.
  intros Hm Hh s e. unfold try_except. specialize (Hm s).
  destruct (m s) as [[a | e0] s1]; simpl in *; [ discriminate | ].
  specialize (Hh e0 (Hm e0 eq_refl)).
  destruct (h e0) as [k |]; simpl.
  - apply Hh.
  - intro H. inversion H; subst. exact Hh.
Qed.

Lemma raises_weaken A (m : M A) (E0 : exn -> Prop) :
  raises_within E0 m -> (forall e, E0 e -> E e) -> raises_within E m.
Proof. intros Hm HE s e H. apply HE. eapply Hm. eassumption. Qed.

End Raises.

Ltac raises_step :=
  match goal with
  | |- raises_within _ (bind _ _) => apply raises_bind; [ | intro ]
  | |- raises_within _ (ret _) => apply raises_ret
  | |- raises_within _ (gets _) => apply raises_gets
  | |- raises_within _ (modify _) => apply raises_modify
  | |- raises_within _ (raise _) => apply raises_raise
  | |- raises_within _ (or_raise _ _) => apply raises_or_raise
  | |- raises_within _ (if ?b then _ else _) => destruct b
  | |- raises_within _ (match ?x with _ => _ end) => destruct x
  end.

Ltac raises_tac := repeat raises_step.

Section RaisesLemmas.

Context {P : Primitives}.
Local Open Scope comm_scope.

Lemma pub_key_cache_Get_raises cn :
  raises_within (fun e => exists m, e = KeyError m) (pub_key_cache_Get cn).
Proof.
  intros s e. unfold pub_key_cache_Get.
  destruct cn as [k |]; simpl.
  - destruct (FastStore.Get k (pub_key_cache s)) as [[pem c'] |]; simpl;
      intro H; inversion H; eauto.
  - intro H; inversion H; eauto.
Qed.

Lemma GetRSAPublicKey_raises cn : raises_within lookup_error (GetRSAPublicKey cn).
Proof.
  unfold GetRSAPublicKey.
  apply raises_try_except
    with (E0 := fun e => (exists m, e = KeyError m) \/ e = RSAError).
  - raises_tac.
    + eapply raises_weaken; [ apply pub_key_cache_Get_raises | ].
      intros e H; left; exact H.
    + right; reflexivity.
  - intros e [[m ->] | ->]; simpl.
    + apply raises_raise. left; reflexivity.
    + right; reflexivity.
Qed.

Lemma VerifyCipherSignature_raises c :
  raises_within verify_error (VerifyCipherSignature c).
Proof.
  unfold VerifyCipherSignature.
  destruct (rc_cipher_metadata c) as [md |].
  - destruct (truthy (signature md)); [ | apply raises_ret ].
    apply raises_try_except with (E0 := lookup_error).
    + raises_tac; try (right; reflexivity).
      * apply GetRSAPublicKey_raises.
      * unfold Increment_rsa_operations. apply raises_modify.
    + intros e [-> | ->]; simpl; left; [ left | right ]; reflexivity.
  - apply raises_raise. right; reflexivity.
Qed.

End RaisesLemmas.

(** ** EncodeMessages *)

Section Encode.

Context {P : Primitives}.
Local Open Scope comm_scope.

Section EncodeFrame.

Variables (X : Type) (f : State -> X).
Hypothesis f_rng : forall r s, f (set_rng r s) = f s.
Hypothesis f_stats : forall x s, f (set_stats x s) = f s.
Hypothesis f_pub_key_cache :
  forall k v c s, FastStore.Get k (pub_key_cache s) = Some (v, c) ->
                  f (set_pub_key_cache c s) = f s.
Hypothesis f_cipher_cache : forall c s, f (set_cipher_cache c s) = f s.

Lemma frame_cipher_cache_Get d : preserves f (cipher_cache_Get d).
  Proof.
    intro s. unfold cipher_cache_Get. destruct d as [d |]; [ | reflexivity ].
    destruct (TimeBasedCache.Get (time_us s) d (cipher_cache s)) as [[c c'] |];
      simpl; auto.
  Qed.

Lemma frame_cipher_cache_Put d c : preserves f (cipher_cache_Put d c).
  Proof. unfold cipher_cache_Put. preserves_tac. Qed.

Lemma frame_destination_cipher d : preserves f (destination_cipher d).
  Proof.
    unfold destination_cipher.
    preserves_tac;
      first [ apply frame_cipher_cache_Get
            | apply frame_cipher_cache_Put
            | apply frame_Cipher__init__; assumption ].
  Qed.

Lemma frame_encode_with_cipher ml result ts v c :
    preserves f (encode_with_cipher ml result ts v c).
  Proof.
    unfold encode_with_cipher.
    preserves_tac; apply frame_Encrypt; assumption.
  Qed.

  (** With the nonce given, [EncodeMessages] writes nothing but the
      generator, the counters and the two caches of the sending side. *)
Lemma frame_EncodeMessages_given ml result d t v :
    preserves f (EncodeMessages ml result d (Some t) v).
  Proof.
    unfold EncodeMessages, make_nonce.
    preserves_tac;
      first [ apply frame_destination_cipher | apply frame_encode_with_cipher ].
  Qed.

  (** With the nonce left out, it also writes [timestamp]. *)
Hypothesis f_timestamp : forall t s, f (set_timestamp t s) = f s.

Lemma frame_EncodeMessages ml result d t v :
    preserves f (EncodeMessages ml result d t v).
  Proof.
    unfold EncodeMessages, make_nonce.
    preserves_tac;
      first [ apply frame_destination_cipher | apply frame_encode_with_cipher ].
  Qed.

End EncodeFrame.

Lemma encode_with_cipher_nonce ml result t v c s fr ts s' :
  encode_with_cipher ml result t v c s = (Ok (fr, ts), s') -> ts = t.
Proof.
  pose (F := fun _ : State => tt).
  unfold encode_with_cipher.
  step_inv F; [ intro; reflexivity | ].
  step_inv F; [ intro; reflexivity | ].
  step_inv F; [ intro; reflexivity | ].
  cbv zeta.
  destruct (3 <=? v)%Z;
    (step_inv F; [ intro; reflexivity | ]);
    unfold ret; intro E; inversion E; reflexivity.
Qed.

Lemma make_nonce_run t0 s :
  make_nonce t0 s =
  match t0 with
  | Some t => (Ok t, s)
  | None => (Ok (time_us s), set_timestamp (Some (time_us s)) s)
  end.
Proof. destruct t0; reflexivity. Qed.

(** The nonce a successful call returns, and the [timestamp] it leaves. *)
Lemma EncodeMessages_result ml result d t0 v s fr ts s' :
  EncodeMessages ml result d t0 v s = (Ok (fr, ts), s') ->
  ts = match t0 with Some t => t | None => time_us s end
  /\ timestamp s' = match t0 with Some _ => timestamp s | None => Some (time_us s) end.
Proof.
  pose (F := fun x : State => (timestamp x, time_us x)).
  unfold EncodeMessages.
  destruct (negb _); [ discriminate | ].
  step_inv F; [ destruct d; preserves_tac | ].
  unfold bind at 1. rewrite make_nonce_run.
  assert (Hrest : forall t s2,
            bind (destination_cipher a) (encode_with_cipher ml result t v) s2
            = (Ok (fr, ts), s') -> ts = t /\ F s' = F s2).
  { intros t s2. step_inv F.
    - apply frame_destination_cipher; intros; reflexivity.
    - intro E. split.
      + eapply encode_with_cipher_nonce; eassumption.
      + rewrite <- H0.
        assert (Hf : preserves F (encode_with_cipher ml result t v a0))
          by (apply frame_encode_with_cipher; intros; reflexivity).
        specialize (Hf s0).
        rewrite E in Hf. exact Hf. }
  unfold F in *.
  destruct t0 as [t |]; intro E; apply Hrest in E; destruct E as [E1 E2];
    simpl in E2; split; congruence.
Qed.

End Encode.

(** ** DecodeMessages *)

Section Decode.

Context {P : Primitives}.
Local Open Scope comm_scope.

Section DecodeFrame.

  (** The receiving side writes the generator, the counters, the order of
      the public keys, the cache of received ciphers and the count of
      private decryptions; nothing else. *)
Variables (X : Type) (f : State -> X).
Hypothesis f_rng : forall r s, f (set_rng r s) = f s.
Hypothesis f_stats : forall x s, f (set_stats x s) = f s.
Hypothesis f_pub_key_cache :
  forall k v c s, FastStore.Get k (pub_key_cache s) = Some (v, c) ->
                  f (set_pub_key_cache c s) = f s.
Hypothesis f_encrypted_cipher_cache :
    forall c s, f (set_encrypted_cipher_cache c s) = f s.
Hypothesis f_private_decrypt_calls :
    forall n s, f (set_private_decrypt_calls n s) = f s.

Lemma frame_encrypted_cipher_cache_Get k : preserves f (encrypted_cipher_cache_Get k).
  Proof.
    intro s. unfold encrypted_cipher_cache_Get.
    destruct (FastStore.Get k (encrypted_cipher_cache s)) as [[c c'] |]; simpl; auto.
  Qed.

Lemma frame_mutate_cipher c : preserves f (mutate_cipher c).
  Proof. unfold mutate_cipher. preserves_tac. Qed.

Lemma frame_ReceivedCipher__init__ rc priv :
    preserves f (ReceivedCipher__init__ rc priv).
  Proof.
    unfold ReceivedCipher__init__, count_private_decrypt.
    preserves_tac;
      first [ apply frame_Decrypt | apply frame_VerifyCipherSignature; assumption ].
  Qed.

Lemma frame_received_cipher rc : preserves f (received_cipher rc).
  Proof.
    unfold received_cipher.
    preserves_tac;
      first [ apply frame_encrypted_cipher_cache_Get
            | apply frame_ReceivedCipher__init__ ].
  Qed.

Lemma frame_DecodePayload rc : preserves f (DecodePayload rc).
  Proof.
    unfold DecodePayload.
    preserves_tac;
      first [ apply frame_received_cipher
            | apply frame_Rand_rand_add; assumption
            | apply frame_Decrypt
            | apply frame_DecompressMessageList ].
  Qed.

Lemma frame_check_signature rc l c v : preserves f (check_signature rc l c v).
  Proof.
    unfold check_signature.
    preserves_tac;
      first [ apply frame_GetRSAPublicKey; assumption
            | apply frame_Increment_rsa_operations; assumption
            | apply frame_Increment_authenticated_messages; assumption
            | apply frame_VerifyCipherSignature; assumption
            | apply frame_mutate_cipher ].
  Qed.

Lemma frame_read_timestamp : preserves f read_timestamp.
  Proof.
    intro s. unfold read_timestamp, or_raise. destruct (timestamp s); reflexivity.
  Qed.

Lemma frame_VerifyMessageSignature rc l c v :
    preserves f (VerifyMessageSignature rc l c v).
  Proof.
    unfold VerifyMessageSignature.
    preserves_tac;
      first [ apply frame_check_signature
            | apply frame_read_timestamp
            | apply frame_mutate_cipher ].
  Qed.

Lemma frame_DecodeMessages rc : preserves f (DecodeMessages rc).
  Proof.
    unfold DecodeMessages.
    preserves_tac;
      first [ apply frame_DecodePayload | apply frame_VerifyMessageSignature ].
  Qed.

End DecodeFrame.

(** A successful [DecodeMessages] is a successful [DecodePayload] followed
    by a successful [VerifyMessageSignature]. *)
Lemma DecodeMessages_Ok_inv rc s msgs src ts s' :
  DecodeMessages rc s = (Ok (msgs, src, ts), s') ->
  exists c l ml s1 a c' md,
    DecodePayload rc s = (Ok (c, l, ml), s1)
    /\ VerifyMessageSignature rc l c (api_version rc) s1 = (Ok (a, c'), s')
    /\ rc_cipher_metadata c' = Some md
    /\ msgs = map (mark a (source md)) (job ml)
    /\ src = source md
    /\ ts = sml_timestamp l.
Proof.
  unfold DecodeMessages, bind.
  destruct (DecodePayload rc s) as [[[[c l] ml] | e] s1]; [ | discriminate ].
  destruct (VerifyMessageSignature rc l c (api_version rc) s1)
    as [[[a c'] | e] s2] eqn:Ev; [ | discriminate ].
  destruct (rc_cipher_metadata c') as [md |] eqn:Emd; [ | discriminate ].
  unfold ret. intro E. inversion E; subst.
  exists c, l, ml, s1, a, c', md. repeat split; auto.
Qed.

(** The replay check of [VerifyMessageSignature]: the attribute exists, and
    a nonce other than the stored one gives [UNAUTHENTICATED]. *)
Lemma VerifyMessageSignature_replay rc l c v s a c' s' :
  VerifyMessageSignature rc l c v s = (Ok (a, c'), s') ->
  exists t, timestamp s = Some t
            /\ (sml_timestamp l <> t -> a = UNAUTHENTICATED).
Proof.
  unfold VerifyMessageSignature.
  step_inv timestamp.
  - apply frame_check_signature; intros; reflexivity.
  - destruct a0 as [result cipher].
    unfold bind at 1. unfold read_timestamp, or_raise. rewrite H.
    destruct (timestamp s) as [t |]; [ | discriminate ].
    unfold ret at 1. intro E. exists t. split; [ reflexivity | ].
    intro Hne.
    assert (Ea : a = if (sml_timestamp l =? t)%Z then result else UNAUTHENTICATED).
    { destruct (rc_cipher_metadata cipher).
      - unfold ret in E. inversion E; reflexivity.
      - unfold bind, mutate_cipher, modify, ret in E. inversion E; reflexivity. }
    rewrite Ea. destruct (Z.eqb_spec (sml_timestamp l) t); congruence.
Qed.

(** What verification can do to the object: set [signature_verified]. *)
Lemma VerifyCipherSignature_result c s c' s' :
  VerifyCipherSignature c s = (Ok c', s') ->
  c' = c \/ c' = set_rc_signature_verified true c.
Proof.
  unfold VerifyCipherSignature.
  destruct (rc_cipher_metadata c) as [md |]; [ | discriminate ].
  destruct (truthy (signature md)); [ | intro H; inversion H; left; reflexivity ].
  unfold try_except.
  match goal with
  | |- (match ?m s with _ => _ end) = _ -> _ => destruct (m s) as [[x | e] s1] eqn:E
  end.
  - intro H. inversion H; subst. revert E.
    bind_destruct. bind_destruct. bind_destruct.
    match goal with
    | |- (if ?b then _ else _) _ = _ -> _ => destruct b
    end; unfold ret; intro H0; inversion H0; auto.
  - destruct e; try discriminate;
      unfold ret; intro H; inversion H; left; reflexivity.
Qed.

Lemma ReceivedCipher__init___encrypted_cipher rc priv s c s' :
  ReceivedCipher__init__ rc priv s = (Ok c, s') ->
  rc_encrypted_cipher c = encrypted_cipher rc.
Proof.
  unfold ReceivedCipher__init__.
  bind_destruct. unfold try_except.
  match goal with
  | |- (match ?m ?s with _ => _ end) = _ -> _ => destruct (m s) as [[x | e] s1] eqn:E0
  end.
  - intro H. inversion H; subst. revert E0.
    bind_destruct. bind_destruct. bind_destruct.
    destruct (_ || _); [ discriminate | ].
    destruct (3 <=? api_version rc)%Z.
    + destruct (negb _); [ discriminate | ].
      bind_destruct. bind_destruct.
      intro Hv. apply VerifyCipherSignature_result in Hv.
      destruct Hv as [-> | ->]; reflexivity.
    + unfold ret. intro H0. inversion H0; reflexivity.
  - destruct e; try discriminate.
Qed.

Lemma DecodeMessages_after_payload rc s c l ml s1 :
  DecodePayload rc s = (Ok (c, l, ml), s1) ->
  DecodeMessages rc s
  = bind (VerifyMessageSignature rc l c (api_version rc))
      (fun ac => let '(a, cipher) := ac in
                 match rc_cipher_metadata cipher with
                 | None => raise (AttributeError "source")
                 | Some md => ret (map (mark a (source md)) (job ml), source md,
                                   sml_timestamp l)
                 end) s1.
Proof.
  intro E. unfold DecodeMessages. unfold bind at 1. rewrite E. reflexivity.
Qed.


Lemma VerifyMessageSignature_check_error rc l c v s e s1 :
  check_signature rc l c v s = (Err e, s1) ->
  VerifyMessageSignature rc l c v s = (Err e, s1).
Proof.
  intro E. unfold VerifyMessageSignature. unfold bind at 1. rewrite E. reflexivity.
Qed.

(** A miss in the directory of this file: [KeyError], state untouched. *)
Lemma GetRSAPublicKey_miss cn s :
  FastStore.find cn (FastStore.entries (pub_key_cache s)) = None ->
  GetRSAPublicKey (Some cn) s = (Err (KeyError "No certificate found"), s).
Proof.
  intro H. unfold GetRSAPublicKey, try_except, bind, pub_key_cache_Get, FastStore.Get.
  rewrite H. reflexivity.
Qed.

(** [VerifyCipherSignature] does not catch the [KeyError] of that miss. *)
Lemma VerifyCipherSignature_miss c md s :
  rc_cipher_metadata c = Some md ->
  truthy (signature md) = true ->
  FastStore.find (source md) (FastStore.entries (pub_key_cache s)) = None ->
  VerifyCipherSignature c s = (Err (KeyError "No certificate found"), s).
Proof.
  intros Hmd Hsig Hmiss. unfold VerifyCipherSignature. rewrite Hmd, Hsig.
  unfold try_except. unfold bind at 1. rewrite (GetRSAPublicKey_miss _ _ Hmiss).
  reflexivity.
Qed.

Lemma check_signature_v3_raises rc l c v :
  (v <? 3)%Z = false ->
  HMAC (rc_cipher c) (encrypted rc) = hmac rc ->
  raises_within verify_error (check_signature rc l c v).
Proof.
  intros Hv Hh. unfold check_signature. rewrite Hv, Hh, bytes_eqb_refl.
  change (negb true) with false. cbv iota.
  raises_tac;
    first [ apply VerifyCipherSignature_raises
          | unfold mutate_cipher; apply raises_modify
          | unfold Increment_authenticated_messages; apply raises_modify ].
Qed.

End Decode.

(** * The claims *)

Section CompressionPolicy.

Context {P : Primitives}.

(** Whatever [signed_message_list] is passed in, [EncodeMessageList] writes
    [compression] only when it adopts the compressed bytes. *)
Lemma EncodeMessageList_not_shorter ml l :
  List.length (MessageList_Serialize ml)
    <= List.length (zlib_compress (MessageList_Serialize ml)) ->
  EncodeMessageList "ZCOMPRESS" ml l
  = set_message_list (sml_compression l) (MessageList_Serialize ml) l.
Proof.
  intro H. unfold EncodeMessageList. simpl.
  destruct (Nat.ltb_spec (List.length (zlib_compress (MessageList_Serialize ml)))
                         (List.length (MessageList_Serialize ml))); [ lia | reflexivity ].
Qed.

(** C7.  Under the policy ZCOMPRESS, on the fresh [SignedMessageList] that
    [EncodeMessages] hands over, [EncodeMessageList] adopts the
    zlib-compressed serialization exactly when it is strictly shorter than
    the raw one; otherwise the output is marked UNCOMPRESSED and carries the
    raw bytes. *)
Theorem EncodeMessageList_compression_policy (ml : MessageList) (ts : Z) :
  let raw := MessageList_Serialize ml in
  let z := zlib_compress raw in
  let out := EncodeMessageList "ZCOMPRESS" ml (new_SignedMessageList ts) in
  (List.length z < List.length raw
   /\ sml_compression out = ZCOMPRESSION /\ sml_message_list out = z)
  \/ (List.length raw <= List.length z
      /\ sml_compression out = UNCOMPRESSED /\ sml_message_list out = raw).
Proof.
  cbv zeta. unfold EncodeMessageList. simpl.
  destruct (Nat.ltb_spec (List.length (zlib_compress (MessageList_Serialize ml)))
                         (List.length (MessageList_Serialize ml))).
  - left. repeat split; auto.
  - right. repeat split; auto.
Qed.

End CompressionPolicy.

Section Nonce.

Context {P : Primitives}.

(** C8, as the code has it.  A successful [EncodeMessages] that is called
    without a timestamp stores the nonce it returns in [self.timestamp]; one
    that is given the timestamp returns it and leaves [self.timestamp] as it
    was. *)
Theorem EncodeMessages_nonce_stored ml result d t0 v s fr ts s' :
  EncodeMessages ml result d t0 v s = (Ok (fr, ts), s') ->
  match t0 with
  | None => timestamp s' = Some ts
  | Some t => ts = t /\ timestamp s' = timestamp s
  end.
Proof.
  intro E. apply EncodeMessages_result in E. destruct E as [E1 E2].
  destruct t0; [ split; assumption | congruence ].
Qed.

(** C4.  A frame that [DecodeMessages] decodes without error and whose
    inner timestamp (the third component returned) is not the stored nonce
    has every message marked UNAUTHENTICATED, whatever the signature and
    HMAC checks said. *)
Theorem DecodeMessages_stale_nonce rc s msgs src ts s' :
  DecodeMessages rc s = (Ok (msgs, src, ts), s') ->
  timestamp s <> Some ts ->
  Forall (fun m => auth_state m = UNAUTHENTICATED) msgs.
Proof.
  intros E Hts.
  apply DecodeMessages_Ok_inv in E.
  destruct E as (c & l & ml & s1 & a & c' & md & Ep & Ev & _ & Em & _ & Et).
  apply VerifyMessageSignature_replay in Ev. destruct Ev as (t & Ht & Ha).
  assert (Hs : timestamp s1 = timestamp s).
  { assert (Hf : preserves timestamp (DecodePayload rc))
      by (apply frame_DecodePayload; intros; reflexivity).
    specialize (Hf s). rewrite Ep in Hf. exact Hf. }
  assert (a = UNAUTHENTICATED) by (apply Ha; congruence).
  subst. apply Forall_forall. intros m Hin.
  apply in_map_iff in Hin. destruct Hin as (m0 & <- & _). reflexivity.
Qed.

End Nonce.

(** C8 as stated fails: the client encodes with the timestamp 5 given; the
    call returns 5 and the communicator still has no [timestamp]. *)
Lemma EncodeMessages_given_nonce_not_stored :
  let r := @EncodeMessages Toy.primitives Scenario.batch new_ClientCommunication
             (Some Scenario.server_cert) (Some 5%Z) 3 Scenario.client in
  match fst r with
  | Ok (_, ts) => ts = 5%Z /\ timestamp (snd r) <> Some ts
  | Err _ => False
  end.
Proof. vm_compute. split; [ reflexivity | discriminate ]. Qed.

Lemma EncodeMessages_nonce_stored_witness :
  timestamp (snd (@EncodeMessages Toy.primitives Scenario.batch new_ClientCommunication
                    (Some Scenario.server_cert) None 3 Scenario.client)) = Some 7%Z.
Proof.
  apply (@EncodeMessages_nonce_stored Toy.primitives Scenario.batch
           new_ClientCommunication (Some Scenario.server_cert) None 3
           Scenario.client (Scenario.frame 3) 7%Z).
  vm_compute. reflexivity.
Defined.

Lemma DecodeMessages_stale_nonce_witness :
  Forall (fun m => auth_state m = UNAUTHENTICATED)
    (map (mark UNAUTHENTICATED Scenario.client_cert) (job Scenario.batch)).
Proof.
  apply (@DecodeMessages_stale_nonce Toy.primitives (Scenario.frame 3)
           (Scenario.server_expecting 8) _ Scenario.client_cert 7%Z
           (snd (@DecodeMessages Toy.primitives (Scenario.frame 3)
                   (Scenario.server_expecting 8)))).
  - vm_compute. reflexivity.
  - vm_compute. discriminate.
Defined.

Section Authentication.

Context {P : Primitives}.
Local Open Scope comm_scope.

Lemma read_timestamp_raises :
  raises_within (fun e => e = AttributeError "timestamp") read_timestamp.
Proof.
  intros s e. unfold read_timestamp, or_raise.
  destruct (timestamp s); simpl; intro H; inversion H; reflexivity.
Qed.

(** C5, as the code has it.  The HMAC is compared in
    [VerifyMessageSignature], after the payload has been decrypted, parsed
    and decompressed.  For a version 3 frame that gets that far,
    [DecodeMessages] fails with the HMAC error if and only if
    HMAC-SHA1 under the session [hmac_key] over [encrypted] differs from the
    frame's [hmac]. *)
Theorem DecodeMessages_hmac_mismatch rc s c l ml s1 :
  api_version rc = 3%Z ->
  DecodePayload rc s = (Ok (c, l, ml), s1) ->
  fst (DecodeMessages rc s) = Err (DecryptionError "HMAC verification failed.")
  <-> HMAC (rc_cipher c) (encrypted rc) <> hmac rc.
Proof.
  intros Hv Ep. rewrite (DecodeMessages_after_payload _ _ Ep). rewrite Hv.
  split.
  - intros H Heq.
    assert (R : raises_within
                  (fun e => verify_error e \/ exists a, e = AttributeError a)
                  (bind (VerifyMessageSignature rc l c 3)
                     (fun ac => let '(a, cipher) := ac in
                        match rc_cipher_metadata cipher with
                        | None => raise (AttributeError "source")
                        | Some md =>
                            ret (map (mark a (source md)) (job ml), source md,
                                 sml_timestamp l)
                        end))).
    { unfold VerifyMessageSignature.
      raises_tac; try (right; eexists; reflexivity).
      - eapply raises_weaken;
          [ apply check_signature_v3_raises; [ reflexivity | exact Heq ] | ].
        intros e He; left; exact He.
      - eapply raises_weaken; [ apply read_timestamp_raises | ].
        intros e ->; right; eexists; reflexivity.
      - unfold mutate_cipher. apply raises_modify. }
    apply R in H. destruct H as [[[H | H] | H] | [a H]]; discriminate.
  - intro Hne. apply bytes_eqb_neq in Hne. unfold bind at 1.
    rewrite (VerifyMessageSignature_check_error rc l c 3 s1
               (e := DecryptionError "HMAC verification failed.") (s1 := s1)).
    + reflexivity.
    + unfold check_signature. change (3 <? 3)%Z with false. cbv iota.
      rewrite Hne. reflexivity.
Qed.

Lemma Communicator__init___timestamp certificate r now st flag n s0 :
  Communicator__init__ certificate r now st flag n = Ok s0 -> timestamp s0 = None.
Proof.
  unfold Communicator__init__.
  match goal with
  | |- match _LoadOurCertificate _ ?s with _ => _ end = _ -> _ =>
      assert (Hf : timestamp (snd (_LoadOurCertificate certificate s)) = timestamp s)
  end.
  { apply (preserves_bind (f := timestamp)); [ apply preserves_or_raise | intro ].
    unfold _LoadOurCertificate, PubKeyCache_Put. preserves_tac. }
  destruct (_LoadOurCertificate certificate _) as [[u | e] s']; [ | discriminate ].
  intro E. inversion E; subst. exact Hf.
Qed.

Lemma step_timestamp s c : nonce_given c = true -> timestamp (step s c) = timestamp s.
Proof.
  destruct c as [ml result d [t |] v | rc | d k | now]; simpl; intro H;
    try discriminate; try reflexivity.
  - apply frame_EncodeMessages_given; intros; reflexivity.
  - apply frame_DecodeMessages; intros; reflexivity.
Qed.

Lemma run_timestamp calls s :
  forallb nonce_given calls = true -> timestamp (run calls s) = timestamp s.
Proof.
  revert s. induction calls as [| c calls IH]; intros s H; simpl in *.
  - reflexivity.
  - apply andb_prop in H. destruct H as [Hc Hcalls].
    unfold run in *. simpl. rewrite IH by assumption. apply step_timestamp; assumption.
Qed.

Lemma DecodeMessages_no_timestamp rc s :
  timestamp s = None ->
  (forall x s', DecodeMessages rc s <> (Ok x, s'))
  /\ (forall c l ml s1 ac s2,
        DecodePayload rc s = (Ok (c, l, ml), s1) ->
        check_signature rc l c (api_version rc) s1 = (Ok ac, s2) ->
        DecodeMessages rc s = (Err (AttributeError "timestamp"), s2)).
Proof.
  intro Hts.
  assert (Hp : forall c l ml s1, DecodePayload rc s = (Ok (c, l, ml), s1) ->
                                 timestamp s1 = None).
  { intros c l ml s1 Ep.
    assert (Hf : preserves timestamp (DecodePayload rc))
      by (apply frame_DecodePayload; intros; reflexivity).
    specialize (Hf s). rewrite Ep in Hf. simpl in Hf. congruence. }
  split.
  - intros [[msgs src] ts] s' E.
    apply DecodeMessages_Ok_inv in E.
    destruct E as (c & l & ml & s1 & a & c' & md & Ep & Ev & _).
    apply VerifyMessageSignature_replay in Ev. destruct Ev as (t & Ht & _).
    rewrite (Hp _ _ _ _ Ep) in Ht. discriminate.
  - intros c l ml s1 [a c'] s2 Ep Ec.
    rewrite (DecodeMessages_after_payload _ _ Ep).
    assert (Hf : preserves timestamp (check_signature rc l c (api_version rc)))
      by (apply frame_check_signature; intros; reflexivity).
    specialize (Hf s1). rewrite Ec in Hf. simpl in Hf.
    rewrite (Hp _ _ _ _ Ep) in Hf.
    unfold VerifyMessageSignature, bind. rewrite Ec.
    unfold read_timestamp. rewrite Hf. reflexivity.
Qed.

(** C9, as the code has it.  On a communicator that was constructed and has
    since made no call of [EncodeMessages] without a timestamp, no frame
    decodes to a batch; a frame that passes the payload decoding and the
    signature or HMAC check fails with the attribute error of
    [self.timestamp].  (A frame that fails before fails with its own
    error.) *)
Theorem DecodeMessages_before_first_nonce certificate r now st flag n s0 calls rc :
  Communicator__init__ certificate r now st flag n = Ok s0 ->
  forallb nonce_given calls = true ->
  (forall x s', DecodeMessages rc (run calls s0) <> (Ok x, s'))
  /\ (forall c l ml s1 ac s2,
        DecodePayload rc (run calls s0) = (Ok (c, l, ml), s1) ->
        check_signature rc l c (api_version rc) s1 = (Ok ac, s2) ->
        DecodeMessages rc (run calls s0) = (Err (AttributeError "timestamp"), s2)).
Proof.
  intros Hinit Hcalls. apply DecodeMessages_no_timestamp.
  rewrite run_timestamp by assumption.
  eapply Communicator__init___timestamp; eassumption.
Qed.

(** C3, as the code has it.  On a version 2 frame whose payload decodes,
    if the sender named by [signed_message_list.source] is not in the
    directory, [DecodeMessages] raises the [KeyError] of
    [GetRSAPublicKey]; no batch is returned. *)
Theorem DecodeMessages_v2_unknown_sender rc s c l ml s1 :
  api_version rc = 2%Z ->
  DecodePayload rc s = (Ok (c, l, ml), s1) ->
  FastStore.find (sml_source l) (FastStore.entries (pub_key_cache s1)) = None ->
  DecodeMessages rc s = (Err (KeyError "No certificate found"), s1).
Proof.
  intros Hv Ep Hmiss.
  rewrite (DecodeMessages_after_payload _ _ Ep). rewrite Hv.
  unfold bind at 1.
  rewrite (VerifyMessageSignature_check_error rc l c 2 s1
             (e := KeyError "No certificate found") (s1 := s1)).
  - reflexivity.
  - unfold check_signature. change (2 <? 3)%Z with true. cbv iota zeta.
    unfold bind at 1. rewrite (GetRSAPublicKey_miss _ _ Hmiss). reflexivity.
Qed.

End Authentication.

(** C5 as stated fails: a version 3 frame whose [encrypted] field was
    emptied has a wrong HMAC, and [DecodeMessages] fails on the parse of the
    decrypted payload, before any HMAC is computed. *)
Lemma DecodeMessages_fails_before_hmac :
  let f := Scenario.with_encrypted [] (Scenario.frame 3) in
  let s := Scenario.server_expecting 7 in
  api_version f = 3%Z
  /\ match fst (@received_cipher Toy.primitives f s) with
     | Ok c => @HMAC Toy.primitives (rc_cipher c) (encrypted f) <> hmac f
     | Err _ => False
     end
  /\ fst (@DecodeMessages Toy.primitives f s) = Err DecodeError.
Proof.
  vm_compute. repeat split. intro H. discriminate.
Qed.

Lemma DecodeMessages_hmac_mismatch_witness :
  fst (@DecodeMessages Toy.primitives (Scenario.with_hmac [] (Scenario.frame 3))
         (Scenario.server_expecting 7))
  = Err (DecryptionError "HMAC verification failed.").
Proof.
  eapply (@DecodeMessages_hmac_mismatch Toy.primitives
            (Scenario.with_hmac [] (Scenario.frame 3)) (Scenario.server_expecting 7)).
  - vm_compute. reflexivity.
  - vm_compute. reflexivity.
  - vm_compute. intro H. discriminate.
Defined.

(** C9 as stated fails: a communicator that has just been constructed
    knows no key but its own, and a version 2 frame of another sender fails
    with the [KeyError] of the lookup, not with an attribute error. *)
Lemma DecodeMessages_fresh_other_error :
  @Communicator__init__ Toy.primitives Scenario.server_cert 0%nat 7%Z
     Scenario.stats0 "ZCOMPRESS" 0 = Ok (Scenario.fresh Scenario.server_cert)
  /\ fst (@DecodeMessages Toy.primitives (Scenario.frame 2)
            (Scenario.fresh Scenario.server_cert))
     = Err (KeyError "No certificate found").
Proof. vm_compute. split; reflexivity. Qed.

Lemma DecodeMessages_before_first_nonce_witness :
  fst (@DecodeMessages Toy.primitives (Scenario.frame 3) Scenario.server)
  = Err (AttributeError "timestamp").
Proof.
  assert (H : @Communicator__init__ Toy.primitives Scenario.server_cert 0%nat 7%Z
                Scenario.stats0 "ZCOMPRESS" 0 = Ok (Scenario.fresh Scenario.server_cert))
    by (vm_compute; reflexivity).
  pose proof (@DecodeMessages_before_first_nonce Toy.primitives _ _ _ _ _ _ _
                [CallPut Scenario.client_cert Scenario.client_cert]
                (Scenario.frame 3) H eq_refl) as [_ Hd].
  change (run [CallPut Scenario.client_cert Scenario.client_cert]
            (Scenario.fresh Scenario.server_cert)) with Scenario.server in Hd.
  erewrite Hd.
  - reflexivity.
  - vm_compute. reflexivity.
  - vm_compute. reflexivity.
Defined.

(** C3 as stated fails: the server does not know the client; decoding the
    client's version 2 frame raises and returns no batch. *)
Lemma DecodeMessages_v2_unknown_sender_raises :
  api_version (Scenario.frame 2) = 2%Z
  /\ FastStore.find Scenario.client_cert
       (FastStore.entries (pub_key_cache (Scenario.lone_server_expecting 7))) = None
  /\ fst (@DecodeMessages Toy.primitives (Scenario.frame 2)
            (Scenario.lone_server_expecting 7))
     = Err (KeyError "No certificate found").
Proof. vm_compute. repeat split. Qed.

Lemma DecodeMessages_v2_unknown_sender_witness :
  fst (@DecodeMessages Toy.primitives (Scenario.frame 2)
         (Scenario.lone_server_expecting 7))
  = Err (KeyError "No certificate found").
Proof.
  erewrite (@DecodeMessages_v2_unknown_sender Toy.primitives (Scenario.frame 2)
              (Scenario.lone_server_expecting 7)).
  - reflexivity.
  - vm_compute. reflexivity.
  - vm_compute. reflexivity.
  - vm_compute. reflexivity.
Defined.

(** C2.  The code at the failing input: the server does not know the
    client; the client's version 3 frame carries a signed cipher, the lookup
    of the signer in [VerifyCipherSignature] misses, and the [KeyError] of
    [PubKeyCache.GetRSAPublicKey] leaves [DecodeMessages]: the miss is not
    swallowed and no UNAUTHENTICATED batch is returned. *)
Theorem DecodeMessages_v3_unknown_sender_raises :
  api_version (Scenario.frame 3) = 3%Z
  /\ FastStore.find Scenario.client_cert
       (FastStore.entries (pub_key_cache (Scenario.lone_server_expecting 7))) = None
  /\ fst (@DecodeMessages Toy.primitives (Scenario.frame 3)
            (Scenario.lone_server_expecting 7))
     = Err (KeyError "No certificate found").
Proof. vm_compute. repeat split. Qed.

(** ** The cache of received ciphers *)

Section Triples.

Context {P : Primitives}.
Local Open Scope comm_scope.

Lemma triple_ret A (a : A) (Pre Inv : State -> Prop) (R : A -> State -> Prop) :
  (forall s, Pre s -> Inv s /\ R a s) -> triple Pre (ret a) Inv R.
Proof. intros H s Hs. simpl. apply H; assumption. Qed.

Lemma triple_raise A (e : exn) (Pre Inv : State -> Prop) (R : A -> State -> Prop) :
  (forall s, Pre s -> Inv s) -> triple Pre (raise e) Inv R.
Proof. intros H s Hs. simpl. split; [ apply H; assumption | exact I ]. Qed.

Lemma triple_bind A B (m : M A) (k : A -> M B) (Pre Inv : State -> Prop)
    (R1 : A -> State -> Prop) (R2 : B -> State -> Prop) :
  triple Pre m Inv R1 ->
  (forall a, triple (fun s => Inv s /\ R1 a s) (k a) Inv R2) ->
  triple Pre (bind m k) Inv R2.
Proof.
  intros Hm Hk s Hs. unfold bind. specialize (Hm s Hs).
  destruct (m s) as [[a | e] s1]; simpl in *.
  - apply Hk. exact Hm.
  - split; [ apply Hm | exact I ].
Qed.

Lemma triple_conseq A (m : M A) (Pre Pre' Inv Inv' : State -> Prop)
    (R R' : A -> State -> Prop) :
  triple Pre m Inv R ->
  (forall s, Pre' s -> Pre s) ->
  (forall s, Inv s -> Inv' s) ->
  (forall a s, Inv s -> R a s -> R' a s) ->
  triple Pre' m Inv' R'.
Proof.
  intros Hm HP HI HR s Hs. specialize (Hm s (HP s Hs)).
  destruct Hm as [H1 H2]. split; [ auto | ].
  destruct (fst (m s)); auto.
Qed.

(** What the code knows of a returned value, whatever the state. *)
Lemma triple_result A (m : M A) (Pre Inv : State -> Prop)
    (R : A -> State -> Prop) (R' : A -> Prop) :
  triple Pre m Inv R ->
  (forall s a s', m s = (Ok a, s') -> R' a) ->
  triple Pre m Inv (fun a s => R a s /\ R' a).
Proof.
  intros Hm Hr s Hs. specialize (Hm s Hs). specialize (Hr s).
  destruct (m s) as [[a | e] s1]; simpl in *.
  - destruct Hm. repeat split; eauto.
  - exact Hm.
Qed.

(** A step that does not write [encrypted_cipher_cache] keeps whatever
    holds of it. *)
Lemma triple_frame A (m : M A) (Ic Pc : FastStore.t ReceivedCipher -> Prop) :
  preserves encrypted_cipher_cache m ->
  triple (fun s => Ic (encrypted_cipher_cache s) /\ Pc (encrypted_cipher_cache s)) m
         (fun s => Ic (encrypted_cipher_cache s))
         (fun _ s => Pc (encrypted_cipher_cache s)).
Proof.
  intros Hm s [H1 H2]. specialize (Hm s). rewrite Hm.
  split; [ assumption | ]. destruct (fst (m s)); auto.
Qed.

Lemma triple_frame_cipher A (m : M A) (c : ReceivedCipher) :
  preserves encrypted_cipher_cache m ->
  triple (fun s => cache_verified s /\ absent_if_unverified c s) m
         cache_verified (fun _ s => absent_if_unverified c s).
Proof.
  intro Hm.
  exact (@triple_frame A m
           (fun ch => Forall (fun c => rc_signature_verified c = true) (FastStore.values ch))
           (fun ch => rc_signature_verified c = false ->
                      FastStore.find (rc_encrypted_cipher c) (FastStore.entries ch) = None)
           Hm).
Qed.

Lemma triple_frame_verified A (m : M A) :
  preserves encrypted_cipher_cache m ->
  triple cache_verified m cache_verified (fun _ _ => True).
Proof.
  intros Hm s Hs. specialize (Hm s). unfold cache_verified in *. rewrite Hm.
  split; [ assumption | ]. destruct (fst (m s)); exact I.
Qed.

End Triples.

Ltac frame_cache :=
  first [ apply frame_GetRSAPublicKey
        | apply frame_Increment_rsa_operations
        | apply frame_Increment_authenticated_messages
        | apply frame_VerifyCipherSignature
        | apply frame_ReceivedCipher__init__
        | apply frame_Rand_rand_add
        | apply frame_Decrypt
        | apply frame_DecompressMessageList
        | apply frame_read_timestamp
        | apply preserves_or_raise
        | apply preserves_gets ];
  intros; reflexivity.

Section EnvelopeCache.

Context {P : Primitives}.
Local Open Scope comm_scope.

(** A mutation of the object in hand keeps the cache verified: a verified
    object replaces itself, an unverified one is not in the cache. *)
Lemma mutate_cipher_triple c :
  triple (fun s => cache_verified s /\ absent_if_unverified c s) (mutate_cipher c)
         cache_verified (fun _ s => absent_if_unverified c s).
Proof.
  intros s [Hv Ha]. unfold mutate_cipher, modify. simpl.
  unfold cache_verified, absent_if_unverified in *. simpl.
  destruct (rc_signature_verified c) eqn:E.
  - split; [ apply Mutate_values; assumption | discriminate ].
  - specialize (Ha eq_refl).
    rewrite Mutate_absent by exact Ha. rewrite replace_absent by exact Ha.
    split; auto.
Qed.

(** After a miss: the new cipher is stored if and only if it is verified. *)
Lemma new_received_cipher_triple rc :
  triple (fun s => cache_verified s
                   /\ FastStore.find (encrypted_cipher rc)
                        (FastStore.entries (encrypted_cipher_cache s)) = None)
    (priv <- gets private_key ;;
     c <- ReceivedCipher__init__ rc priv ;;
     (if rc_signature_verified c then
        modify (fun s =>
          set_encrypted_cipher_cache
            (FastStore.Put (encrypted_cipher rc) c (encrypted_cipher_cache s)) s)
      else ret tt) ;;;
     ret c)
    cache_verified (fun c s => absent_if_unverified c s).
Proof.
  pose (Ic := fun ch : FastStore.t ReceivedCipher =>
                Forall (fun c => rc_signature_verified c = true) (FastStore.values ch)).
  pose (Pc := fun ch : FastStore.t ReceivedCipher =>
                FastStore.find (encrypted_cipher rc) (FastStore.entries ch) = None).
  apply triple_bind with (R1 := fun _ s => Pc (encrypted_cipher_cache s));
    [ apply (@triple_frame _ _ _ Ic Pc); frame_cache | intro priv ].
  apply triple_bind
    with (R1 := fun c s => Pc (encrypted_cipher_cache s)
                           /\ rc_encrypted_cipher c = encrypted_cipher rc).
  - apply triple_result.
    + apply (@triple_frame _ _ _ Ic Pc); frame_cache.
    + intros s c s'. apply ReceivedCipher__init___encrypted_cipher.
  - intro c. destruct (rc_signature_verified c) eqn:E.
    + apply triple_bind with (R1 := fun _ s => True).
      * intros s [Hv _]. unfold modify. simpl. split; [ | exact I ].
        unfold cache_verified. simpl. apply Put_values; assumption.
      * intros _. apply triple_ret. intros s [Hv _]. split; [ exact Hv | ].
        unfold absent_if_unverified. congruence.
    + apply triple_bind with (R1 := fun _ s => Pc (encrypted_cipher_cache s)
                                              /\ rc_encrypted_cipher c = encrypted_cipher rc).
      * apply triple_ret. auto.
      * intros _. apply triple_ret. intros s [Hv [Hp Hk]]. split; [ exact Hv | ].
        unfold absent_if_unverified. rewrite Hk. intros _. exact Hp.
Qed.

Lemma received_cipher_triple rc :
  triple cache_verified (received_cipher rc) cache_verified
         (fun c s => absent_if_unverified c s).
Proof.
  intros s Hs. unfold received_cipher, try_except, encrypted_cipher_cache_Get.
  destruct (FastStore.Get (encrypted_cipher rc) (encrypted_cipher_cache s))
    as [[c cache'] |] eqn:G.
  - destruct (@Get_values _ (fun c => rc_signature_verified c = true) _ _ _ _ G Hs)
      as [Hc Hcache].
    split; [ exact Hcache | ].
    simpl. intro Hn. congruence.
  - apply Get_miss in G. cbv beta iota.
    apply (@new_received_cipher_triple rc s). split; assumption.
Qed.

Lemma VerifyCipherSignature_triple c :
  triple (fun s => cache_verified s /\ absent_if_unverified c s)
         (VerifyCipherSignature c) cache_verified
         (fun c' s => absent_if_unverified c' s).
Proof.
  eapply triple_conseq.
  - apply triple_result with (R' := fun c' => c' = c \/ c' = set_rc_signature_verified true c).
    + apply (@triple_frame_cipher _ _ (VerifyCipherSignature c) c). frame_cache.
    + intros s a s'. apply VerifyCipherSignature_result.
  - auto.
  - auto.
  - intros c' s _ [Ha [-> | ->]]; [ exact Ha | ].
    unfold absent_if_unverified. simpl. discriminate.
Qed.

Lemma check_signature_triple rc l c v :
  triple (fun s => cache_verified s /\ absent_if_unverified c s)
         (check_signature rc l c v) cache_verified
         (fun ac s => absent_if_unverified (snd ac) s).
Proof.
  unfold check_signature. destruct (v <? 3)%Z.
  - cbv zeta.
    apply triple_bind with (R1 := fun _ s => absent_if_unverified c s);
      [ apply triple_frame_cipher; frame_cache | intro ].
    apply triple_bind with (R1 := fun _ s => absent_if_unverified c s);
      [ apply triple_frame_cipher; frame_cache | intro ].
    apply triple_bind with (R1 := fun _ s => absent_if_unverified c s);
      [ apply triple_frame_cipher; frame_cache | intros [|] ].
    + apply triple_bind with (R1 := fun _ s => absent_if_unverified c s);
        [ apply triple_frame_cipher; frame_cache | intro ].
      apply triple_ret. auto.
    + apply triple_ret. auto.
  - destruct (negb (bytes_eqb _ _)).
    + apply triple_raise. intros s [H _]; exact H.
    + apply triple_bind with (R1 := fun c' s => absent_if_unverified c' s).
      * destruct (negb (rc_signature_verified c)).
        -- apply triple_bind with (R1 := fun c' s => absent_if_unverified c' s);
             [ apply VerifyCipherSignature_triple | intro c' ].
           apply triple_bind with (R1 := fun _ s => absent_if_unverified c' s);
             [ apply mutate_cipher_triple | intro ].
           apply triple_ret. auto.
        -- apply triple_ret. auto.
      * intro c'. destruct (rc_signature_verified c').
        -- apply triple_bind with (R1 := fun _ s => absent_if_unverified c' s);
             [ apply triple_frame_cipher; frame_cache | intro ].
           apply triple_ret. auto.
        -- apply triple_ret. auto.
Qed.

Lemma VerifyMessageSignature_triple rc l c v :
  triple (fun s => cache_verified s /\ absent_if_unverified c s)
         (VerifyMessageSignature rc l c v) cache_verified
         (fun ac s => absent_if_unverified (snd ac) s).
Proof.
  unfold VerifyMessageSignature.
  apply triple_bind with (R1 := fun ac s => absent_if_unverified (snd ac) s);
    [ apply check_signature_triple | intros [result cipher] ].
  simpl snd.
  apply triple_bind with (R1 := fun _ s => absent_if_unverified cipher s);
    [ apply triple_frame_cipher; frame_cache | intro ts ].
  destruct (rc_cipher_metadata cipher).
  - apply triple_ret. auto.
  - cbv zeta.
    match goal with
    | |- triple _ (bind (mutate_cipher ?c2) _) _ _ =>
        apply triple_bind with (R1 := fun _ s => absent_if_unverified c2 s);
          [ apply triple_conseq
              with (Pre := fun s => cache_verified s /\ absent_if_unverified c2 s)
                   (Inv := cache_verified)
                   (R := fun (_ : unit) s => absent_if_unverified c2 s);
            [ apply mutate_cipher_triple
            | intros s [H1 H2]; split; [ exact H1 | exact H2 ]
            | auto
            | auto ]
          | intro; apply triple_ret; auto ]
    end.
Qed.

Lemma DecodePayload_triple rc :
  triple cache_verified (DecodePayload rc) cache_verified
         (fun p s => absent_if_unverified (fst (fst p)) s).
Proof.
  unfold DecodePayload.
  destruct (negb _); [ apply triple_raise; auto | ].
  destruct (truthy _); [ | apply triple_raise; auto ].
  apply triple_bind with (R1 := fun c s => absent_if_unverified c s);
    [ apply received_cipher_triple | intro c ].
  apply triple_bind with (R1 := fun _ s => absent_if_unverified c s);
    [ apply triple_frame_cipher; frame_cache | intro ].
  cbv zeta.
  apply triple_bind with (R1 := fun _ s => absent_if_unverified c s);
    [ apply triple_frame_cipher; frame_cache | intro ].
  apply triple_bind with (R1 := fun _ s => absent_if_unverified c s);
    [ apply triple_frame_cipher; frame_cache | intro ].
  apply triple_bind with (R1 := fun _ s => absent_if_unverified c s);
    [ apply triple_frame_cipher; frame_cache | intro ].
  apply triple_ret. auto.
Qed.

Lemma DecodeMessages_triple rc :
  triple cache_verified (DecodeMessages rc) cache_verified (fun _ _ => True).
Proof.
  unfold DecodeMessages.
  apply triple_bind with (R1 := fun p s => absent_if_unverified (fst (fst p)) s);
    [ apply DecodePayload_triple | intros [[c l] ml] ].
  simpl fst.
  apply triple_bind with (R1 := fun ac s => absent_if_unverified (snd ac) s);
    [ apply VerifyMessageSignature_triple | intros [a c'] ].
  destruct (rc_cipher_metadata c').
  - apply triple_ret. intros s [H _]. auto.
  - apply triple_raise. intros s [H _]. auto.
Qed.

Lemma DecodeMessages_cache_verified rc s :
  cache_verified s -> cache_verified (snd (DecodeMessages rc s)).
Proof. intro H. apply (@DecodeMessages_triple rc s H). Qed.

Lemma step_cache_verified s c : cache_verified s -> cache_verified (step s c).
Proof.
  destruct c as [ml result d t v | rc | d k | now]; simpl; intro H.
  - unfold cache_verified.
    rewrite (@frame_EncodeMessages _ _ encrypted_cipher_cache); auto.
  - apply DecodeMessages_cache_verified; assumption.
  - exact H.
  - exact H.
Qed.

Lemma run_cache_verified calls s : cache_verified s -> cache_verified (run calls s).
Proof.
  revert s. induction calls as [| c calls IH]; intros s H; simpl; [ exact H | ].
  apply IH. apply step_cache_verified. exact H.
Qed.

Lemma Communicator__init___cache certificate r now st flag n s0 :
  Communicator__init__ certificate r now st flag n = Ok s0 ->
  encrypted_cipher_cache s0 = FastStore.empty ReceivedCipher 50000%N.
Proof.
  unfold Communicator__init__.
  match goal with
  | |- match _LoadOurCertificate _ ?s with _ => _ end = _ -> _ =>
      assert (Hf : encrypted_cipher_cache (snd (_LoadOurCertificate certificate s))
                   = encrypted_cipher_cache s)
  end.
  { apply (preserves_bind (f := encrypted_cipher_cache));
      [ apply preserves_or_raise | intro ].
    unfold _LoadOurCertificate, PubKeyCache_Put. preserves_tac. }
  destruct (_LoadOurCertificate certificate _) as [[u | e] s']; [ | discriminate ].
  intro E. inversion E; subst. exact Hf.
Qed.

(** C10.  In every state a constructed communicator can reach, every cipher
    held in [encrypted_cipher_cache] has [signature_verified = true]; in
    particular the cipher a decode is served from the cache is verified. *)
Theorem encrypted_cipher_cache_verified certificate r now st flag n s0 calls :
  Communicator__init__ certificate r now st flag n = Ok s0 ->
  cache_verified (run calls s0)
  /\ (forall rc c s',
        encrypted_cipher_cache_Get (encrypted_cipher rc) (run calls s0) = (Ok c, s') ->
        rc_signature_verified c = true).
Proof.
  intro Hinit.
  assert (H : cache_verified (run calls s0)).
  { apply run_cache_verified. unfold cache_verified.
    rewrite (Communicator__init___cache _ _ _ _ _ _ Hinit). constructor. }
  split; [ exact H | ].
  intros rc c s'. unfold encrypted_cipher_cache_Get.
  destruct (FastStore.Get _ _) as [[c0 cache'] |] eqn:G; [ | discriminate ].
  intro E. inversion E; subst.
  apply (@Get_values _ (fun c => rc_signature_verified c = true) _ _ _ _ G H).
Qed.

End EnvelopeCache.

(** ** One private decryption per cached cipher *)

Section Keeps.

Context {P : Primitives}.
Local Open Scope comm_scope.

Variable Inv : State -> Prop.

Lemma keeps_ret A (a : A) : keeps Inv (ret a).
Proof. intros s H; exact H. Qed.

Lemma keeps_raise A (e : exn) : keeps Inv (@raise _ A e).
Proof. intros s H; exact H. Qed.

Lemma keeps_bind A B (m : M A) (k : A -> M B) :
  keeps Inv m -> (forall a, keeps Inv (k a)) -> keeps Inv (bind m k).
Proof.
  intros Hm Hk s Hs. unfold bind. specialize (Hm s Hs).
  destruct (m s) as [[a | e] s1]; simpl in *; [ apply Hk; exact Hm | exact Hm ].
Qed.

Lemma keeps_preserves X (f : State -> X) (Q : X -> Prop) A (m : M A) :
  (forall s, Inv s <-> Q (f s)) -> preserves f m -> keeps Inv m.
Proof.
  intros HI Hm s Hs. apply HI. rewrite Hm. apply HI. exact Hs.
Qed.

End Keeps.

Section UnwrapOnce.

Context {P : Primitives}.
Local Open Scope comm_scope.

Variables (k : bytes) (n : nat).

Lemma keeps_cached_at_frame A (m : M A) :
  preserves (fun s => (encrypted_cipher_cache s, private_decrypt_calls s)) m ->
  keeps (cached_at k n) m.
Proof.
  apply keeps_preserves
    with (Q := fun p : FastStore.t ReceivedCipher * nat =>
                 FastStore.find k (FastStore.entries (fst p)) <> None /\ snd p = n).
  intro s. reflexivity.
Qed.

Lemma mutate_cipher_cached_at c : keeps (cached_at k n) (mutate_cipher c).
Proof.
  intros s [H1 H2]. unfold mutate_cipher, modify, cached_at. simpl.
  split; [ apply find_replace_is_Some; exact H1 | exact H2 ].
Qed.

(** With a cipher stored under the frame's [encrypted_cipher], the lookup
    hits: nothing is decrypted and the cipher stays stored. *)
Lemma received_cipher_cached_at rc :
  encrypted_cipher rc = k -> keeps (cached_at k n) (received_cipher rc).
Proof.
  intros Hk s [H1 H2]. unfold received_cipher, try_except, encrypted_cipher_cache_Get.
  rewrite Hk.
  destruct (FastStore.Get k (encrypted_cipher_cache s)) as [[c cache'] |] eqn:G.
  - simpl. split; [ | exact H2 ].
    simpl. rewrite (Get_still_there _ _ G). discriminate.
  - apply Get_miss in G. contradiction.
Qed.

End UnwrapOnce.

Ltac keeps_step :=
  match goal with
  | |- keeps _ (bind _ _) => apply keeps_bind; [ | intro ]
  | |- keeps _ (ret _) => apply keeps_ret
  | |- keeps _ (raise _) => apply keeps_raise
  | |- keeps _ (mutate_cipher _) => apply mutate_cipher_cached_at
  | |- keeps _ (if ?b then _ else _) => destruct b
  | |- keeps _ (match ?x with _ => _ end) => destruct x
  | |- keeps (cached_at _ _) _ =>
      apply keeps_cached_at_frame;
      first [ apply frame_GetRSAPublicKey
            | apply frame_Increment_rsa_operations
            | apply frame_Increment_authenticated_messages
            | apply frame_VerifyCipherSignature
            | apply frame_Rand_rand_add
            | apply frame_Decrypt
            | apply frame_DecompressMessageList
            | apply frame_read_timestamp
            | apply preserves_or_raise
            | apply preserves_gets ];
      intros; reflexivity
  end.

Ltac keeps_tac := repeat keeps_step.

Section UnwrapOnceDecode.

Context {P : Primitives}.
Local Open Scope comm_scope.

Variables (k : bytes) (n : nat).

Lemma VerifyMessageSignature_cached_at rc l c v :
  keeps (cached_at k n) (VerifyMessageSignature rc l c v).
Proof. unfold VerifyMessageSignature, check_signature. keeps_tac. Qed.

Lemma DecodeMessages_cached_at rc :
  encrypted_cipher rc = k -> keeps (cached_at k n) (DecodeMessages rc).
Proof.
  intro Hk. unfold DecodeMessages.
  apply keeps_bind.
  - unfold DecodePayload.
    destruct (negb _); [ apply keeps_raise | ].
    destruct (truthy _); [ | apply keeps_raise ].
    apply keeps_bind; [ apply received_cipher_cached_at; exact Hk | intro c ].
    cbv zeta. keeps_tac.
  - intros [[c l] ml].
    apply keeps_bind; [ apply VerifyMessageSignature_cached_at | intros [a c'] ].
    keeps_tac.
Qed.

Lemma decode_all_cached_at frames s :
  Forall (fun f => encrypted_cipher f = k) frames ->
  cached_at k n s -> cached_at k n (decode_all frames s).
Proof.
  revert s. induction frames as [| f frames IH]; intros s Hall Hs; [ exact Hs | ].
  apply Forall_cons_iff in Hall. destruct Hall as [Hf Hrest].
  unfold decode_all, run in *. simpl.
  apply IH; [ exact Hrest | ].
  apply DecodeMessages_cached_at; [ exact Hf | exact Hs ].
Qed.

End UnwrapOnceDecode.

Section FirstDecode.

Context {P : Primitives}.
Local Open Scope comm_scope.

Lemma bind_assoc A B C (m : M A) (k1 : A -> M B) (k2 : B -> M C) s :
  bind (bind m k1) k2 s = bind m (fun a => bind (k1 a) k2) s.
Proof. unfold bind. destruct (m s) as [[a | e] s1]; reflexivity. Qed.

(** Building a [ReceivedCipher] decrypts with the private key at most
    once. *)
Lemma ReceivedCipher__init___calls rc priv s :
  private_decrypt_calls (snd (ReceivedCipher__init__ rc priv s))
  <= S (private_decrypt_calls s).
Proof.
  unfold ReceivedCipher__init__. unfold bind at 1.
  destruct (load_key_string priv) as [pk |]; simpl or_raise; [ | simpl; lia ].
  unfold ret at 1. cbv beta iota.
  match goal with
  | |- private_decrypt_calls (snd (try_except (bind count_private_decrypt ?K) ?h s)) <= _ =>
      change (try_except (bind count_private_decrypt K) h s)
        with (try_except (bind (ret tt) K) h
                (set_private_decrypt_calls (S (private_decrypt_calls s)) s));
      assert (Hp : preserves private_decrypt_calls (try_except (bind (ret tt) K) h))
  end.
  { preserves_tac;
      first [ apply frame_Decrypt
            | apply frame_VerifyCipherSignature; intros; reflexivity ]. }
  rewrite Hp. simpl. lia.
Qed.

(** A lookup that ends with a verified cipher leaves it stored. *)
Lemma received_cipher_verified_cached rc s c s1 :
  (1 <= FastStore.max_size (encrypted_cipher_cache s))%N ->
  received_cipher rc s = (Ok c, s1) ->
  rc_signature_verified c = true ->
  cached_at (encrypted_cipher rc) (private_decrypt_calls s1) s1
  /\ private_decrypt_calls s1 <= S (private_decrypt_calls s).
Proof.
  intros Hsize. unfold received_cipher, try_except, encrypted_cipher_cache_Get.
  destruct (FastStore.Get (encrypted_cipher rc) (encrypted_cipher_cache s))
    as [[c0 cache'] |] eqn:G.
  - intros H Hv. inversion H; subst. unfold cached_at. simpl.
    rewrite (Get_still_there _ _ G). repeat split; [ discriminate | lia ].
  - cbv beta iota. unfold bind at 1. unfold gets at 1. cbv beta iota.
    pose proof (ReceivedCipher__init___calls rc (private_key s) s) as Hcalls.
    assert (Hf : preserves encrypted_cipher_cache
                   (ReceivedCipher__init__ rc (private_key s))) by frame_cache.
    specialize (Hf s).
    unfold bind at 1.
    destruct (ReceivedCipher__init__ rc (private_key s) s) as [[c0 | e] s2];
      [ | discriminate ].
    simpl in Hcalls, Hf.
    destruct (rc_signature_verified c0) eqn:E.
    + unfold bind, modify, ret. intros H Hv. inversion H; subst.
      unfold cached_at.
      change (encrypted_cipher_cache
                (set_encrypted_cipher_cache
                   (FastStore.Put (encrypted_cipher rc) c (encrypted_cipher_cache s2)) s2))
        with (FastStore.Put (encrypted_cipher rc) c (encrypted_cipher_cache s2)).
      rewrite Put_find by (rewrite Hf; exact Hsize).
      repeat split; [ discriminate | exact Hcalls ].
    + unfold bind, ret. intros H Hv. inversion H; subst. congruence.
Qed.

Lemma DecodeMessages_first_cached rc s c s1 k n :
  api_version rc = 2%Z \/ api_version rc = 3%Z ->
  truthy (encrypted_cipher rc) = true ->
  received_cipher rc s = (Ok c, s1) ->
  cached_at k n s1 ->
  cached_at k n (snd (DecodeMessages rc s)).
Proof.
  intros Hv Ht E Hs1. unfold DecodeMessages, DecodePayload.
  replace (negb ((api_version rc =? 2)%Z || (api_version rc =? 3)%Z)) with false
    by (destruct Hv as [-> | ->]; reflexivity).
  rewrite Ht. rewrite bind_assoc. unfold bind at 1. rewrite E.
  match goal with
  | |- cached_at _ _ (snd (?X s1)) => assert (HX : keeps (cached_at k n) X)
  end.
  { cbv zeta. apply keeps_bind; [ keeps_tac | intros [[c0 l] ml] ].
    apply keeps_bind; [ apply VerifyMessageSignature_cached_at | intros [a c'] ].
    keeps_tac. }
  apply HX. exact Hs1.
Qed.

(** C6, as the code has it.  Frames that carry the same [encrypted_cipher]
    are decoded one after the other.  If the first decode ends its cipher
    lookup with a cipher whose signature is verified (served from the cache,
    or built from a version 3 frame and verified at once), the private key
    decrypts at most once over all the decodes: the cache serves every later
    one. *)
Theorem decode_same_cipher_one_unwrap rc frames s c s1 :
  (1 <= FastStore.max_size (encrypted_cipher_cache s))%N ->
  api_version rc = 2%Z \/ api_version rc = 3%Z ->
  truthy (encrypted_cipher rc) = true ->
  received_cipher rc s = (Ok c, s1) ->
  rc_signature_verified c = true ->
  Forall (fun f => encrypted_cipher f = encrypted_cipher rc) frames ->
  private_decrypt_calls (decode_all (rc :: frames) s) <= S (private_decrypt_calls s).
Proof.
  intros Hsize Hv Ht E Hc Hall.
  destruct (received_cipher_verified_cached _ _ Hsize E Hc) as [Hcached Hle].
  assert (H1 : cached_at (encrypted_cipher rc) (private_decrypt_calls s1)
                 (snd (DecodeMessages rc s)))
    by (eapply DecodeMessages_first_cached; eassumption).
  assert (H2 : cached_at (encrypted_cipher rc) (private_decrypt_calls s1)
                 (decode_all (rc :: frames) s)).
  { change (decode_all (rc :: frames) s)
      with (decode_all frames (snd (DecodeMessages rc s))).
    apply decode_all_cached_at; assumption. }
  destruct H2 as [_ H2]. rewrite H2. exact Hle.
Qed.

End FirstDecode.

(** C6 as stated fails: the cipher of a version 2 frame is never verified
    when it is built, so it is not cached; the server decodes the same
    version 2 frame twice, both times with success, and decrypts with its
    private key twice. *)
Lemma decode_v2_twice_two_unwraps :
  let s := Scenario.server_expecting 7 in
  let f := Scenario.frame 2 in
  private_decrypt_calls s = 0
  /\ (exists x, fst (@DecodeMessages Toy.primitives f s) = Ok x)
  /\ (exists x, fst (@DecodeMessages Toy.primitives f
                      (snd (@DecodeMessages Toy.primitives f s))) = Ok x)
  /\ private_decrypt_calls (@decode_all Toy.primitives [f; f] s) = 2.
Proof.
  vm_compute. repeat split; eexists; reflexivity.
Qed.

Lemma decode_same_cipher_one_unwrap_witness :
  private_decrypt_calls
    (@decode_all Toy.primitives
       [Scenario.frame 3; Scenario.frame 3; Scenario.frame 3]
       (Scenario.server_expecting 7)) <= 1.
Proof.
  eapply (@decode_same_cipher_one_unwrap Toy.primitives (Scenario.frame 3)
            [Scenario.frame 3; Scenario.frame 3] (Scenario.server_expecting 7)).
  - vm_compute. discriminate.
  - right. vm_compute. reflexivity.
  - vm_compute. reflexivity.
  - vm_compute. reflexivity.
  - vm_compute. reflexivity.
  - repeat constructor.
Defined.

Lemma encrypted_cipher_cache_verified_witness :
  cache_verified
    (@run Toy.primitives
       [CallPut Scenario.client_cert Scenario.client_cert;
        CallDecodeMessages (Scenario.frame 3)]
       (Scenario.fresh Scenario.server_cert)).
Proof.
  assert (H : @Communicator__init__ Toy.primitives Scenario.server_cert 0%nat 7%Z
                Scenario.stats0 "ZCOMPRESS" 0 = Ok (Scenario.fresh Scenario.server_cert))
    by (vm_compute; reflexivity).
  exact (proj1 (@encrypted_cipher_cache_verified Toy.primitives _ _ _ _ _ _ _
                  [CallPut Scenario.client_cert Scenario.client_cert;
                   CallDecodeMessages (Scenario.frame 3)] H)).
Defined.

(** ** The round trip *)

Section RoundTrip.

Context {P : Primitives}.
Local Open Scope comm_scope.

Hypothesis laws : Laws.

Lemma or_raise_Ok A (o : option A) e s a s' :
  or_raise o e s = (Ok a, s') -> o = Some a /\ s' = s.
Proof.
  destruct o; simpl; intro H; inversion H; auto.
Qed.

Lemma Rand_rand_pseudo_bytes_Ok n s b s' :
  Rand_rand_pseudo_bytes n s = (Ok b, s') ->
  List.length b = n /\ pub_key_cache s' = pub_key_cache s.
Proof.
  unfold Rand_rand_pseudo_bytes.
  pose proof (rand_length laws n (rng s)) as Hl.
  destruct (rand_pseudo_bytes n (rng s)) as [b0 r]. simpl in Hl.
  intro H. inversion H; subst. split; reflexivity.
Qed.

Lemma find_moved_other V (k k' : bytes) (v : V) l :
  FastStore.find k l = Some v ->
  FastStore.find k' (FastStore.remove k l ++ [(k, v)]) = FastStore.find k' l.
Proof.
  intro Hk. rewrite find_app.
  destruct (bytes_eq_dec k' k) as [-> | Hne].
  - rewrite find_remove_same. simpl. rewrite bytes_eqb_refl. auto.
  - assert (Hr : FastStore.find k' (FastStore.remove k l) = FastStore.find k' l).
    { clear Hk. induction l as [| [k0 v0] l IH]; simpl; [ reflexivity | ].
      destruct (bytes_eqb k k0) eqn:E1; simpl.
      - apply bytes_eqb_eq in E1. subst k0.
        apply bytes_eqb_neq in Hne. rewrite Hne. exact IH.
      - destruct (bytes_eqb k' k0); [ reflexivity | exact IH ]. }
    rewrite Hr. destruct (FastStore.find k' l); [ reflexivity | ].
    simpl. apply bytes_eqb_neq in Hne. rewrite Hne. reflexivity.
Qed.

(** A hit of the directory moves the key; every lookup answers as before. *)
Lemma Get_find_other V (k k' : bytes) (s : FastStore.t V) v s' :
  FastStore.Get k s = Some (v, s') ->
  FastStore.find k' (FastStore.entries s') = FastStore.find k' (FastStore.entries s).
Proof.
  unfold FastStore.Get.
  destruct (FastStore.find k (FastStore.entries s)) as [v0 |] eqn:E; [ | discriminate ].
  intro H. inversion H; subst. simpl. apply find_moved_other. exact E.
Qed.

Lemma GetRSAPublicKey_hit cn s pem pk :
  FastStore.find cn (FastStore.entries (pub_key_cache s)) = Some pem ->
  load_pub_key_bio pem = Some pk ->
  exists cache',
    FastStore.Get cn (pub_key_cache s) = Some (pem, cache')
    /\ GetRSAPublicKey (Some cn) s = (Ok pk, set_pub_key_cache cache' s).
Proof.
  intros Hf Hl.
  unfold GetRSAPublicKey, try_except, bind, pub_key_cache_Get, FastStore.Get.
  rewrite Hf. simpl. rewrite Hl. simpl. eexists. split; reflexivity.
Qed.

Lemma GetRSAPublicKey_Ok cn s pk s' :
  GetRSAPublicKey (Some cn) s = (Ok pk, s') ->
  exists pem, FastStore.find cn (FastStore.entries (pub_key_cache s)) = Some pem
              /\ load_pub_key_bio pem = Some pk.
Proof.
  unfold GetRSAPublicKey, try_except, bind, pub_key_cache_Get, FastStore.Get.
  destruct (FastStore.find cn (FastStore.entries (pub_key_cache s))) as [pem |];
    [ | discriminate ].
  simpl. destruct (load_pub_key_bio pem) as [k |] eqn:E; simpl; [ | discriminate ].
  intro H. inversion H; subst. eauto.
Qed.

(** [Cipher.__init__] for a destination whose directory entry is [pubD]
    builds a session with the holder of the matching private key. *)
Lemma Cipher__init___session cn d privE pubE privD pubD s c s' :
  key_pair privE pubE ->
  key_pair privD pubD ->
  FastStore.find d (FastStore.entries (pub_key_cache s)) = Some pubD ->
  Cipher__init__ cn (Some d) privE s = (Ok c, s') ->
  session_ok cn pubE privD c.
Proof.
  intros (skE & pkE & HskE & HpkE & _ & Hsign) (skD & pkD & HskD & HpkD & Hcrypt & _) Hdir.
  unfold Cipher__init__.
  bind_destruct. apply Rand_rand_pseudo_bytes_Ok in E. destruct E as [Hk Hc1].
  bind_destruct. apply Rand_rand_pseudo_bytes_Ok in E. destruct E as [Hi Hc2].
  bind_destruct. apply Rand_rand_pseudo_bytes_Ok in E. destruct E as [Hh Hc3].
  bind_destruct. apply or_raise_Ok in E. destruct E as [Hsk ->].
  bind_destruct. apply or_raise_Ok in E. destruct E as [Hsg ->].
  bind_destruct. apply GetRSAPublicKey_Ok in E. destruct E as (pem & Hpem & Hload).
  bind_destruct. clear E.
  bind_destruct.
  unfold RSA_public_encrypt in E.
  match type of E with
  | (let '(o, r) := ?pe in _) = _ => destruct pe as [o r] eqn:Epe
  end.
  apply or_raise_Ok in E. destruct E as [-> ->].
  unfold Encrypt. unfold bind, ret. intro H. inversion H; subst; clear H.
  rewrite Hc3, Hc2, Hc1, Hdir in Hpem. inversion Hpem; subst pem.
  rewrite HpkD in Hload. inversion Hload; subst.
  rewrite HskE in Hsk. inversion Hsk; subst.
  destruct (Hcrypt _ _ _ _ Epe) as [Hdec Hne].
  destruct (Hsign _ _ Hsg) as [Hver Hsne].
  exists skD, pkE. simpl. repeat split; auto.
Qed.

Lemma destination_cipher_session cn d privE pubE privD pubD s c s' :
  key_pair privE pubE ->
  key_pair privD pubD ->
  common_name s = cn ->
  private_key s = privE ->
  FastStore.find d (FastStore.entries (pub_key_cache s)) = Some pubD ->
  (forall c cache',
      TimeBasedCache.Get (time_us s) d (cipher_cache s) = Some (c, cache') ->
      session_ok cn pubE privD c) ->
  destination_cipher (Some d) s = (Ok c, s') ->
  session_ok cn pubE privD c.
Proof.
  intros HE HD Hcn Hpriv Hdir Hcache.
  unfold destination_cipher, try_except, cipher_cache_Get.
  destruct (TimeBasedCache.Get (time_us s) d (cipher_cache s)) as [[c0 cache'] |] eqn:G.
  - intro H. inversion H; subst. eapply Hcache. reflexivity.
  - cbv beta iota. unfold bind at 1. unfold gets at 1. cbv beta iota.
    unfold bind at 1. unfold gets at 1. cbv beta iota.
    bind_destruct. bind_destruct.
    unfold ret. intro H. inversion H; subst.
    eapply Cipher__init___session; eauto.
Qed.

(** What [EncodeMessageList] wrote, [DecompressMessageList] reads back. *)
Lemma EncodeMessageList_decompress flag B ts l s :
  sml_compression l = sml_compression (EncodeMessageList flag B (new_SignedMessageList ts)) ->
  sml_message_list l = sml_message_list (EncodeMessageList flag B (new_SignedMessageList ts)) ->
  DecompressMessageList l s = (Ok B, s).
Proof.
  unfold EncodeMessageList, DecompressMessageList.
  destruct (String.eqb flag "ZCOMPRESS");
    [ destruct (List.length (zlib_compress (MessageList_Serialize B))
                <? List.length (MessageList_Serialize B)) | ];
    simpl; intros -> ->; unfold bind; simpl;
    rewrite ?(zlib_roundtrip laws); simpl;
    rewrite (MessageList_roundtrip laws); reflexivity.
Qed.

Lemma EncodeMessageList_timestamp flag B l :
  sml_timestamp (EncodeMessageList flag B l) = sml_timestamp l.
Proof.
  unfold EncodeMessageList.
  destruct (String.eqb flag "ZCOMPRESS");
    [ destruct (_ <? _) | ]; reflexivity.
Qed.

Lemma Encrypt_Ok c data i0 s ie s' :
  Encrypt c data i0 s = (Ok ie, s') ->
  snd ie = evp_encrypt cipher_name (key c) (fst ie) data
  /\ match i0 with
     | Some i => fst ie = i
     | None => List.length (fst ie) = 16
     end.
Proof.
  unfold Encrypt. destruct i0 as [i |].
  - unfold bind, ret. intro H. inversion H; subst. split; reflexivity.
  - bind_destruct. apply Rand_rand_pseudo_bytes_Ok in E. destruct E as [Hl _].
    unfold ret. intro H. inversion H; subst. split; [ reflexivity | exact Hl ].
Qed.

(** The frame [EncodeMessages] fills in, once it has its cipher. *)
Lemma encode_with_cipher_frame B ts v c s fr ts' s' privE pubE :
  key_pair privE pubE ->
  private_key s = privE ->
  v = 2%Z \/ v = 3%Z ->
  encode_with_cipher B new_ClientCommunication ts v c s = (Ok (fr, ts'), s') ->
  frame_ok (common_name s) pubE B ts v c fr.
Proof.
  intros (skE & pkE & HskE & HpkE & _ & Hsign) Hpriv Hv.
  unfold encode_with_cipher.
  unfold bind at 1.
  destruct (uint64_ok ts);
    [ unfold ret at 1 | unfold raise at 1; intro; discriminate ].
  cbv beta iota.
  unfold bind at 1. unfold gets at 1. cbv beta iota zeta.
  destruct Hv as [-> | ->].
  - change (2 =? 2)%Z with true. change (3 <=? 2)%Z with false. cbv iota.
    unfold bind at 1. unfold bind at 1. unfold gets at 1. cbv beta iota.
    unfold bind at 1. unfold gets at 1. cbv beta iota.
    rewrite Hpriv, HskE. unfold bind at 1. unfold or_raise at 1, ret at 1. cbv beta iota.
    unfold bind at 1.
    destruct (rsa_sign skE _ hash_function_name) as [sg |] eqn:Esg; simpl or_raise;
      [ | discriminate ].
    unfold ret at 1 2. cbv beta iota.
    bind_destruct. apply Encrypt_Ok in E. destruct E as [He Hi].
    unfold ret. intro H. inversion H; subst; clear H.
    destruct (Hsign _ _ Esg) as [Hver _].
    unfold frame_ok. simpl.
    repeat split; try discriminate.
    eexists. repeat split.
    + rewrite He, Hi. reflexivity.
    + apply EncodeMessageList_timestamp.
    + intro s1. apply EncodeMessageList_decompress with (flag := FLAGS_compression s)
                                                        (ts := ts'); reflexivity.
    + reflexivity.
    + exists pkE. split; [ exact HpkE | exact Hver ].
  - change (3 =? 2)%Z with false. change (3 <=? 3)%Z with true. cbv iota.
    unfold bind at 1. unfold ret at 1. cbv beta iota.
    bind_destruct. apply Encrypt_Ok in E. destruct E as [He Hi].
    unfold ret. intro H. inversion H; subst; clear H.
    unfold frame_ok. simpl.
    rewrite (truthy_length _ Hi).
    repeat split; try discriminate.
    eexists. repeat split; try discriminate.
    + exact He.
    + apply EncodeMessageList_timestamp.
    + intro s1. apply EncodeMessageList_decompress with (flag := FLAGS_compression s)
                                                        (ts := ts'); reflexivity.
Qed.

(** The frame of a successful [EncodeMessages] of an encoder that
    addresses the decoder. *)
Lemma EncodeMessages_frame B dest t0 v E D fr ts E' pubE pubD :
  key_pair (private_key E) pubE ->
  key_pair (private_key D) pubD ->
  addresses E D dest pubE pubD ->
  EncodeMessages B new_ClientCommunication dest t0 v E = (Ok (fr, ts), E') ->
  (v = 2%Z \/ v = 3%Z)
  /\ exists c, session_ok (common_name E) pubE (private_key D) c
               /\ frame_ok (common_name E) pubE B ts v c fr.
Proof.
  intros HE HD (d & Hdest & Hdir & Hcache).
  unfold EncodeMessages.
  destruct (negb ((v =? 2)%Z || (v =? 3)%Z)) eqn:Hv; [ discriminate | ].
  assert (Hv' : v = 2%Z \/ v = 3%Z).
  { apply negb_false_iff, orb_true_iff in Hv.
    destruct Hv as [Hv | Hv]; apply Z.eqb_eq in Hv; auto. }
  assert (Hd : (match dest with
                | Some d0 => ret (Some d0)
                | None => gets server_name
                end) E = (Ok (Some d), E)).
  { destruct dest; simpl in *; unfold ret, gets; congruence. }
  unfold bind at 1. rewrite Hd.
  unfold bind at 1. rewrite make_nonce_run.
  assert (Hrest : forall t s1,
            common_name s1 = common_name E ->
            private_key s1 = private_key E ->
            pub_key_cache s1 = pub_key_cache E ->
            time_us s1 = time_us E ->
            cipher_cache s1 = cipher_cache E ->
            bind (destination_cipher (Some d))
                 (encode_with_cipher B new_ClientCommunication t v) s1
            = (Ok (fr, ts), E') ->
            exists c, session_ok (common_name E) pubE (private_key D) c
                      /\ frame_ok (common_name E) pubE B ts v c fr).
  { intros t s1 H1 H2 H3 H4 H5.
    bind_destruct.
    assert (Hf : preserves (fun s => (common_name s, private_key s))
                   (destination_cipher (Some d)))
      by (apply frame_destination_cipher; intros; reflexivity).
    specialize (Hf s1). rewrite E0 in Hf. simpl in Hf. inversion Hf as [[Hf1 Hf2]].
    intro Henc.
    assert (ts = t) by (eapply encode_with_cipher_nonce; eassumption). subst t.
    exists a. split.
    - eapply (@destination_cipher_session (common_name E) d (private_key E) pubE
                (private_key D) pubD s1 a _ HE HD H1 H2).
      + rewrite H3. exact Hdir.
      + rewrite H4, H5. exact Hcache.
      + eassumption.
    - rewrite <- H1, <- Hf1.
      eapply encode_with_cipher_frame with (privE := private_key E);
        try eassumption.
      congruence. }
  intro Henc. split; [ exact Hv' | revert Henc ].
  destruct t0 as [t |]; apply Hrest; reflexivity.
Qed.

(** *** Running the decoder *)

Lemma returns_bind A B X (F : State -> X) (m : M A) (k : A -> M B) s a b :
  returns F m s a ->
  (forall s1, F s1 = F s -> returns F (k a) s1 b) ->
  returns F (bind m k) s b.
Proof.
  intros (s1 & Hm & H1) Hk. destruct (Hk s1 H1) as (s2 & Hk2 & H2).
  exists s2. unfold bind. rewrite Hm. split; [ exact Hk2 | congruence ].
Qed.

Lemma returns_gets_bind A B X (F : State -> X) (g : State -> A) (k : A -> M B) s b :
  returns F (k (g s)) s b -> returns F (bind (gets g) k) s b.
Proof. intro H. exact H. Qed.

Lemma returns_ret A X (F : State -> X) (a : A) s : returns F (ret a) s a.
Proof. exists s. split; reflexivity. Qed.

Lemma returns_preserves A X (F : State -> X) (m : M A) s a :
  preserves F m -> fst (m s) = Ok a -> returns F m s a.
Proof.
  intros Hp Hm. exists (snd (m s)). split; [ | apply Hp ].
  destruct (m s) as [r s1]. simpl in *. subst. reflexivity.
Qed.

Lemma returns_or_raise A X (F : State -> X) (o : option A) e s a :
  o = Some a -> returns F (or_raise o e) s a.
Proof. intros ->. apply returns_ret. Qed.

Lemma returns_try_except A X (F : State -> X) (m : M A) h s a :
  returns F m s a -> returns F (try_except m h) s a.
Proof.
  intros (s1 & Hm & H1). exists s1. unfold try_except. rewrite Hm. auto.
Qed.

Lemma decode_view_pub_key_cache cn k v c s :
  FastStore.Get k (pub_key_cache s) = Some (v, c) ->
  decode_view cn (set_pub_key_cache c s) = decode_view cn s.
Proof.
  intro G. unfold decode_view. simpl. rewrite (Get_find_other _ cn _ G). reflexivity.
Qed.

End RoundTrip.

Ltac view_side :=
  first [ intros; reflexivity | intros; eapply decode_view_pub_key_cache; eassumption ].

Ltac view_frame :=
  first [ apply frame_GetRSAPublicKey
        | apply frame_Increment_rsa_operations
        | apply frame_Increment_authenticated_messages
        | apply frame_Rand_rand_add
        | apply frame_Decrypt
        | apply frame_DecompressMessageList
        | apply frame_mutate_cipher
        | apply frame_read_timestamp
        | apply preserves_or_raise
        | apply preserves_gets
        | apply preserves_modify ];
  view_side.

Section RoundTripDecode.

Context {P : Primitives}.
Local Open Scope comm_scope.

Hypothesis laws : Laws.

Variables (cn pubE : bytes) (pkE : RSAPub).
Hypothesis HpkE : load_pub_key_bio pubE = Some pkE.

Lemma GetRSAPublicKey_returns s :
  FastStore.find cn (FastStore.entries (pub_key_cache s)) = Some pubE ->
  returns (decode_view cn) (GetRSAPublicKey (Some cn)) s pkE.
Proof.
  intro Hf. apply returns_preserves; [ view_frame | ].
  destruct (GetRSAPublicKey_hit _ _ Hf HpkE) as (cache' & _ & H). rewrite H. reflexivity.
Qed.

(** The directory entry, read off the view. *)
Lemma view_find s s1 :
  decode_view cn s1 = decode_view cn s ->
  FastStore.find cn (FastStore.entries (pub_key_cache s)) = Some pubE ->
  FastStore.find cn (FastStore.entries (pub_key_cache s1)) = Some pubE.
Proof. unfold decode_view. intros H Hf. inversion H. congruence. Qed.

(** A cipher whose signer is [cn] and whose signature [pkE] accepts gets
    verified. *)
Lemma VerifyCipherSignature_returns c md s :
  rc_cipher_metadata c = Some md ->
  source md = cn ->
  truthy (signature md) = true ->
  rsa_verify pkE (hash_function (rc_serialized_cipher c)) (signature md)
    hash_function_name = Some true ->
  FastStore.find cn (FastStore.entries (pub_key_cache s)) = Some pubE ->
  returns (decode_view cn) (VerifyCipherSignature c) s (set_rc_signature_verified true c).
Proof.
  intros Hmd Hsrc Hsig Hver Hf. unfold VerifyCipherSignature.
  rewrite Hmd, Hsig, Hsrc. apply returns_try_except.
  eapply returns_bind; [ apply GetRSAPublicKey_returns; exact Hf | intros s1 H1 ].
  eapply returns_bind;
    [ apply returns_preserves; [ view_frame | reflexivity ] | intros s2 H2 ].
  eapply returns_bind; [ apply returns_or_raise; exact Hver | intros s3 H3 ].
  apply returns_ret.
Qed.

Variables (c : Cipher) (fr : ClientCommunication) (skD : RSAPriv).

Hypothesis Hec : encrypted_cipher fr = c_encrypted_cipher c.
Hypothesis Hdec :
  private_decrypt skD (c_encrypted_cipher c)
  = Some (CipherProperties_Serialize (c_cipher c)).
Hypothesis Hkey : List.length (key (c_cipher c)) = 16.
Hypothesis Hiv : List.length (iv (c_cipher c)) = 16.
Hypothesis Hhmac_key : List.length (hmac_key (c_cipher c)) = 16.
Hypothesis Hsrc : source (c_cipher_metadata c) = cn.
Hypothesis Hsig : truthy (signature (c_cipher_metadata c)) = true.
Hypothesis Hver :
  rsa_verify pkE (hash_function (CipherProperties_Serialize (c_cipher c)))
    (signature (c_cipher_metadata c)) hash_function_name = Some true.
Hypothesis Hecm :
  api_version fr = 3%Z ->
  encrypted_cipher_metadata fr
  = evp_encrypt cipher_name (key (c_cipher c)) (iv (c_cipher c))
      (CipherMetadata_Serialize (c_cipher_metadata c)).
Hypothesis Hversion : api_version fr = 2%Z \/ api_version fr = 3%Z.

Lemma length_16 (b : bytes) :
  List.length b = 16 -> (List.length b =? key_size / 8)%nat = true.
Proof. intros ->. reflexivity. Qed.

(** A new [ReceivedCipher] for the frame. *)
Lemma ReceivedCipher__init___returns s :
  load_key_string (private_key s) = Some skD ->
  FastStore.find cn (FastStore.entries (pub_key_cache s)) = Some pubE ->
  exists r,
    returns (decode_view cn) (ReceivedCipher__init__ fr (private_key s)) s r
    /\ received_ok cn (api_version fr) c r
    /\ (api_version fr = 3%Z -> rc_signature_verified r = true)
    /\ (api_version fr = 2%Z -> rc_signature_verified r = false).
Proof.
  intros Hsk Hf.
  set (r2 := {| rc_private_key := private_key s;
                rc_encrypted_cipher := encrypted_cipher fr;
                rc_serialized_cipher := CipherProperties_Serialize (c_cipher c);
                rc_cipher := c_cipher c;
                rc_encrypted_cipher_metadata := None;
                rc_cipher_metadata := None;
                rc_signature_verified := false |}).
  set (r3 := {| rc_private_key := private_key s;
                rc_encrypted_cipher := encrypted_cipher fr;
                rc_serialized_cipher := CipherProperties_Serialize (c_cipher c);
                rc_cipher := c_cipher c;
                rc_encrypted_cipher_metadata := Some (encrypted_cipher_metadata fr);
                rc_cipher_metadata := Some (c_cipher_metadata c);
                rc_signature_verified := false |}).
  exists (if (3 <=? api_version fr)%Z then set_rc_signature_verified true r3 else r2).
  split.
  - unfold ReceivedCipher__init__.
    eapply returns_bind; [ apply returns_or_raise; exact Hsk | intros s1 H1 ].
    apply returns_try_except.
    eapply returns_bind;
      [ apply returns_preserves;
        [ unfold count_private_decrypt; view_frame | reflexivity ]
      | intros s2 H2 ].
    eapply returns_bind;
      [ apply returns_or_raise; rewrite Hec; exact Hdec | intros s3 H3 ].
    eapply returns_bind;
      [ apply returns_or_raise; apply (CipherProperties_roundtrip laws) | intros s4 H4 ].
    rewrite (length_16 _ Hkey).
    replace (List.length (iv (c_cipher c)) =? iv_size / 8)%nat with true
      by (rewrite Hiv; reflexivity).
    cbv [negb orb].
    destruct Hversion as [Hv | Hv]; rewrite Hv.
    + change (3 <=? 2)%Z with false. cbv iota. apply returns_ret.
    + change (3 <=? 3)%Z with true. cbv iota.
      rewrite (length_16 _ Hhmac_key). cbv [negb].
      eapply returns_bind.
      { unfold Decrypt. apply returns_or_raise.
        rewrite (Hecm Hv). apply (evp_roundtrip laws). }
      intros s5 H5.
      eapply returns_bind;
        [ apply returns_or_raise; apply (CipherMetadata_roundtrip laws) | intros s6 H6 ].
      apply (@VerifyCipherSignature_returns r3 (c_cipher_metadata c)); auto.
      apply view_find with (s := s); [ congruence | exact Hf ].
  - destruct Hversion as [Hv | Hv]; rewrite Hv.
    + change (3 <=? 2)%Z with false. cbv iota.
      repeat split; try discriminate; auto.
    + change (3 <=? 3)%Z with true. cbv iota.
      repeat split; try discriminate; auto.
      left. split; [ reflexivity | ]. exists (c_cipher_metadata c). split; auto.
Qed.

Variables (B : MessageList) (ts : Z) (l : SignedMessageList).

Hypothesis Htruthy : truthy (c_encrypted_cipher c) = true.
Hypothesis Henc :
  encrypted fr
  = evp_encrypt cipher_name (key (c_cipher c))
      (if truthy (cc_iv fr) then cc_iv fr else iv (c_cipher c))
      (SignedMessageList_Serialize l).
Hypothesis Hts : sml_timestamp l = ts.
Hypothesis Hdecomp : forall s, DecompressMessageList l s = (Ok B, s).
Hypothesis Hv2 :
  api_version fr = 2%Z ->
  sml_source l = cn
  /\ rsa_verify pkE (hash_function (sml_message_list l)) (sml_signature l)
       hash_function_name = Some true.
Hypothesis Hhmac : api_version fr = 3%Z -> hmac fr = HMAC (c_cipher c) (encrypted fr).

(** The cipher lookup of the decoder. *)
Lemma received_cipher_returns D :
  load_key_string (private_key D) = Some skD ->
  FastStore.find cn (FastStore.entries (pub_key_cache D)) = Some pubE ->
  envelope_known D cn (encrypted_cipher fr) ->
  exists r,
    returns (decode_view cn) (received_cipher fr) D r
    /\ received_ok cn (api_version fr) c r
    /\ (api_version fr = 3%Z -> rc_signature_verified r = true).
Proof.
  intros Hsk Hf Hknown.
  unfold received_cipher, try_except, encrypted_cipher_cache_Get, returns.
  destruct (FastStore.Get (encrypted_cipher fr) (encrypted_cipher_cache D))
    as [[r cache'] |] eqn:G.
  - assert (Hfind : FastStore.find (encrypted_cipher fr)
                      (FastStore.entries (encrypted_cipher_cache D)) = Some r).
    { eapply Get_find; exact G. }
    destruct (Hknown r Hfind) as (Hv & Hmd & sk & ser & Hsk' & Hdec' & Hpar).
    exists r. split; [ eexists; split; reflexivity | ].
    split; [ | auto ].
    split; [ | left; auto ].
    rewrite Hsk in Hsk'. inversion Hsk'; subst sk.
    rewrite Hec, Hdec in Hdec'. inversion Hdec'; subst ser.
    rewrite (CipherProperties_roundtrip laws) in Hpar. inversion Hpar; reflexivity.
  - cbv beta iota.
    destruct (ReceivedCipher__init___returns D Hsk Hf) as (r & Hr & Hok & H3 & H2).
    exists r. split; [ | split; assumption ].
    apply returns_gets_bind.
    eapply returns_bind; [ exact Hr | intros s2 H2' ].
    eapply returns_bind with (a := tt); [ | intros s3 H3'; apply returns_ret ].
    destruct (rc_signature_verified r);
      [ apply returns_preserves; [ view_frame | reflexivity ] | apply returns_ret ].
Qed.

Lemma view_timestamp s s1 :
  decode_view cn s1 = decode_view cn s -> timestamp s1 = timestamp s.
Proof. unfold decode_view. intro H. inversion H. reflexivity. Qed.

Lemma DecodePayload_returns D :
  load_key_string (private_key D) = Some skD ->
  FastStore.find cn (FastStore.entries (pub_key_cache D)) = Some pubE ->
  envelope_known D cn (encrypted_cipher fr) ->
  exists r,
    returns (decode_view cn) (DecodePayload fr) D (r, l, B)
    /\ received_ok cn (api_version fr) c r
    /\ (api_version fr = 3%Z -> rc_signature_verified r = true).
Proof.
  intros Hsk Hf Hknown.
  destruct (@received_cipher_returns D Hsk Hf Hknown) as (r & Hr & Hok & H3).
  exists r. split; [ | split; assumption ].
  unfold DecodePayload.
  replace (negb ((api_version fr =? 2)%Z || (api_version fr =? 3)%Z)) with false
    by (destruct Hversion as [-> | ->]; reflexivity).
  rewrite Hec, Htruthy.
  eapply returns_bind; [ exact Hr | intros s1 H1 ].
  eapply returns_bind;
    [ apply returns_preserves; [ view_frame | reflexivity ] | intros s2 H2 ].
  cbv zeta.
  eapply returns_bind.
  { unfold Decrypt. apply returns_or_raise.
    destruct Hok as [Hc _]. rewrite Hc. rewrite Henc. apply (evp_roundtrip laws). }
  intros s3 H3'.
  eapply returns_bind;
    [ apply returns_or_raise; apply (SignedMessageList_roundtrip laws) | intros s4 H4 ].
  eapply returns_bind; [ | intros s5 H5; apply returns_ret ].
  exists s4. split; [ apply Hdecomp | reflexivity ].
Qed.

Lemma VerifyMessageSignature_returns r s :
  received_ok cn (api_version fr) c r ->
  (api_version fr = 3%Z -> rc_signature_verified r = true) ->
  timestamp s = Some ts ->
  FastStore.find cn (FastStore.entries (pub_key_cache s)) = Some pubE ->
  exists r' md,
    returns (decode_view cn) (VerifyMessageSignature fr l r (api_version fr)) s
      (AUTHENTICATED, r')
    /\ rc_cipher_metadata r' = Some md
    /\ source md = cn.
Proof.
  intros [Hc Hmd] H3 Hstamp Hf.
  assert (Hcheck : returns (decode_view cn) (check_signature fr l r (api_version fr)) s
                     (AUTHENTICATED, r)).
  { unfold check_signature. destruct Hversion as [Hv | Hv]; rewrite Hv.
    - change (2 <? 3)%Z with true. cbv iota zeta.
      destruct (Hv2 Hv) as [Hs Hv2'].
      rewrite Hs.
      eapply returns_bind; [ apply GetRSAPublicKey_returns; exact Hf | intros s1 H1 ].
      eapply returns_bind;
        [ apply returns_preserves; [ view_frame | reflexivity ] | intros s2 H2 ].
      eapply returns_bind; [ apply returns_or_raise; exact Hv2' | intros s3 H3' ].
      cbv iota.
      eapply returns_bind;
        [ apply returns_preserves; [ view_frame | reflexivity ] | intros s4 H4 ].
      apply returns_ret.
    - change (3 <? 3)%Z with false. cbv iota.
      rewrite Hc, (Hhmac Hv), bytes_eqb_refl. rewrite (H3 Hv).
      cbv [negb]. cbv iota.
      eapply returns_bind; [ apply returns_ret | intros s1 H1 ].
      rewrite (H3 Hv).
      eapply returns_bind;
        [ apply returns_preserves; [ view_frame | reflexivity ] | intros s2 H2 ].
      apply returns_ret. }
  assert (Hread : forall s1, decode_view cn s1 = decode_view cn s ->
                             returns (decode_view cn) read_timestamp s1 ts).
  { intros s1 H1. exists s1. split; [ | reflexivity ].
    unfold read_timestamp. rewrite (view_timestamp H1), Hstamp. reflexivity. }
  destruct Hmd as [[Hv (md & Hmd & Hsrc')] | [Hv Hnone]].
  - exists r, md. split; [ | split; assumption ].
    unfold VerifyMessageSignature.
    eapply returns_bind; [ exact Hcheck | intros s1 H1 ].
    cbv beta iota.
    eapply returns_bind; [ apply Hread; exact H1 | intros s2 H2 ].
    rewrite Hts, Z.eqb_refl, Hmd. apply returns_ret.
  - exists (set_rc_cipher_metadata {| source := sml_source l; signature := [] |} r),
      {| source := sml_source l; signature := [] |}.
    split; [ | split; [ reflexivity | apply (Hv2 Hv) ] ].
    unfold VerifyMessageSignature.
    eapply returns_bind; [ exact Hcheck | intros s1 H1 ].
    cbv beta iota.
    eapply returns_bind; [ apply Hread; exact H1 | intros s2 H2 ].
    rewrite Hts, Z.eqb_refl, Hnone. cbv zeta.
    eapply returns_bind;
      [ apply returns_preserves; [ view_frame | reflexivity ] | intros s3 H3' ].
    apply returns_ret.
Qed.

Lemma DecodeMessages_returns D :
  load_key_string (private_key D) = Some skD ->
  FastStore.find cn (FastStore.entries (pub_key_cache D)) = Some pubE ->
  envelope_known D cn (encrypted_cipher fr) ->
  timestamp D = Some ts ->
  fst (DecodeMessages fr D) = Ok (map (mark AUTHENTICATED cn) (job B), cn, ts).
Proof.
  intros Hsk Hf Hknown Hstamp.
  destruct (@DecodePayload_returns D Hsk Hf Hknown) as (r & Hr & Hok & H3).
  assert (H : returns (decode_view cn) (DecodeMessages fr) D
                (map (mark AUTHENTICATED cn) (job B), cn, ts)).
  { unfold DecodeMessages.
    eapply returns_bind; [ exact Hr | intros s1 H1 ].
    cbv beta iota.
    destruct (@VerifyMessageSignature_returns r s1 Hok H3) as (r' & md & Hv & Hmd & Hsrc').
    - rewrite (view_timestamp H1). exact Hstamp.
    - apply view_find with (s := D); assumption.
    - eapply returns_bind; [ exact Hv | intros s2 H2 ].
      cbv beta iota. rewrite Hmd, Hsrc', Hts. apply returns_ret. }
  destruct H as (s1 & H & _). rewrite H. reflexivity.
Qed.

End RoundTripDecode.

Section RoundTripTheorem.

Context {P : Primitives}.

(** C1.  The encoder [E] encodes the batch [B] into a fresh
    [ClientCommunication] for a destination under which it addresses the
    decoder [D]; [D] knows the encoder's common name and public key and has
    the returned nonce as its [timestamp].  Then decoding the frame returns
    the messages of [B], each marked AUTHENTICATED and attributed to the
    encoder's common name, that common name as the source, and the nonce. *)
Theorem encode_decode_roundtrip B E D dest t0 v pubE pubD fr ts E' :
  Laws ->
  key_pair (private_key E) pubE ->
  key_pair (private_key D) pubD ->
  addresses E D dest pubE pubD ->
  envelope_known D (common_name E) (encrypted_cipher fr) ->
  EncodeMessages B new_ClientCommunication dest t0 v E = (Ok (fr, ts), E') ->
  FastStore.find (common_name E) (FastStore.entries (pub_key_cache D)) = Some pubE ->
  timestamp D = Some ts ->
  fst (DecodeMessages fr D)
  = Ok (map (mark AUTHENTICATED (common_name E)) (job B), common_name E, ts).
Proof.
  intros laws HE HD Haddr Hknown Henc Hdir Hstamp.
  destruct (@EncodeMessages_frame P laws B dest t0 v E D fr ts E' pubE pubD
              HE HD Haddr Henc) as (Hv & c & Hsession & Hframe).
  destruct Hsession as (sk & pk & Hsk & Hpk & Hdec & Htruthy & Hk & Hi & Hh & Hsrc
                        & Hsig & Hver & Hecm).
  destruct Hframe as (Hapi & Hec & H3 & l & Henc' & Hts & Hdecomp & H2).
  eapply (@DecodeMessages_returns P laws (common_name E) pubE pk Hpk c fr sk);
    try eassumption.
  - intro Hv3. rewrite <- Hecm. apply H3. congruence.
  - rewrite Hapi. exact Hv.
  - intro Hv2. destruct (H2 ltac:(congruence)) as (Hs & pk' & Hpk' & Hver').
    split; [ exact Hs | ]. rewrite Hpk in Hpk'. inversion Hpk'; subst. exact Hver'.
  - intro Hv3. apply H3. congruence.
Qed.

End RoundTripTheorem.

(** ** The small instance satisfies the laws *)

Lemma Toy_dec_nat n r : Toy.dec_nat (Toy.enc_nat n ++ r) = Some (n, r).
Proof.
  unfold Toy.enc_nat. induction n as [| n IH]; simpl.
  - reflexivity.
  - rewrite IH. reflexivity.
Qed.

Lemma Toy_dec_bytes b r : Toy.dec_bytes (Toy.enc_bytes b ++ r) = Some (b, r).
Proof.
  unfold Toy.dec_bytes, Toy.enc_bytes. rewrite <- app_assoc, Toy_dec_nat.
  rewrite length_app.
  destruct (Nat.leb_spec (List.length b) (List.length b + List.length r)); [ | lia ].
  rewrite firstn_app, skipn_app, Nat.sub_diag. simpl.
  rewrite firstn_all, skipn_all, app_nil_r. reflexivity.
Qed.

Lemma Toy_dec_Z z r : Toy.dec_Z (Toy.enc_Z z ++ r) = Some (z, r).
Proof.
  unfold Toy.dec_Z, Toy.enc_Z.
  destruct (Z.ltb_spec z 0); simpl; rewrite Toy_dec_nat; repeat f_equal; lia.
Qed.

Lemma Toy_dec_auth a r : Toy.dec_auth (Toy.enc_auth a ++ r) = Some (a, r).
Proof. destruct a; reflexivity. Qed.

Lemma Toy_dec_msg m r : Toy.dec_msg (Toy.enc_msg m ++ r) = Some (m, r).
Proof.
  unfold Toy.dec_msg, Toy.enc_msg.
  rewrite <- !app_assoc, Toy_dec_bytes, Toy_dec_auth, Toy_dec_bytes.
  destruct m; reflexivity.
Qed.

Lemma Toy_dec_msgs l r :
  Toy.dec_msgs (List.length l) (Toy.enc_msgs l ++ r) = Some (l, r).
Proof.
  induction l as [| m l IH]; simpl; [ reflexivity | ].
  rewrite <- app_assoc, Toy_dec_msg, IH. reflexivity.
Qed.

Lemma Toy_decompress d : Toy.decompress (Toy.compress d) = Some d.
Proof.
  unfold Toy.compress.
  destruct d as [| a [| b [| c r]]]; try reflexivity.
  destruct (Byte.eqb a b) eqn:E1; [ | reflexivity ].
  destruct (Byte.eqb b c) eqn:E2; [ | reflexivity ].
  apply byte_dec_bl in E1, E2. subst. reflexivity.
Qed.

Lemma Toy_laws : @Laws Toy.primitives.
Proof.
  constructor; simpl.
  - intros [n k i h]. unfold Toy.par_props, Toy.ser_props. simpl.
    rewrite !Toy_dec_bytes.
    replace (Toy.enc_bytes h) with (Toy.enc_bytes h ++ []) by apply app_nil_r.
    rewrite Toy_dec_bytes. reflexivity.
  - intros [a b]. unfold Toy.par_meta, Toy.ser_meta. simpl.
    rewrite Toy_dec_bytes.
    replace (Toy.enc_bytes b) with (Toy.enc_bytes b ++ []) by apply app_nil_r.
    rewrite Toy_dec_bytes. reflexivity.
  - intros [t c m src sg]. unfold Toy.par_sml, Toy.ser_sml.
    cbn [sml_timestamp sml_compression sml_message_list sml_source sml_signature].
    rewrite !Toy_dec_Z, !Toy_dec_bytes.
    replace (Toy.enc_bytes sg) with (Toy.enc_bytes sg ++ []) by apply app_nil_r.
    rewrite Toy_dec_bytes. reflexivity.
  - intros [l]. unfold Toy.par_ml, Toy.ser_ml. simpl.
    rewrite Toy_dec_nat.
    replace (Toy.enc_msgs l) with (Toy.enc_msgs l ++ []) by apply app_nil_r.
    rewrite Toy_dec_msgs. reflexivity.
  - apply Toy_decompress.
  - intros. rewrite rev_involutive. reflexivity.
  - intros. apply repeat_length.
Qed.

(** A non-empty byte string is, on the small instance, both halves of a
    key pair. *)
Lemma Toy_key_pair (k : bytes) : truthy k = true -> @key_pair Toy.primitives k k.
Proof.
  intro Hk. exists k, k. simpl. unfold Toy.nonempty_key. rewrite Hk.
  repeat split.
  - inversion H; subst. rewrite Toy_dec_bytes, bytes_eqb_refl. reflexivity.
  - inversion H; subst. unfold Toy.enc_bytes, Toy.enc_nat.
    destruct (repeat x01 (List.length k)); reflexivity.
  - inversion H; subst. rewrite bytes_eqb_refl. reflexivity.
  - inversion H; subst. unfold Toy.enc_bytes, Toy.enc_nat.
    destruct (repeat x01 (List.length k)); reflexivity.
Qed.

Lemma encode_decode_roundtrip_witness :
  fst (@DecodeMessages Toy.primitives (Scenario.frame 3) (Scenario.server_expecting 7))
  = Ok (map (mark AUTHENTICATED Scenario.client_cert) (job Scenario.batch),
        Scenario.client_cert, 7%Z).
Proof.
  apply (@encode_decode_roundtrip Toy.primitives Scenario.batch Scenario.client
           (Scenario.server_expecting 7) (Some Scenario.server_cert) None 3%Z
           Scenario.client_cert Scenario.server_cert (Scenario.frame 3) 7%Z
           (snd (@EncodeMessages Toy.primitives Scenario.batch new_ClientCommunication
                   (Some Scenario.server_cert) None 3 Scenario.client))).
  - exact Toy_laws.
  - apply (Toy_key_pair Scenario.client_cert). reflexivity.
  - apply (Toy_key_pair Scenario.server_cert). reflexivity.
  - exists Scenario.server_cert. split; [ reflexivity | ].
    split; [ vm_compute; reflexivity | ].
    intros c cache' H. vm_compute in H. discriminate.
  - intros c H. vm_compute in H. discriminate.
  - vm_compute. reflexivity.
  - vm_compute. reflexivity.
  - reflexivity.
Defined.

(** * Further properties of the communicator *)

Section Rejections.

Context {P : Primitives}.
Local Open Scope comm_scope.

(** [EncodeMessages] refuses an api version other than 2 and 3 before it
    does anything: the communicator is left exactly as it was, and no nonce
    is stored even when the timestamp is left out. *)
Theorem EncodeMessages_unsupported_version ml result d t0 v s :
  v <> 2%Z -> v <> 3%Z ->
  EncodeMessages ml result d t0 v s
  = (Err (RuntimeError "Unsupported api version."), s).
Proof.
  intros H2 H3. unfold EncodeMessages.
  apply Z.eqb_neq in H2, H3. rewrite H2, H3. reflexivity.
Qed.


(** Decoding writes neither the nonce, nor the identity of the
    communicator, nor its cache of ciphers for destinations, nor the clock
    and the compression flag, whether it returns a batch or raises. *)
Theorem DecodeMessages_leaves_sender_side rc s :
  let s' := snd (DecodeMessages rc s) in
  timestamp s' = timestamp s
  /\ cipher_cache s' = cipher_cache s
  /\ private_key s' = private_key s
  /\ common_name s' = common_name s
  /\ server_name s' = server_name s
  /\ time_us s' = time_us s
  /\ FLAGS_compression s' = FLAGS_compression s.
Proof.
  cbv zeta.
  assert (H : preserves (fun x => (timestamp x, cipher_cache x, private_key x,
                                   common_name x, server_name x, time_us x,
                                   FLAGS_compression x))
                (DecodeMessages rc))
    by (apply frame_DecodeMessages; intros; reflexivity).
  specialize (H s). inversion H. repeat split; assumption.
Qed.

(** Encoding writes neither the cache of received ciphers nor the identity
    of the communicator, and never decrypts with the private key, whether it
    returns a frame or raises. *)
Theorem EncodeMessages_leaves_receiver_side ml result d t0 v s :
  let s' := snd (EncodeMessages ml result d t0 v s) in
  encrypted_cipher_cache s' = encrypted_cipher_cache s
  /\ private_decrypt_calls s' = private_decrypt_calls s
  /\ private_key s' = private_key s
  /\ common_name s' = common_name s
  /\ server_name s' = server_name s.
Proof.
  cbv zeta.
  assert (H : preserves (fun x => (encrypted_cipher_cache x, private_decrypt_calls x,
                                   private_key x, common_name x, server_name x))
                (EncodeMessages ml result d t0 v))
    by (apply frame_EncodeMessages; intros; reflexivity).
  specialize (H s). inversion H. repeat split; assumption.
Qed.

(** With the timestamp left out and a supported version, [EncodeMessages]
    stores the clock reading as the nonce before it looks for a cipher: the
    stored nonce is overwritten even when the call then raises (unknown
    destination, unusable key, ...). *)
Theorem EncodeMessages_nonce_stored_even_on_error ml result d v s :
  v = 2%Z \/ v = 3%Z ->
  timestamp (snd (EncodeMessages ml result d None v s)) = Some (time_us s).
Proof.
  intros Hv. unfold EncodeMessages.
  replace (negb ((v =? 2)%Z || (v =? 3)%Z)) with false
    by (destruct Hv as [-> | ->]; reflexivity).
  assert (Hd : exists d', (match d with
                           | Some d0 => ret (Some d0)
                           | None => gets server_name
                           end) s = (Ok d', s))
    by (destruct d; eexists; reflexivity).
  destruct Hd as [d' Hd].
  unfold bind at 1. rewrite Hd.
  unfold bind at 1. rewrite make_nonce_run.
  assert (Hp : preserves timestamp
                 (bind (destination_cipher d')
                       (encode_with_cipher ml result (time_us s) v))).
  { apply preserves_bind;
      [ apply frame_destination_cipher | intro; apply frame_encode_with_cipher ];
      intros; reflexivity. }
  rewrite Hp. reflexivity.
Qed.

End Rejections.

Lemma EncodeMessages_unsupported_version_witness :
  @EncodeMessages Toy.primitives Scenario.batch new_ClientCommunication
    (Some Scenario.server_cert) None 4 Scenario.client
  = (Err (RuntimeError "Unsupported api version."), Scenario.client).
Proof.
  apply (@EncodeMessages_unsupported_version Toy.primitives); discriminate.
Defined.

Lemma EncodeMessages_nonce_stored_even_on_error_witness :
  timestamp (snd (@EncodeMessages Toy.primitives Scenario.batch new_ClientCommunication
                    (Some ["?"%byte]) None 3 Scenario.client)) = Some 7%Z.
Proof.
  apply (@EncodeMessages_nonce_stored_even_on_error Toy.primitives Scenario.batch
           new_ClientCommunication (Some ["?"%byte]) 3 Scenario.client).
  right. reflexivity.
Defined.


Section CipherObjects.

Context {P : Primitives}.
Local Open Scope comm_scope.

(** [VerifyCipherSignature] can only set [signature_verified]: every other
    attribute of the cipher object is left alone and a verified cipher stays
    verified.  With an empty signature in the metadata it does nothing at
    all: no lookup, no RSA operation. *)
Theorem VerifyCipherSignature_only_verifies c s c' s' :
  VerifyCipherSignature c s = (Ok c', s') ->
  rc_private_key c' = rc_private_key c
  /\ rc_encrypted_cipher c' = rc_encrypted_cipher c
  /\ rc_serialized_cipher c' = rc_serialized_cipher c
  /\ rc_cipher c' = rc_cipher c
  /\ rc_encrypted_cipher_metadata c' = rc_encrypted_cipher_metadata c
  /\ rc_cipher_metadata c' = rc_cipher_metadata c
  /\ (rc_signature_verified c = true -> rc_signature_verified c' = true)
  /\ (forall md, rc_cipher_metadata c = Some md -> signature md = [] ->
                 c' = c /\ s' = s).
Proof.
  intro H.
  assert (Hno : forall md, rc_cipher_metadata c = Some md -> signature md = [] ->
                           c' = c /\ s' = s).
  { intros md Hmd Hsig. unfold VerifyCipherSignature in H.
    rewrite Hmd, Hsig in H. simpl in H. inversion H. split; reflexivity. }
  apply VerifyCipherSignature_result in H.
  do 7 (split; [ destruct H as [-> | ->]; simpl; auto | ]).
  exact Hno.
Qed.


(** Cipher properties whose key or iv is not 16 bytes long, or, from
    version 3 on, whose hmac_key is not, are refused with
    [DecryptionError("Invalid cipher.")]. *)
Theorem ReceivedCipher__init___invalid_cipher rc priv sk ser props s :
  load_key_string priv = Some sk ->
  private_decrypt sk (encrypted_cipher rc) = Some ser ->
  CipherProperties_Parse ser = Some props ->
  List.length (key props) <> 16
  \/ List.length (iv props) <> 16
  \/ ((3 <= api_version rc)%Z /\ List.length (hmac_key props) <> 16) ->
  fst (ReceivedCipher__init__ rc priv s) = Err (DecryptionError "Invalid cipher.").
Proof.
  intros Hsk Hdec Hpar Hbad.
  unfold ReceivedCipher__init__, try_except, bind, count_private_decrypt, modify.
  rewrite Hsk. simpl or_raise. unfold ret at 1. cbv beta iota.
  rewrite Hdec. simpl or_raise. unfold ret at 1. cbv beta iota.
  rewrite Hpar. simpl or_raise. unfold ret at 1. cbv beta iota.
  change (key_size / 8) with 16. change (iv_size / 8) with 16.
  destruct (Nat.eqb_spec (List.length (key props)) 16) as [Hk | Hk];
    [ | reflexivity ].
  destruct (Nat.eqb_spec (List.length (iv props)) 16) as [Hi | Hi];
    [ | reflexivity ].
  destruct Hbad as [Hbad | [Hbad | [Hv Hbad]]]; try contradiction.
  cbv [negb orb]. cbv iota.
  apply Z.leb_le in Hv. rewrite Hv.
  destruct (Nat.eqb_spec (List.length (hmac_key props)) 16) as [Hh | Hh];
    [ contradiction | reflexivity ].
Qed.

(** The directory of this file.  A name it does not hold raises
    [KeyError("No certificate found")] and leaves everything as it was; a
    name it holds with a key that loads returns that key, and afterwards the
    directory answers every lookup as before. *)
Theorem GetRSAPublicKey_lookup cn s :
  match FastStore.find cn (FastStore.entries (pub_key_cache s)) with
  | None =>
      GetRSAPublicKey (Some cn) s = (Err (KeyError "No certificate found"), s)
  | Some pem =>
      forall pk, load_pub_key_bio pem = Some pk ->
        fst (GetRSAPublicKey (Some cn) s) = Ok pk
        /\ forall k,
             FastStore.find k
               (FastStore.entries (pub_key_cache (snd (GetRSAPublicKey (Some cn) s))))
             = FastStore.find k (FastStore.entries (pub_key_cache s))
  end.
Proof.
  destruct (FastStore.find cn (FastStore.entries (pub_key_cache s))) as [pem |] eqn:E.
  - intros pk Hpk.
    unfold GetRSAPublicKey, try_except, bind, pub_key_cache_Get, FastStore.Get.
    rewrite E. simpl. rewrite Hpk. simpl. split; [ reflexivity | ].
    intro k. apply find_moved_other. exact E.
  - unfold GetRSAPublicKey, try_except, bind, pub_key_cache_Get, FastStore.Get.
    rewrite E. reflexivity.
Qed.

(** What the constructor leaves: the certificate as private key, the
    subject's CN as common name, the communicator's own public key in the
    directory under that name, empty caches, and no [timestamp]. *)
Theorem Communicator__init___state certificate r now st flag n s :
  Communicator__init__ certificate r now st flag n = Ok s ->
  exists cert cn,
    load_cert_string certificate = Some cert
    /\ load_key_string certificate <> None
    /\ cert_subject_cn cert = Some cn
    /\ common_name s = cn
    /\ private_key s = certificate
    /\ FastStore.find cn (FastStore.entries (pub_key_cache s))
       = Some (cert_pubkey_pem cert)
    /\ FastStore.entries (encrypted_cipher_cache s) = []
    /\ TimeBasedCache.values (cipher_cache s) = []
    /\ server_name s = None
    /\ timestamp s = None.
Proof.
  unfold Communicator__init__, _LoadOurCertificate, bind, PubKeyCache_Put, modify.
  destruct (load_cert_string certificate) as [cert |]; simpl or_raise;
    [ | discriminate ].
  unfold ret at 1. cbv beta iota.
  destruct (load_key_string certificate) as [sk |]; simpl or_raise;
    [ | discriminate ].
  unfold ret at 1. cbv beta iota.
  destruct (cert_subject_cn cert) as [cn |] eqn:Ecn; simpl or_raise;
    [ | discriminate ].
  unfold ret at 1. cbv beta iota.
  intro H. inversion H; subst; clear H.
  exists cert, cn. cbn [common_name private_key pub_key_cache encrypted_cipher_cache
                        cipher_cache server_name timestamp set_pub_key_cache].
  repeat split; try discriminate; try exact Ecn.
  apply Put_find. simpl. discriminate.
Qed.

End CipherObjects.

Lemma VerifyCipherSignature_only_verifies_witness :
  @VerifyCipherSignature Toy.primitives Scenario.unsigned_cipher Scenario.server
  = (Ok Scenario.unsigned_cipher, Scenario.server)
  /\ rc_cipher Scenario.unsigned_cipher = rc_cipher Scenario.unsigned_cipher
  /\ rc_signature_verified Scenario.unsigned_cipher = false.
Proof.
  split; [ reflexivity | split; [ | reflexivity ] ].
  apply (@VerifyCipherSignature_only_verifies Toy.primitives
           Scenario.unsigned_cipher Scenario.server
           Scenario.unsigned_cipher Scenario.server).
  reflexivity.
Defined.


Lemma ReceivedCipher__init___invalid_cipher_witness :
  fst (@ReceivedCipher__init__ Toy.primitives Scenario.short_key_frame
         Scenario.server_cert Scenario.server)
  = Err (DecryptionError "Invalid cipher.").
Proof.
  eapply (@ReceivedCipher__init___invalid_cipher Toy.primitives
            Scenario.short_key_frame Scenario.server_cert Scenario.server_cert).
  - reflexivity.
  - vm_compute. reflexivity.
  - vm_compute. reflexivity.
  - left. simpl. discriminate.
Defined.

Lemma Communicator__init___state_witness :
  common_name (Scenario.fresh Scenario.server_cert) = Scenario.server_cert.
Proof.
  assert (H : @Communicator__init__ Toy.primitives Scenario.server_cert 0%nat 7%Z
                Scenario.stats0 "ZCOMPRESS" 0 = Ok (Scenario.fresh Scenario.server_cert))
    by (vm_compute; reflexivity).
  destruct (@Communicator__init___state Toy.primitives _ _ _ _ _ _ _ H)
    as (cert & cn & Hc & _ & Hcn & Hname & _).
  rewrite Hname. vm_compute in Hc, Hcn. unfold Scenario.server_cert. congruence.
Defined.

Lemma GetRSAPublicKey_lookup_witness :
  fst (@GetRSAPublicKey Toy.primitives (Some Scenario.client_cert) Scenario.server)
  = Ok Scenario.client_cert
  /\ @GetRSAPublicKey Toy.primitives (Some ["?"%byte]) Scenario.server
     = (Err (KeyError "No certificate found"), Scenario.server).
Proof.
  split.
  - pose proof (@GetRSAPublicKey_lookup Toy.primitives Scenario.client_cert
                  Scenario.server) as H.
    change (FastStore.find Scenario.client_cert
              (FastStore.entries (pub_key_cache Scenario.server)))
      with (Some Scenario.client_cert) in H.
    cbv beta iota in H.
    exact (proj1 (H Scenario.client_cert eq_refl)).
  - exact (@GetRSAPublicKey_lookup Toy.primitives ["?"%byte] Scenario.server).
Defined.

(** * Sessions, old frames and what AUTHENTICATED means *)

Section MessageLists.

Context {P : Primitives}.
Local Open Scope comm_scope.


(** What [EncodeMessageList] writes into a message list that arrives marked
    [UNCOMPRESSED], [DecompressMessageList] reads back, whatever the
    compression flag and whether or not compressing paid. *)
Theorem DecompressMessageList_EncodeMessageList flag B l s :
  Laws -> sml_compression l = UNCOMPRESSED ->
  DecompressMessageList (EncodeMessageList flag B l) s = (Ok B, s).
Proof.
  intros laws Hl.
  unfold EncodeMessageList, DecompressMessageList.
  destruct (String.eqb flag "ZCOMPRESS");
    [ destruct (Nat.ltb _ _) | ];
    simpl; rewrite ?Hl; unfold bind; simpl;
    rewrite ?(zlib_roundtrip laws); simpl;
    rewrite (MessageList_roundtrip laws); reflexivity.
Qed.

(** A key put into the directory under a name is the key the next lookup
    of that name loads. *)
Theorem PubKeyCache_Put_GetRSAPublicKey d k pk s :
  (1 <= FastStore.max_size (pub_key_cache s))%N ->
  load_pub_key_bio k = Some pk ->
  fst (GetRSAPublicKey (Some d) (snd (PubKeyCache_Put d k s))) = Ok pk.
Proof.
  intros Hn Hk.
  unfold PubKeyCache_Put, modify. cbn [snd].
  unfold GetRSAPublicKey, try_except, bind, pub_key_cache_Get, FastStore.Get.
  cbn [pub_key_cache set_pub_key_cache].
  rewrite Put_find by exact Hn. simpl. rewrite Hk. reflexivity.
Qed.

End MessageLists.

Section CipherReuse.

Context {P : Primitives}.
Local Open Scope comm_scope.

(** What a frame takes from the cipher it was encoded with, and which
    fields of the buffer each version leaves alone. *)
Lemma encode_with_cipher_envelope ml result ts v c s fr ts' s' :
  encode_with_cipher ml result ts v c s = (Ok (fr, ts'), s') ->
  api_version fr = v
  /\ encrypted_cipher fr = c_encrypted_cipher c
  /\ (v = 3%Z ->
      encrypted_cipher_metadata fr = c_encrypted_cipher_metadata c
      /\ hmac fr = HMAC (c_cipher c) (encrypted fr))
  /\ (v = 2%Z ->
      encrypted_cipher_metadata fr = encrypted_cipher_metadata result
      /\ cc_iv fr = cc_iv result
      /\ hmac fr = hmac result).
Proof.
  pose (F := fun _ : State => tt).
  unfold encode_with_cipher.
  step_inv F; [ intro; reflexivity | ].
  step_inv F; [ intro; reflexivity | ].
  step_inv F; [ intro; reflexivity | ].
  cbv zeta.
  destruct (Z.leb_spec 3 v) as [Hv | Hv];
    (step_inv F; [ intro; reflexivity | ]);
    unfold ret; intro E; inversion E; subst; clear E; cbn;
    (split; [ reflexivity | split; [ reflexivity | split ] ]).
  - intros ->. split; reflexivity.
  - intros ->. lia.
  - intros ->. lia.
  - intros ->. repeat split; reflexivity.
Qed.

Lemma destination_cipher_hit d s c cache' :
  TimeBasedCache.Get (time_us s) d (cipher_cache s) = Some (c, cache') ->
  destination_cipher (Some d) s = (Ok c, set_cipher_cache cache' s).
Proof.
  intro H. unfold destination_cipher, try_except, cipher_cache_Get.
  rewrite H. reflexivity.
Qed.

(** With a cipher served by the cache, [EncodeMessages] is the encoding
    under that cipher. *)
Lemma EncodeMessages_hit ml result d t0 v s c cache' :
  negb ((v =? 2)%Z || (v =? 3)%Z) = false ->
  TimeBasedCache.Get (time_us s) d (cipher_cache s) = Some (c, cache') ->
  EncodeMessages ml result (Some d) t0 v s
  = encode_with_cipher ml result
      (match t0 with Some t => t | None => time_us s end) v c
      (set_cipher_cache cache'
         (match t0 with Some _ => s | None => set_timestamp (Some (time_us s)) s end)).
Proof.
  intros Hv H. unfold EncodeMessages. rewrite Hv.
  unfold bind at 1. unfold ret at 1. cbv beta iota.
  unfold bind at 1. rewrite make_nonce_run.
  destruct t0 as [t |]; cbv beta iota; unfold bind at 1.
  - rewrite (destination_cipher_hit d s H). reflexivity.
  - rewrite (destination_cipher_hit d (set_timestamp (Some (time_us s)) s) H).
    reflexivity.
Qed.

(** While the cache serves a cipher for the destination, [EncodeMessages]
    makes no RSA public-key operation and does not touch the directory, and
    the frame it returns carries the envelope of the cached cipher. *)
Theorem EncodeMessages_cached_cipher ml result d t0 v s c cache' :
  TimeBasedCache.Get (time_us s) d (cipher_cache s) = Some (c, cache') ->
  stats (snd (EncodeMessages ml result (Some d) t0 v s)) = stats s
  /\ pub_key_cache (snd (EncodeMessages ml result (Some d) t0 v s)) = pub_key_cache s
  /\ forall fr ts,
       fst (EncodeMessages ml result (Some d) t0 v s) = Ok (fr, ts) ->
       encrypted_cipher fr = c_encrypted_cipher c
       /\ (v = 3%Z ->
           encrypted_cipher_metadata fr = c_encrypted_cipher_metadata c
           /\ hmac fr = HMAC (c_cipher c) (encrypted fr)).
Proof.
  intro H.
  destruct (negb ((v =? 2)%Z || (v =? 3)%Z)) eqn:Hv.
  - unfold EncodeMessages. rewrite Hv. simpl.
    repeat split; discriminate.
  - rewrite (EncodeMessages_hit ml result d t0 v s Hv H).
    match goal with
    | |- context [encode_with_cipher ?a ?b ?t ?w ?x ?s0] =>
        pose proof (@frame_encode_with_cipher _ _
                      (fun s => (stats s, pub_key_cache s))
                      (fun _ _ => eq_refl) a b t w x s0) as Hf;
        destruct (encode_with_cipher a b t w x s0) as [[[fr0 ts0] | e] s1] eqn:E
    end.
    + cbn [fst snd] in *.
      assert (Hs : (stats s1, pub_key_cache s1) = (stats s, pub_key_cache s))
        by (rewrite Hf; destruct t0; reflexivity).
      inversion Hs as [[Hs1 Hs2]].
      split; [ reflexivity | split; [ reflexivity | ] ].
      intros fr ts Hok. inversion Hok; subst.
      destruct (encode_with_cipher_envelope _ _ _ _ _ _ E) as (_ & He & H3 & _).
      split; assumption.
    + cbn [fst snd] in *.
      assert (Hs : (stats s1, pub_key_cache s1) = (stats s, pub_key_cache s))
        by (rewrite Hf; destruct t0; reflexivity).
      inversion Hs as [[Hs1 Hs2]].
      split; [ reflexivity | split; [ reflexivity | ] ].
      intros fr ts Hok. discriminate.
Qed.

(** A new cipher for a destination the directory does not know: the three
    random values are drawn and the cipher is signed, then the lookup
    fails. *)
Lemma Cipher__init___unknown src d priv sk s :
  load_key_string priv = Some sk ->
  (forall dg, rsa_sign sk dg hash_function_name <> None) ->
  FastStore.find d (FastStore.entries (pub_key_cache s)) = None ->
  exists r,
    Cipher__init__ src (Some d) priv s
    = (Err (KeyError "No certificate found"), set_rng r s).
Proof.
  intros Hsk Hsign Hmiss.
  unfold Cipher__init__, Rand_rand_pseudo_bytes.
  unfold bind at 1.
  destruct (rand_pseudo_bytes (key_size / 8) (rng s)) as [k r1].
  unfold bind at 1. cbn [rng set_rng].
  destruct (rand_pseudo_bytes (iv_size / 8) r1) as [i r2].
  unfold bind at 1. cbn [rng set_rng].
  destruct (rand_pseudo_bytes (key_size / 8) r2) as [hk r3].
  cbv zeta. rewrite Hsk.
  unfold bind at 1. unfold or_raise at 1. unfold ret at 1. cbv beta iota.
  unfold bind at 1.
  match goal with
  | |- context [rsa_sign sk ?dg hash_function_name] =>
      destruct (rsa_sign sk dg hash_function_name) as [sg |] eqn:Esg;
      [ | exfalso; exact (Hsign _ Esg) ]
  end.
  unfold or_raise at 1. unfold ret at 1. cbv beta iota.
  unfold bind at 1.
  rewrite GetRSAPublicKey_miss by exact Hmiss.
  exists r3. reflexivity.
Qed.

(** Encoding for a destination that has neither a cached cipher nor a key
    in the directory raises the directory's [KeyError]; no cipher is cached
    and no RSA operation is counted. *)
Theorem EncodeMessages_unknown_destination ml result d t0 v s sk :
  v = 2%Z \/ v = 3%Z ->
  TimeBasedCache.Get (time_us s) d (cipher_cache s) = None ->
  FastStore.find d (FastStore.entries (pub_key_cache s)) = None ->
  load_key_string (private_key s) = Some sk ->
  (forall dg, rsa_sign sk dg hash_function_name <> None) ->
  fst (EncodeMessages ml result (Some d) t0 v s) = Err (KeyError "No certificate found")
  /\ cipher_cache (snd (EncodeMessages ml result (Some d) t0 v s)) = cipher_cache s
  /\ pub_key_cache (snd (EncodeMessages ml result (Some d) t0 v s)) = pub_key_cache s
  /\ stats (snd (EncodeMessages ml result (Some d) t0 v s)) = stats s.
Proof.
  intros Hv Hc Hmiss Hsk Hsign.
  unfold EncodeMessages.
  replace (negb ((v =? 2)%Z || (v =? 3)%Z)) with false
    by (destruct Hv as [-> | ->]; reflexivity).
  unfold bind at 1. unfold ret at 1. cbv beta iota.
  unfold bind at 1. rewrite make_nonce_run.
  assert (Hrest : forall t s1,
            time_us s1 = time_us s -> cipher_cache s1 = cipher_cache s ->
            pub_key_cache s1 = pub_key_cache s -> private_key s1 = private_key s ->
            stats s1 = stats s ->
            let r := bind (destination_cipher (Some d))
                       (encode_with_cipher ml result t v) s1 in
            fst r = Err (KeyError "No certificate found")
            /\ cipher_cache (snd r) = cipher_cache s
            /\ pub_key_cache (snd r) = pub_key_cache s
            /\ stats (snd r) = stats s).
  { intros t s1 H1 H2 H3 H4 H5.
    unfold destination_cipher, try_except, cipher_cache_Get, bind.
    rewrite H1, H2, Hc. cbv beta iota. unfold gets.
    destruct (@Cipher__init___unknown (common_name s1) d (private_key s1) sk s1)
      as [r Hr]; [ congruence | exact Hsign | congruence | ].
    rewrite Hr. cbn. auto. }
  destruct t0 as [t |]; cbv beta iota; apply Hrest; reflexivity.
Qed.

End CipherReuse.

Section CipherReuseTwice.

Context {P : Primitives}.
Local Open Scope comm_scope.

(** The cipher [destination_cipher] hands out is the one the cache serves
    for the destination from then on, as long as the clock stands. *)
Lemma destination_cipher_cached d s c s1 :
  (1 <= FastStore.max_size (TimeBasedCache.store (cipher_cache s)))%N ->
  (0 <= TimeBasedCache.max_age (cipher_cache s))%Z ->
  destination_cipher (Some d) s = (Ok c, s1) ->
  time_us s1 = time_us s
  /\ exists cache',
       TimeBasedCache.Get (time_us s1) d (cipher_cache s1) = Some (c, cache').
Proof.
  intros Hsize Hage.
  unfold destination_cipher, try_except, cipher_cache_Get.
  destruct (TimeBasedCache.Get (time_us s) d (cipher_cache s))
    as [[c0 cache0] |] eqn:G.
  - intro H. inversion H; subst; clear H.
    split; [ reflexivity | ].
    cbn [time_us cipher_cache set_cipher_cache].
    unfold TimeBasedCache.Get in G.
    destruct (FastStore.Get d (TimeBasedCache.store (cipher_cache s)))
      as [[[v0 put_time] st'] |] eqn:G1; [ | discriminate ].
    destruct (put_time + TimeBasedCache.max_age (cipher_cache s) <? time_us s)%Z eqn:Ex;
      [ discriminate | ].
    inversion G; subst; clear G.
    unfold TimeBasedCache.Get. cbn [TimeBasedCache.store TimeBasedCache.max_age].
    unfold FastStore.Get at 1. rewrite (Get_still_there _ _ G1).
    rewrite Ex. eexists. reflexivity.
  - cbv beta iota. unfold bind at 1. unfold gets at 1. cbv beta iota.
    unfold bind at 1. unfold gets at 1. cbv beta iota.
    unfold bind at 1.
    pose proof (@frame_Cipher__init__ _ _ (fun s => (time_us s, cipher_cache s))
                  (fun _ _ => eq_refl) (fun _ _ => eq_refl) (fun _ _ _ _ _ => eq_refl)
                  (common_name s) (Some d) (private_key s) s) as Hf.
    destruct (Cipher__init__ (common_name s) (Some d) (private_key s) s)
      as [[c0 | e] s2]; [ | discriminate ].
    cbn [snd] in Hf. injection Hf as Ht Hc.
    unfold bind, cipher_cache_Put, modify, ret. intro H. inversion H; subst; clear H.
    cbn [time_us cipher_cache set_cipher_cache].
    split; [ exact Ht | ].
    rewrite Hc. unfold TimeBasedCache.Get, TimeBasedCache.Put.
    cbn [TimeBasedCache.store TimeBasedCache.max_age].
    unfold FastStore.Get. rewrite Put_find by exact Hsize.
    replace (time_us s2 + TimeBasedCache.max_age (cipher_cache s) <? time_us s2)%Z
      with false by (symmetry; apply Z.ltb_ge; lia).
    eexists. reflexivity.
Qed.

(** After a successful [EncodeMessages] for a destination, the next
    [EncodeMessages] for it (the clock standing, whatever the batch, nonce
    and version) reuses the cipher: no RSA operation is counted and the
    frame carries the same [encrypted_cipher]. *)
Theorem EncodeMessages_twice_same_cipher ml1 r1 t1 v1 ml2 r2 t2 v2 d s fr1 ts1 s1 :
  (1 <= FastStore.max_size (TimeBasedCache.store (cipher_cache s)))%N ->
  (0 <= TimeBasedCache.max_age (cipher_cache s))%Z ->
  EncodeMessages ml1 r1 (Some d) t1 v1 s = (Ok (fr1, ts1), s1) ->
  stats (snd (EncodeMessages ml2 r2 (Some d) t2 v2 s1)) = stats s1
  /\ forall fr2 ts2,
       fst (EncodeMessages ml2 r2 (Some d) t2 v2 s1) = Ok (fr2, ts2) ->
       encrypted_cipher fr2 = encrypted_cipher fr1.
Proof.
  intros Hsize Hage H1.
  assert (Hc : exists c cache',
             TimeBasedCache.Get (time_us s1) d (cipher_cache s1) = Some (c, cache')
             /\ encrypted_cipher fr1 = c_encrypted_cipher c).
  { revert H1. unfold EncodeMessages.
    destruct (negb ((v1 =? 2)%Z || (v1 =? 3)%Z)); [ discriminate | ].
    unfold bind at 1. unfold ret at 1. cbv beta iota.
    unfold bind at 1. rewrite make_nonce_run.
    assert (Hrest : forall t sa,
              time_us sa = time_us s -> cipher_cache sa = cipher_cache s ->
              bind (destination_cipher (Some d)) (encode_with_cipher ml1 r1 t v1) sa
              = (Ok (fr1, ts1), s1) ->
              exists c cache',
                TimeBasedCache.Get (time_us s1) d (cipher_cache s1) = Some (c, cache')
                /\ encrypted_cipher fr1 = c_encrypted_cipher c).
    { intros t sa Ha1 Ha2. bind_destruct.
      match goal with
      | Hd : destination_cipher (Some d) sa = (Ok ?c, ?sb) |- _ =>
          destruct (@destination_cipher_cached d sa c sb) as (Hb & cache' & Hget);
          [ rewrite Ha2; exact Hsize | rewrite Ha2; exact Hage | exact Hd | ];
          intro Henc;
          pose proof (@frame_encode_with_cipher _ _
                        (fun s => (time_us s, cipher_cache s))
                        (fun _ _ => eq_refl) ml1 r1 t v1 c sb) as Hf;
          rewrite Henc in Hf; cbn [snd] in Hf; injection Hf as Hf1 Hf2;
          exists c, cache'; split;
          [ rewrite Hf1, Hf2; exact Hget
          | exact (proj1 (proj2 (encode_with_cipher_envelope _ _ _ _ _ _ Henc))) ]
      end. }
    destruct t1 as [t |]; cbv beta iota; apply Hrest; reflexivity. }
  destruct Hc as (c & cache' & Hget & He1).
  destruct (negb ((v2 =? 2)%Z || (v2 =? 3)%Z)) eqn:Hv.
  - unfold EncodeMessages. rewrite Hv. simpl. split; [ reflexivity | discriminate ].
  - rewrite (EncodeMessages_hit ml2 r2 d t2 v2 s1 Hv Hget).
    match goal with
    | |- context [encode_with_cipher ?a ?b ?t ?w ?x ?s0] =>
        pose proof (@frame_encode_with_cipher _ _ stats
                      (fun _ _ => eq_refl) a b t w x s0) as Hf;
        destruct (encode_with_cipher a b t w x s0) as [[[fr0 ts0] | e] s2] eqn:E
    end; cbn [fst snd] in *.
    + split; [ rewrite Hf; destruct t2; reflexivity | ].
      intros fr2 ts2 Hok. inversion Hok; subst.
      rewrite He1.
      exact (proj1 (proj2 (encode_with_cipher_envelope _ _ _ _ _ _ E))).
    + split; [ rewrite Hf; destruct t2; reflexivity | discriminate ].
Qed.

End CipherReuseTwice.

Section OldFrames.

Context {P : Primitives}.
Local Open Scope comm_scope.

Lemma bind_result_inv X (G : State -> X) A B (m : M A) (k : A -> M B) (s : State)
    (R : A -> Prop) (Q : Result B * State -> Prop) :
  preserves G m ->
  (forall a s1, m s = (Ok a, s1) -> R a) ->
  (forall a s1, R a -> G s1 = G s -> Q (k a s1)) ->
  (forall e s1, G s1 = G s -> Q (Err e, s1)) ->
  Q (bind m k s).
Proof.
  intros Hm HR Hk He. unfold bind. specialize (Hm s). specialize (HR).
  destruct (m s) as [[a | e] s1] eqn:E; simpl in *.
  - apply Hk; [ eapply HR; reflexivity | exact Hm ].
  - apply He. exact Hm.
Qed.

(** The cipher object of a frame older than version 3 is built unverified
    and without metadata. *)
Lemma ReceivedCipher__init___old rc priv s c s' :
  (3 <=? api_version rc)%Z = false ->
  ReceivedCipher__init__ rc priv s = (Ok c, s') ->
  rc_signature_verified c = false
  /\ rc_cipher_metadata c = None
  /\ rc_encrypted_cipher c = encrypted_cipher rc.
Proof.
  intro Hv. unfold ReceivedCipher__init__.
  bind_destruct. unfold try_except.
  match goal with
  | |- (match ?m ?s with _ => _ end) = _ -> _ => destruct (m s) as [[x | e] s1] eqn:E0
  end.
  - intro H. inversion H; subst. revert E0.
    bind_destruct. bind_destruct. bind_destruct.
    destruct (_ || _); [ discriminate | ].
    rewrite Hv. unfold ret. intro H0. inversion H0. repeat split.
  - destruct e; try discriminate.
Qed.

(** Once the private key has loaded, the constructor decrypts with it
    exactly once, and writes nothing else of the receiving side. *)
Lemma ReceivedCipher__init___once rc priv sk s :
  load_key_string priv = Some sk ->
  receiver_view (snd (ReceivedCipher__init__ rc priv s))
  = (encrypted_cipher_cache s, S (private_decrypt_calls s), private_key s).
Proof.
  intro Hsk.
  unfold ReceivedCipher__init__. unfold bind at 1. rewrite Hsk.
  simpl or_raise. unfold ret at 1. cbv beta iota.
  match goal with
  | |- receiver_view (snd (try_except (bind count_private_decrypt ?K) ?h s)) = _ =>
      change (try_except (bind count_private_decrypt K) h s)
        with (try_except (bind (ret tt) K) h
                (set_private_decrypt_calls (S (private_decrypt_calls s)) s));
      assert (Hp : preserves receiver_view (try_except (bind (ret tt) K) h))
  end.
  { preserves_tac;
      first [ apply frame_Decrypt
            | apply frame_VerifyCipherSignature; intros; reflexivity ]. }
  rewrite Hp. reflexivity.
Qed.

Lemma check_signature_old_cipher rc l c v s a c' s' :
  (v <? 3)%Z = true ->
  check_signature rc l c v s = (Ok (a, c'), s') -> c' = c.
Proof.
  intro Hv. unfold check_signature. rewrite Hv. cbv zeta.
  bind_destruct. bind_destruct. bind_destruct.
  match goal with
  | |- (if ?b then _ else _) _ = _ -> _ => destruct b
  end.
  - bind_destruct. unfold ret. intro H. inversion H; reflexivity.
  - unfold ret. intro H. inversion H; reflexivity.
Qed.

Lemma check_signature_old_frame rc l c v :
  (v <? 3)%Z = true -> preserves receiver_view (check_signature rc l c v).
Proof.
  intro Hv. unfold check_signature. rewrite Hv. cbv zeta.
  preserves_tac;
    first [ apply frame_GetRSAPublicKey
          | apply frame_Increment_rsa_operations
          | apply frame_Increment_authenticated_messages ];
    intros; reflexivity.
Qed.

(** Verifying a message of an old frame under a cipher object that is not
    in the cache leaves the cache as it was. *)
Lemma VerifyMessageSignature_old rc l c v s :
  (v <? 3)%Z = true ->
  FastStore.find (rc_encrypted_cipher c)
    (FastStore.entries (encrypted_cipher_cache s)) = None ->
  receiver_view (snd (VerifyMessageSignature rc l c v s)) = receiver_view s.
Proof.
  intros Hv Habs. unfold VerifyMessageSignature.
  apply (@bind_result_inv _ receiver_view _ _ _ _ s (fun ac => snd ac = c)
           (fun p => receiver_view (snd p) = receiver_view s)).
  - apply check_signature_old_frame. exact Hv.
  - intros [a c'] s1 E. simpl. eapply check_signature_old_cipher; eassumption.
  - intros [a c'] s1 Hc H1. simpl in Hc. subst c'.
    apply (@bind_result_inv _ receiver_view _ _ _ _ s1 (fun _ => True)
             (fun p => receiver_view (snd p) = receiver_view s)).
    + apply frame_read_timestamp.
    + auto.
    + intros ts s2 _ H2.
      assert (Hcache : encrypted_cipher_cache s2 = encrypted_cipher_cache s).
      { rewrite H1 in H2. unfold receiver_view in H2. congruence. }
      destruct (rc_cipher_metadata c).
      * unfold ret. cbn [snd]. rewrite H2. exact H1.
      * cbv zeta. unfold bind, mutate_cipher, modify, ret. cbn [snd].
        unfold receiver_view.
        cbn [encrypted_cipher_cache private_decrypt_calls private_key
             set_encrypted_cipher_cache rc_encrypted_cipher set_rc_cipher_metadata].
        rewrite Mutate_absent by (rewrite Hcache; exact Habs).
        fold (receiver_view s2). rewrite H2. exact H1.
    + intros e s2 H2. cbn [snd]. rewrite H2. exact H1.
  - intros e s1 H1. exact H1.
Qed.

(** One decode of a version 2 frame whose cipher is not in the cache. *)
Lemma DecodeMessages_old_step rc s sk :
  api_version rc = 2%Z ->
  truthy (encrypted_cipher rc) = true ->
  load_key_string (private_key s) = Some sk ->
  FastStore.find (encrypted_cipher rc)
    (FastStore.entries (encrypted_cipher_cache s)) = None ->
  receiver_view (snd (DecodeMessages rc s))
  = (encrypted_cipher_cache s, S (private_decrypt_calls s), private_key s).
Proof.
  intros Hv Ht Hsk Habs.
  pose proof (@ReceivedCipher__init___once rc (private_key s) sk s Hsk) as Honce.
  unfold DecodeMessages, DecodePayload.
  rewrite Hv, Ht. change (negb ((2 =? 2)%Z || (2 =? 3)%Z)) with false. cbv iota.
  rewrite !bind_assoc.
  unfold bind at 1.
  unfold received_cipher, try_except, encrypted_cipher_cache_Get, FastStore.Get.
  rewrite Habs. cbv beta iota.
  unfold bind at 1. unfold gets at 1. cbv beta iota.
  unfold bind at 1.
  destruct (ReceivedCipher__init__ rc (private_key s) s) as [[c | e] s2] eqn:E;
    cbn [snd] in Honce; [ | exact Honce ].
  destruct (@ReceivedCipher__init___old rc (private_key s) s c s2) as (Hu & Hmd & Hec);
    [ rewrite Hv; reflexivity | exact E | ].
  rewrite Hu. unfold bind at 1. unfold ret at 1. cbv beta iota.
  unfold ret at 1. cbv beta iota.
  rewrite <- Honce.
  assert (Habs2 : FastStore.find (rc_encrypted_cipher c)
                    (FastStore.entries (encrypted_cipher_cache s2)) = None).
  { rewrite Hec. unfold receiver_view in Honce.
    replace (encrypted_cipher_cache s2) with (encrypted_cipher_cache s) by congruence.
    exact Habs. }
  clear Honce E.
  apply (@bind_result_inv _ receiver_view _ _ _ _ s2 (fun p => fst (fst p) = c)
           (fun p => receiver_view (snd p) = receiver_view s2)).
  - preserves_tac;
      first [ apply frame_Rand_rand_add
            | apply frame_Decrypt
            | apply frame_DecompressMessageList ];
      intros; reflexivity.
  - intros p s3. bind_destruct. cbv zeta. bind_destruct. bind_destruct. bind_destruct.
    unfold ret. intro H. inversion H; reflexivity.
  - intros [[c0 l] ml] s3 Hc H3. simpl in Hc. subst c0.
    assert (Habs3 : FastStore.find (rc_encrypted_cipher c)
                      (FastStore.entries (encrypted_cipher_cache s3)) = None).
    { unfold receiver_view in H3.
      replace (encrypted_cipher_cache s3) with (encrypted_cipher_cache s2) by congruence.
      exact Habs2. }
    pose proof (@VerifyMessageSignature_old rc l c 2 s3 eq_refl Habs3) as Hver.
    unfold bind.
    destruct (VerifyMessageSignature rc l c 2 s3) as [[[a c'] | e] s4];
      cbn [snd] in Hver.
    + destruct (rc_cipher_metadata c'); simpl; rewrite Hver; exact H3.
    + simpl. rewrite Hver. exact H3.
  - intros e s3 H3. exact H3.
Qed.

(** Version 2 frames are never served from the cache: as long as no cipher
    is stored under the frame's [encrypted_cipher], every decode of the
    frame decrypts with the private key again and stores nothing. *)
Theorem decode_v2_unwraps_every_time rc n s sk :
  api_version rc = 2%Z ->
  truthy (encrypted_cipher rc) = true ->
  load_key_string (private_key s) = Some sk ->
  FastStore.find (encrypted_cipher rc)
    (FastStore.entries (encrypted_cipher_cache s)) = None ->
  private_decrypt_calls (decode_all (repeat rc n) s) = n + private_decrypt_calls s
  /\ encrypted_cipher_cache (decode_all (repeat rc n) s) = encrypted_cipher_cache s.
Proof.
  intros Hv Ht. revert s.
  induction n as [| n IH]; intros s Hsk Habs; [ split; reflexivity | ].
  pose proof (DecodeMessages_old_step rc s Hv Ht Hsk Habs) as Hstep.
  unfold receiver_view in Hstep. injection Hstep as Hc Hn Hk.
  change (decode_all (repeat rc (S n)) s)
    with (decode_all (repeat rc n) (snd (DecodeMessages rc s))).
  destruct (IH (snd (DecodeMessages rc s))) as [IH1 IH2].
  - rewrite Hk. exact Hsk.
  - rewrite Hc. exact Habs.
  - rewrite IH1, IH2, Hn, Hc. split; [ lia | reflexivity ].
Qed.

End OldFrames.

Section Soundness.

Context {P : Primitives}.
Local Open Scope comm_scope.

(** A verification that turns an unverified cipher object into a verified
    one has found the signer's key in the directory and the signature
    good. *)
Lemma VerifyCipherSignature_verified_inv c s c' s' :
  VerifyCipherSignature c s = (Ok c', s') ->
  rc_signature_verified c = false ->
  rc_signature_verified c' = true ->
  exists md pem pk,
    rc_cipher_metadata c = Some md
    /\ FastStore.find (source md) (FastStore.entries (pub_key_cache s)) = Some pem
    /\ load_pub_key_bio pem = Some pk
    /\ rsa_verify pk (hash_function (rc_serialized_cipher c)) (signature md)
         hash_function_name = Some true.
Proof.
  unfold VerifyCipherSignature.
  destruct (rc_cipher_metadata c) as [md |]; [ | discriminate ].
  destruct (truthy (signature md));
    [ | intros H Hu Hv; inversion H; subst; congruence ].
  unfold try_except.
  match goal with
  | |- (match ?m s with _ => _ end) = _ -> _ => destruct (m s) as [[x | e] s1] eqn:E
  end.
  - intros H Hu Hv. inversion H; subst; clear H. revert E.
    bind_destruct. bind_destruct. bind_destruct.
    match goal with
    | |- (if ?b then _ else _) _ = _ -> _ => destruct b eqn:Eb
    end; unfold ret; intro H0; inversion H0; subst; [ | congruence ].
    match goal with
    | H1 : GetRSAPublicKey _ _ = (Ok ?pk, _), H3 : or_raise _ _ _ = _ |- _ =>
        destruct (GetRSAPublicKey_Ok _ _ H1) as (pem & Hf & Hl);
        destruct (or_raise_Ok _ _ _ H3) as [Hver _];
        exists md, pem, pk; repeat split; assumption
    end.
  - destruct e; try discriminate;
      unfold ret; intros H Hu Hv; inversion H; subst; congruence.
Qed.


Ltac or_raise_inv :=
  repeat match goal with
         | H : or_raise _ _ _ = (Ok _, _) |- _ =>
             apply or_raise_Ok in H; destruct H as [? ?]; subst
         end.

Lemma DecodePayload_Ok_inv rc s c l ml s1 :
  DecodePayload rc s = (Ok (c, l, ml), s1) ->
  exists sa,
    received_cipher rc s = (Ok c, sa)
    /\ forall k, decode_view k s1 = decode_view k sa.
Proof.
  unfold DecodePayload.
  destruct (negb _); [ discriminate | ].
  destruct (truthy _); [ | discriminate ].
  bind_destruct.
  match goal with
  | |- ?rest ?sa = _ -> _ =>
      intro H;
      assert (Hview : forall k, decode_view k s1 = decode_view k sa)
  end.
  { intro k.
    match type of H with
    | ?rest ?sa = _ =>
        assert (Hp : preserves (decode_view k) rest)
          by (cbv zeta; preserves_tac; view_frame);
        specialize (Hp sa); rewrite H in Hp; exact Hp
    end. }
  revert H. bind_destruct. cbv zeta. bind_destruct. bind_destruct. bind_destruct.
  unfold ret. intro H. inversion H; subst.
  eexists. split; [ reflexivity | exact Hview ].
Qed.

Lemma check_signature_old_authenticated rc l c v s c' s' :
  (v <? 3)%Z = true ->
  check_signature rc l c v s = (Ok (AUTHENTICATED, c'), s') ->
  exists pem pk,
    FastStore.find (sml_source l) (FastStore.entries (pub_key_cache s)) = Some pem
    /\ load_pub_key_bio pem = Some pk
    /\ rsa_verify pk (hash_function (sml_message_list l)) (sml_signature l)
         hash_function_name = Some true.
Proof.
  intro Hv. unfold check_signature. rewrite Hv. cbv zeta.
  bind_destruct. bind_destruct. bind_destruct.
  match goal with
  | |- (if ?b then _ else _) _ = _ -> _ => destruct b eqn:Eb
  end; [ | unfold ret; discriminate ].
  intros _.
  match goal with
  | H1 : GetRSAPublicKey _ _ = (Ok ?pk, _), H3 : or_raise _ _ _ = _ |- _ =>
      destruct (GetRSAPublicKey_Ok _ _ H1) as (pem & Hf & Hl);
      destruct (or_raise_Ok _ _ _ H3) as [Hver _];
      exists pem, pk; repeat split; assumption
  end.
Qed.

Lemma VerifyMessageSignature_Ok_inv rc l c v s a c' s' :
  VerifyMessageSignature rc l c v s = (Ok (a, c'), s') ->
  exists res c1 s2 t,
    check_signature rc l c v s = (Ok (res, c1), s2)
    /\ timestamp s2 = Some t
    /\ a = (if (sml_timestamp l =? t)%Z then res else UNAUTHENTICATED)
    /\ match rc_cipher_metadata c1 with
       | Some _ => c' = c1
       | None => rc_cipher_metadata c'
                 = Some {| source := sml_source l; signature := [] |}
       end.
Proof.
  unfold VerifyMessageSignature.
  bind_destruct.
  match goal with
  | H : check_signature _ _ _ _ _ = (Ok ?p, ?s2) |- _ => destruct p as [res c1]
  end.
  unfold bind at 1. unfold read_timestamp.
  match goal with
  | |- context [timestamp ?s2] => destruct (timestamp s2) as [t |] eqn:Et
  end; simpl or_raise; [ | discriminate ].
  unfold ret at 1. cbv beta iota zeta.
  intro H. exists res, c1. do 2 eexists.
  split; [ reflexivity | split; [ exact Et | ] ].
  destruct (rc_cipher_metadata c1).
  - unfold ret in H. inversion H; subst. split; reflexivity.
  - unfold bind, mutate_cipher, modify, ret in H. inversion H; subst.
    split; reflexivity.
Qed.

Lemma auth_state_mark a src (l : list GrrMessage) m :
  In m (map (mark a src) l) -> auth_state m = a.
Proof.
  intro H. apply in_map_iff in H. destruct H as (x & <- & _). reflexivity.
Qed.

Lemma received_cipher_miss_inv rc s c sa :
  FastStore.find (encrypted_cipher rc)
    (FastStore.entries (encrypted_cipher_cache s)) = None ->
  received_cipher rc s = (Ok c, sa) ->
  exists s0,
    ReceivedCipher__init__ rc (private_key s) s = (Ok c, s0)
    /\ forall k, decode_view k sa = decode_view k s0.
Proof.
  intro Hmiss.
  unfold received_cipher, try_except, encrypted_cipher_cache_Get, FastStore.Get.
  rewrite Hmiss. cbv beta iota.
  unfold bind at 1. unfold gets at 1. cbv beta iota.
  bind_destruct.
  match goal with
  | |- ?rest ?s0 = _ -> _ =>
      intro H;
      assert (Hview : forall k, decode_view k sa = decode_view k s0)
  end.
  { intro k.
    match type of H with
    | ?rest ?s0 = _ =>
        assert (Hp : preserves (decode_view k) rest) by preserves_tac;
        specialize (Hp s0); rewrite H in Hp; exact Hp
    end. }
  revert H. bind_destruct. unfold ret. intro H. inversion H; subst.
  eexists. split; [ reflexivity | exact Hview ].
Qed.

(** A batch of a version 2 frame is marked [AUTHENTICATED] only if the
    nonce is the stored one and the signature of the message list is good
    under the directory's key for the name the list itself gives as its
    source. *)
Theorem DecodeMessages_v2_authenticated rc s msgs src ts s' m :
  api_version rc = 2%Z ->
  DecodeMessages rc s = (Ok (msgs, src, ts), s') ->
  In m msgs -> auth_state m = AUTHENTICATED ->
  timestamp s = Some ts
  /\ exists c l ml s1 pem pk,
       DecodePayload rc s = (Ok (c, l, ml), s1)
       /\ FastStore.find (sml_source l) (FastStore.entries (pub_key_cache s)) = Some pem
       /\ load_pub_key_bio pem = Some pk
       /\ rsa_verify pk (hash_function (sml_message_list l)) (sml_signature l)
            hash_function_name = Some true
       /\ (FastStore.find (encrypted_cipher rc)
             (FastStore.entries (encrypted_cipher_cache s)) = None ->
           src = sml_source l).
Proof.
  intros Hv H Hin Hauth.
  destruct (DecodeMessages_Ok_inv _ _ H)
    as (c & l & ml & s1 & a & c' & md & Hp & Hver & Hmd & Hmsgs & Hsrc & Hts).
  subst msgs. rewrite (auth_state_mark _ _ _ _ Hin) in Hauth. subst a.
  destruct (VerifyMessageSignature_Ok_inv _ _ _ _ _ Hver)
    as (res & c1 & s2 & t & Hc & Ht & Ha & Hmeta).
  rewrite Hv in Hc.
  destruct (Z.eqb_spec (sml_timestamp l) t) as [Hnonce | Hnonce]; [ | discriminate ].
  subst res.
  destruct (@check_signature_old_authenticated rc l c 2%Z s1 c1 s2 eq_refl Hc)
    as (pem & pk & Hf & Hl & Hok).
  pose proof (@frame_DecodePayload _ _ (decode_view (sml_source l))
                ltac:(view_side) ltac:(view_side) ltac:(view_side)
                ltac:(view_side) ltac:(view_side) rc s) as F1.
  rewrite Hp in F1. cbn [snd] in F1.
  pose proof (@frame_check_signature _ _ timestamp
                ltac:(view_side) ltac:(view_side) ltac:(view_side) rc l c 2%Z s1) as F2.
  rewrite Hc in F2. cbn [snd] in F2.
  unfold decode_view in F1. injection F1 as F1t _ F1f.
  split.
  - rewrite <- F1t, <- F2, Ht, <- Hnonce, Hts. reflexivity.
  - exists c, l, ml, s1, pem, pk.
    do 3 (split; [ first [ assumption | rewrite <- F1f; exact Hf ] | ]).
    split; [ exact Hok | ].
    intro Hmiss.
    destruct (DecodePayload_Ok_inv _ _ Hp) as (sa & Hrc & _).
    destruct (received_cipher_miss_inv _ _ Hmiss Hrc) as (s0 & Hinit & _).
    destruct (@ReceivedCipher__init___old _ rc (private_key s) s c s0) as (_ & Hnone & _);
      [ rewrite Hv; reflexivity | exact Hinit | ].
    rewrite (@check_signature_old_cipher _ rc l c 2%Z s1 AUTHENTICATED c1 s2 eq_refl Hc)
      in Hmeta.
    rewrite Hnone in Hmeta. rewrite Hmeta in Hmd. injection Hmd as <-.
    exact Hsrc.
Qed.


(** What a successfully built cipher object of a version 3 frame is made
    of. *)
Lemma ReceivedCipher__init___new_inv rc priv s c s' :
  (3 <=? api_version rc)%Z = true ->
  ReceivedCipher__init__ rc priv s = (Ok c, s') ->
  exists sk ser props plain md sa,
    load_key_string priv = Some sk
    /\ private_decrypt sk (encrypted_cipher rc) = Some ser
    /\ CipherProperties_Parse ser = Some props
    /\ evp_decrypt cipher_name (key props) (iv props) (encrypted_cipher_metadata rc)
       = Some plain
    /\ CipherMetadata_Parse plain = Some md
    /\ (forall k, decode_view k sa = decode_view k s)
    /\ VerifyCipherSignature
         {| rc_private_key := priv;
            rc_encrypted_cipher := encrypted_cipher rc;
            rc_serialized_cipher := ser;
            rc_cipher := props;
            rc_encrypted_cipher_metadata := Some (encrypted_cipher_metadata rc);
            rc_cipher_metadata := Some md;
            rc_signature_verified := false |} sa = (Ok c, s').
Proof.
  intro Hv. unfold ReceivedCipher__init__.
  bind_destruct. unfold try_except.
  match goal with
  | |- (match ?m ?s with _ => _ end) = _ -> _ => destruct (m s) as [[x | e] s1] eqn:E0
  end.
  - intro H. inversion H; subst. revert E0.
    bind_destruct. bind_destruct. bind_destruct.
    destruct (_ || _); [ discriminate | ].
    rewrite Hv. destruct (negb _); [ discriminate | ].
    bind_destruct. bind_destruct. unfold Decrypt in *.
    intro Hver.
    match goal with
    | H0 : count_private_decrypt _ = _ |- _ =>
        unfold count_private_decrypt, modify in H0; inversion H0; subst; clear H0
    end.
    or_raise_inv.
    match goal with
    | Hx : VerifyCipherSignature _ ?sa = _ |- _ =>
        do 5 eexists; exists sa;
        do 5 (split; [ eassumption | ]); split; [ intro; reflexivity | exact Hx ]
    end.
  - destruct e; try discriminate.
Qed.

Lemma check_signature_new_authenticated rc l c v s c1 s' :
  (v <? 3)%Z = false ->
  check_signature rc l c v s = (Ok (AUTHENTICATED, c1), s') ->
  hmac rc = HMAC (rc_cipher c) (encrypted rc)
  /\ rc_signature_verified c1 = true
  /\ ((rc_signature_verified c = true /\ c1 = c)
      \/ (rc_signature_verified c = false
          /\ exists s2, VerifyCipherSignature c s = (Ok c1, s2))).
Proof.
  intro Hv. unfold check_signature. rewrite Hv.
  destruct (bytes_eqb _ _) eqn:Eh; [ | discriminate ].
  apply bytes_eqb_eq in Eh.
  change (negb true) with false. cbv iota.
  destruct (rc_signature_verified c) eqn:Ec.
  - change (negb true) with false. cbv iota.
    unfold bind at 1. unfold ret at 1. cbv beta iota. rewrite Ec.
    bind_destruct. unfold ret. intro H. inversion H; subst.
    repeat split; auto.
  - change (negb false) with true. cbv iota.
    bind_destruct.
    match goal with
    | |- (if ?b then _ else _) _ = _ -> _ => destruct b eqn:Eb
    end; [ | unfold ret; discriminate ].
    bind_destruct. unfold ret. intro H. inversion H; subst; clear H.
    revert E. bind_destruct. bind_destruct. unfold ret. intro H. inversion H; subst.
    repeat split; auto. right. split; [ reflexivity | eauto ].
Qed.


(** A batch of a version 3 frame whose cipher was not in the cache is
    marked [AUTHENTICATED] only if the nonce is the stored one, the HMAC
    under the unwrapped cipher is the frame's, and the signature in the
    cipher's metadata is good under the directory's key for the metadata's
    source, which is the source the batch is attributed to. *)
Theorem DecodeMessages_v3_authenticated rc s msgs src ts s' m :
  api_version rc = 3%Z ->
  FastStore.find (encrypted_cipher rc)
    (FastStore.entries (encrypted_cipher_cache s)) = None ->
  DecodeMessages rc s = (Ok (msgs, src, ts), s') ->
  In m msgs -> auth_state m = AUTHENTICATED ->
  timestamp s = Some ts
  /\ exists sk ser props plain md pem pk,
       load_key_string (private_key s) = Some sk
       /\ private_decrypt sk (encrypted_cipher rc) = Some ser
       /\ CipherProperties_Parse ser = Some props
       /\ evp_decrypt cipher_name (key props) (iv props) (encrypted_cipher_metadata rc)
          = Some plain
       /\ CipherMetadata_Parse plain = Some md
       /\ source md = src
       /\ FastStore.find src (FastStore.entries (pub_key_cache s)) = Some pem
       /\ load_pub_key_bio pem = Some pk
       /\ rsa_verify pk (hash_function ser) (signature md) hash_function_name
          = Some true
       /\ hmac rc = HMAC props (encrypted rc).
Proof.
  intros Hv Hmiss H Hin Hauth.
  destruct (DecodeMessages_Ok_inv _ _ H)
    as (c & l & ml & s1 & a & c' & md' & Hp & Hver & Hmd & Hmsgs & Hsrc & Hts).
  subst msgs. rewrite (auth_state_mark _ _ _ _ Hin) in Hauth. subst a.
  destruct (VerifyMessageSignature_Ok_inv _ _ _ _ _ Hver)
    as (res & c1 & s2 & t & Hc & Ht & Ha & Hmeta).
  rewrite Hv in Hc.
  destruct (Z.eqb_spec (sml_timestamp l) t) as [Hnonce | Hnonce]; [ | discriminate ].
  subst res.
  destruct (@check_signature_new_authenticated rc l c 3%Z s1 c1 s2 eq_refl Hc)
    as (Hh & Hv1 & Hcase).
  destruct (DecodePayload_Ok_inv _ _ Hp) as (sa & Hrc & V1).
  destruct (received_cipher_miss_inv _ _ Hmiss Hrc) as (s0 & Hinit & V2).
  destruct (@ReceivedCipher__init___new_inv rc (private_key s) s c s0)
    as (sk & ser & props & plain & md & sb & Hl & Hd & Hpp & He & Hm & V3 & Hvc);
    [ rewrite Hv; reflexivity | exact Hinit | ].
  pose proof (@frame_check_signature _ _ timestamp
                ltac:(view_side) ltac:(view_side) ltac:(view_side) rc l c 3%Z s1) as F2.
  rewrite Hc in F2. cbn [snd] in F2.
  assert (Hview : forall k, decode_view k s1 = decode_view k s).
  { intro k. rewrite V1, V2.
    pose proof (@frame_VerifyCipherSignature _ _ (decode_view k)
                  ltac:(view_side) ltac:(view_side)) as F3.
    match type of Hvc with
    | VerifyCipherSignature ?c0 _ = _ => specialize (F3 c0 sb)
    end.
    rewrite Hvc in F3. cbn [snd] in F3. rewrite F3. apply V3. }
  split.
  { pose proof (Hview []) as V. unfold decode_view in V. injection V as Vt _ _.
    rewrite <- Vt, <- F2, Ht, <- Hnonce, Hts. reflexivity. }
  assert (Hfacts : rc_cipher c = props /\ rc_cipher_metadata c1 = Some md
                   /\ exists pem pk,
                        FastStore.find (source md) (FastStore.entries (pub_key_cache s))
                        = Some pem
                        /\ load_pub_key_bio pem = Some pk
                        /\ rsa_verify pk (hash_function ser) (signature md)
                             hash_function_name = Some true).
  { destruct (VerifyCipherSignature_result _ _ Hvc) as [Hc0 | Hc0].
    - (* not verified when built *)
      destruct Hcase as [[Hcv _] | [_ [s3 Hagain]]];
        [ rewrite Hc0 in Hcv; discriminate | ].
      rewrite Hc0 in Hagain.
      destruct (VerifyCipherSignature_verified_inv _ _ Hagain eq_refl Hv1)
        as (md0 & pem & pk & Hmd0 & Hf & Hlp & Hok).
      cbn in Hmd0. injection Hmd0 as <-. cbn in Hok.
      split; [ rewrite Hc0; reflexivity | split ].
      + destruct (VerifyCipherSignature_result _ _ Hagain) as [-> | ->]; reflexivity.
      + exists pem, pk. repeat split; try assumption.
        pose proof (Hview (source md)) as V. unfold decode_view in V.
        injection V as _ _ Vf. rewrite <- Vf. exact Hf.
    - (* verified when built *)
      destruct Hcase as [[_ Hc1] | [Hcv _]];
        [ | rewrite Hc0 in Hcv; discriminate ].
      destruct (@VerifyCipherSignature_verified_inv _ _ _ _ Hvc eq_refl)
        as (md0 & pem & pk & Hmd0 & Hf & Hlp & Hok);
        [ rewrite Hc0; reflexivity | ].
      cbn in Hmd0. injection Hmd0 as <-. cbn in Hok.
      split; [ rewrite Hc0; reflexivity | split ].
      + rewrite Hc1, Hc0. reflexivity.
      + exists pem, pk. repeat split; try assumption.
        pose proof (V3 (source md)) as V. unfold decode_view in V.
        injection V as _ _ Vf. rewrite <- Vf. exact Hf. }
  destruct Hfacts as (Hprops & Hmd1 & pem & pk & Hf & Hlp & Hok).
  rewrite Hmd1 in Hmeta. subst c'. rewrite Hmd1 in Hmd. injection Hmd as <-.
  exists sk, ser, props, plain, md, pem, pk.
  rewrite Hsrc. rewrite <- Hprops.
  repeat split; try assumption; try reflexivity.
  all: try (rewrite Hprops; assumption).
Qed.

End Soundness.

Lemma DecompressMessageList_EncodeMessageList_witness :
  @DecompressMessageList Toy.primitives
    (@EncodeMessageList Toy.primitives "ZCOMPRESS" Scenario.batch (new_SignedMessageList 7))
    Scenario.server
  = (Ok Scenario.batch, Scenario.server).
Proof.
  apply (@DecompressMessageList_EncodeMessageList Toy.primitives).
  - exact Toy_laws.
  - reflexivity.
Defined.

Lemma PubKeyCache_Put_GetRSAPublicKey_witness :
  fst (@GetRSAPublicKey Toy.primitives (Some ["N"%byte])
         (snd (@PubKeyCache_Put Toy.primitives ["N"%byte] ["K"%byte] Scenario.server)))
  = Ok ["K"%byte].
Proof.
  apply (@PubKeyCache_Put_GetRSAPublicKey Toy.primitives).
  - vm_compute. discriminate.
  - reflexivity.
Defined.

Lemma EncodeMessages_cached_cipher_witness :
  stats (snd (@EncodeMessages Toy.primitives Scenario.batch new_ClientCommunication
                (Some Scenario.server_cert) None 3 Scenario.client_after_send))
  = stats Scenario.client_after_send.
Proof.
  destruct (@TimeBasedCache.Get Cipher
              (time_us Scenario.client_after_send) Scenario.server_cert
              (cipher_cache Scenario.client_after_send)) as [[c cache'] |] eqn:G.
  - exact (proj1 (@EncodeMessages_cached_cipher Toy.primitives Scenario.batch
                    new_ClientCommunication Scenario.server_cert None 3
                    Scenario.client_after_send c cache' G)).
  - vm_compute in G. discriminate.
Defined.

Lemma EncodeMessages_unknown_destination_witness :
  fst (@EncodeMessages Toy.primitives Scenario.batch new_ClientCommunication
         (Some ["?"%byte]) None 3 Scenario.client)
  = Err (KeyError "No certificate found").
Proof.
  apply (@EncodeMessages_unknown_destination Toy.primitives Scenario.batch
           new_ClientCommunication ["?"%byte] None 3 Scenario.client
           Scenario.client_cert).
  - right. reflexivity.
  - vm_compute. reflexivity.
  - vm_compute. reflexivity.
  - vm_compute. reflexivity.
  - intro dg. discriminate.
Defined.

Lemma EncodeMessages_twice_same_cipher_witness :
  encrypted_cipher Scenario.second_frame = encrypted_cipher (Scenario.frame 3).
Proof.
  assert (H1 : @EncodeMessages Toy.primitives Scenario.batch new_ClientCommunication
                 (Some Scenario.server_cert) None 3 Scenario.client
               = (Ok (Scenario.frame 3, 7%Z), Scenario.client_after_send))
    by (vm_compute; reflexivity).
  apply (proj2 (@EncodeMessages_twice_same_cipher Toy.primitives
                  Scenario.batch new_ClientCommunication None 3
                  Scenario.batch new_ClientCommunication None 2
                  Scenario.server_cert Scenario.client (Scenario.frame 3) 7%Z
                  Scenario.client_after_send
                  ltac:(vm_compute; discriminate) ltac:(vm_compute; discriminate) H1)
           Scenario.second_frame 7%Z).
  vm_compute. reflexivity.
Defined.

Lemma decode_v2_unwraps_every_time_witness :
  private_decrypt_calls
    (@decode_all Toy.primitives (repeat (Scenario.frame 2) 3)
       (Scenario.server_expecting 7)) = 3.
Proof.
  apply (proj1 (@decode_v2_unwraps_every_time Toy.primitives (Scenario.frame 2) 3
                  (Scenario.server_expecting 7) Scenario.server_cert
                  ltac:(vm_compute; reflexivity) ltac:(vm_compute; reflexivity)
                  ltac:(vm_compute; reflexivity) ltac:(vm_compute; reflexivity))).
Defined.

Lemma DecodeMessages_v2_authenticated_witness :
  timestamp (Scenario.server_expecting 7) = Some 7%Z.
Proof.
  assert (H : @DecodeMessages Toy.primitives (Scenario.frame 2)
                (Scenario.server_expecting 7)
              = (Ok (map (mark AUTHENTICATED Scenario.client_cert) (job Scenario.batch),
                     Scenario.client_cert, 7%Z),
                 snd (@DecodeMessages Toy.primitives (Scenario.frame 2)
                        (Scenario.server_expecting 7))))
    by (vm_compute; reflexivity).
  apply (proj1 (@DecodeMessages_v2_authenticated Toy.primitives (Scenario.frame 2)
                  (Scenario.server_expecting 7) _ _ _ _
                  (mark AUTHENTICATED Scenario.client_cert
                     (Scenario.message ["B"%byte]))
                  ltac:(vm_compute; reflexivity) H
                  ltac:(right; left; reflexivity) eq_refl)).
Defined.

Lemma DecodeMessages_v3_authenticated_witness :
  timestamp (Scenario.server_expecting 7) = Some 7%Z.
Proof.
  assert (H : @DecodeMessages Toy.primitives (Scenario.frame 3)
                (Scenario.server_expecting 7)
              = (Ok (map (mark AUTHENTICATED Scenario.client_cert) (job Scenario.batch),
                     Scenario.client_cert, 7%Z),
                 snd (@DecodeMessages Toy.primitives (Scenario.frame 3)
                        (Scenario.server_expecting 7))))
    by (vm_compute; reflexivity).
  apply (proj1 (@DecodeMessages_v3_authenticated Toy.primitives (Scenario.frame 3)
                  (Scenario.server_expecting 7) _ _ _ _
                  (mark AUTHENTICATED Scenario.client_cert
                     (Scenario.message ["B"%byte]))
                  ltac:(vm_compute; reflexivity) ltac:(vm_compute; reflexivity) H
                  ltac:(right; left; reflexivity) eq_refl)).
Defined.
